(** * Oddsfun backend: bet lifecycle, validation helpers and store

    A shallow embedding of [src/db.js], [src/solana.js], [src/routes/bets.js],
    [src/server.js] and [src/utils/validate.js].

    - JavaScript numbers are IEEE 754 binary64 values: they are embedded as
      Rocq's primitive floats, so [Math.round(n * 1e9) / 1e9] is computed
      bit for bit as the engine computes it.
    - Request bodies are JSON: every field is a [JsValue] (absent fields are
      [JsUndefined]), and the coercions the handlers rely on (truthiness,
      [typeof], [===], [Number(..)], template strings) are written out.
    - The SQLite file is a pair of finite maps keyed by the primary key.
    - Everything the repository delegates to a library (the database driver,
      the Solana client, ethers, nanoid, the clock, the process environment)
      is an explicit input: a field of [Host] or of [World]. *)

From Stdlib Require Import ZArith Floats Uint63 String Ascii Bool List.
From stdpp Require Import gmap strings list fin_maps sorting.

Set Warnings "-inexact-float,-register-all".

Local Open Scope string_scope.

(** ** JavaScript values *)

Inductive JsValue : Type :=
| JsUndefined
| JsNull
| JsBool (b : bool)
| JsNumber (n : float)
| JsString (s : string)
| JsArray (items : list JsValue)
| JsObject (fields : list (string * JsValue)).

(** What a [throw] carries: the [message] of the error and the optional
    [status] property that [assert] sets.  Errors raised by libraries have
    no [status]. *)
Record Exn : Type := { e_message : string; e_status : option Z }.

Inductive Result (A : Type) : Type :=
| Ok (a : A)
| Throw (e : Exn).
Arguments Ok {A} a.
Arguments Throw {A} e.

Definition TypeError (msg : string) : Exn := {| e_message := msg; e_status := None |}.

(** [typeof v === 'string'] *)
Definition is_string (v : JsValue) : bool :=
  match v with JsString _ => true | _ => false end.

(** ToBoolean: the truthiness test of [&&], [!] and [||]. *)
Definition truthy (v : JsValue) : bool :=
  match v with
  | JsUndefined | JsNull => false
  | JsBool b => b
  | JsNumber n => negb (PrimFloat.eqb n 0 || is_nan n)
  | JsString s => negb (String.eqb s "")
  | JsArray _ | JsObject _ => true
  end.

(** [a === b] for two values that come from different places (a request, a
    database row, an RPC reply, a literal): objects and arrays are compared
    by reference, so two of them from different places are never equal. *)
Definition strict_equals (a b : JsValue) : bool :=
  match a, b with
  | JsUndefined, JsUndefined => true
  | JsNull, JsNull => true
  | JsBool x, JsBool y => Bool.eqb x y
  | JsNumber x, JsNumber y => PrimFloat.eqb x y
  | JsString x, JsString y => String.eqb x y
  | _, _ => false
  end.

(** [a ?? b] *)
Definition nullish (a b : JsValue) : JsValue :=
  match a with JsUndefined | JsNull => b | _ => a end.

(** ** Numbers *)

(** [LAMPORTS_PER_SOL] of [@solana/web3.js]. *)
Definition LAMPORTS_PER_SOL : float := 1000000000%float.

(** The integer [z] as a float, for [|z| < 2^63] (here [|z| <= 2^53]). *)
Definition float_of_Z (z : Z) : float :=
  if (z <? 0)%Z then PrimFloat.opp (of_uint63 (Uint63.of_Z (- z)))
  else of_uint63 (Uint63.of_Z z).

(** [Math.round]: NaN, the infinities, the zeros and the integral floats are
    returned as they are; any other float [m * 2^e] (with [e < 0], so below
    [2^53] in magnitude) goes to [floor (x + 1/2)], computed exactly on
    integers, ties towards plus infinity, and [-0] when the result is zero
    and [x] is negative. *)
Definition Math_round (x : float) : float :=
  match Prim2SF x with
  | S754_finite s m e =>
      if (0 <=? e)%Z then x
      else
        let d := (2 ^ (- e))%Z in
        let n := if s then Z.neg m else Z.pos m in
        let r := ((2 * n + d) / (2 * d))%Z in
        if (r =? 0)%Z then (if s then PrimFloat.neg_zero else PrimFloat.zero)
        else float_of_Z r
  | _ => x
  end.

(** [Number.isFinite] on a number. *)
Definition Number_isFinite (n : float) : bool := is_finite n.

(** ** The host: the language runtime and the libraries

    [StringToNumber] and [NumberToString] are the engine's conversions
    between strings and numbers ([Number("1.5")], [String(1.5)]);
    [toLowerCase] is [String.prototype.toLowerCase].

    [bindOther] is what the database driver does with a value that is
    neither a string nor [null] when it is bound to a [TEXT] column or
    compared with one: it refuses it (a [TypeError]), binds [NULL], or binds
    a text.  [foreign_keys] is the engine's [PRAGMA foreign_keys] setting,
    which the code never changes: the driver's build of SQLite fixes it.

    [verifyMessage message signature] is
    [getAddress(verifyMessage(message, signature))] of ethers, and
    [transferTxBase64] the construction and serialization of the transfer
    transaction by [@solana/web3.js]; both can throw. *)

Inductive Bound : Type :=
| BindError
| BindNull
| BindText (s : string).

Record Host : Type := {
  StringToNumber : string -> float;
  NumberToString : float -> string;
  toLowerCase : string -> string;
  bindOther : JsValue -> Bound;
  foreign_keys : bool;
  verifyMessage : JsValue -> JsValue -> Result string;
  PublicKey : JsValue -> Result unit;
  transferTxBase64 : string -> JsValue -> JsValue -> float -> Result string
}.

(** A value bound to a [TEXT] column: a string is bound as it is and
    [null] as [NULL]. *)
Definition bindText (host : Host) (v : JsValue) : Bound :=
  match v with
  | JsString s => BindText s
  | JsNull => BindNull
  | _ => bindOther host v
  end.

Section Coercions.
Context (host : Host).

(** ToString, as template strings and [RegExp.prototype.test] apply it.
    [Array.prototype.toString] joins the elements with commas, [null] and
    [undefined] elements giving the empty string. *)
Fixpoint ToString (v : JsValue) : string :=
  match v with
  | JsUndefined => "undefined"
  | JsNull => "null"
  | JsBool true => "true"
  | JsBool false => "false"
  | JsNumber n => NumberToString host n
  | JsString s => s
  | JsArray items =>
      (fix join (l : list JsValue) : string :=
         match l with
         | [] => ""
         | x :: rest =>
             match x with JsUndefined | JsNull => "" | _ => ToString x end
             ++ match rest with [] => "" | _ => "," ++ join rest end
         end) items
  | JsObject _ => "[object Object]"
  end.

(** ToNumber, that is [Number(v)]: objects and arrays go through their
    string. *)
Definition ToNumber (v : JsValue) : float :=
  match v with
  | JsUndefined => PrimFloat.nan
  | JsNull => PrimFloat.zero
  | JsBool true => PrimFloat.one
  | JsBool false => PrimFloat.zero
  | JsNumber n => n
  | JsString s => StringToNumber host s
  | JsArray _ | JsObject _ => StringToNumber host (ToString v)
  end.
End Coercions.

(** ** [utils/validate.js] *)

(** [assert(condition, msg, status = 400)]: the caller passes the
    truthiness of its condition; the default status is written at the call. *)
Definition assert (condition : bool) (msg : string) (status : Z) : Result unit :=
  if condition then Ok tt
  else Throw {| e_message := msg; e_status := Some status |}.

Section Validate.
Context (host : Host).

(** [parseAmountSol(x)]; [None] is the [null] it returns. *)
Definition parseAmountSol (x : JsValue) : option float :=
  let n := ToNumber host x in
  if negb (Number_isFinite n) || PrimFloat.leb n 0 then None
  else Some (PrimFloat.div (Math_round (PrimFloat.mul n 1e9)) 1e9).
End Validate.

(** The wallet pattern [/^([1-9A-HJ-NP-Za-km-z]{32,44})$/]. *)
Definition base58_char (c : ascii) : bool :=
  let n := nat_of_ascii c in
  let between (lo hi : nat) := Nat.leb lo n && Nat.leb n hi in
  between 49 57 || between 65 72 || between 74 78
  || between 80 90 || between 97 107 || between 109 122.

Definition wallet_pattern_test (s : string) : bool :=
  forallb base58_char (list_ascii_of_string s)
  && Nat.leb 32 (String.length s) && Nat.leb (String.length s) 44.

(** ** [db.js]: the store *)

Inductive BetStatus : Type := PENDING | CONFIRMED | FAILED | RECEIPT_ONLY.
Inductive Chain : Type := solana | evm.

(** A row of [markets] and a row of [bets]; the [id] column of each table
    is its primary key and is the key of the map that holds the rows. *)
Record Market : Type := {
  name : string;
  category : string;
  yes : Z;
  no : Z;
  market_status : string;
  market_created_at : Z
}.

Record Bet : Type := {
  market_id : string;
  side : string;
  amount_sol : float;
  wallet : string;
  chain : Chain;
  created_at : Z;
  status : BetStatus;
  tx : option string;
  proof : option string
}.

Record Db : Type := {
  markets : gmap string Market;
  bets : gmap string Bet
}.

Definition set_markets (ms : gmap string Market) (db : Db) : Db :=
  {| markets := ms; bets := bets db |}.
Definition set_bets (bs : gmap string Bet) (db : Db) : Db :=
  {| markets := markets db; bets := bs |}.

(** Code that reads and writes the store and may throw: the store as it is
    when the exception leaves is kept (no statement is rolled back except
    inside [db.transaction]). *)
Definition M (A : Type) : Type := Db -> Result A * Db.

Definition ret {A : Type} (a : A) : M A := fun db => (Ok a, db).
Definition throw {A : Type} (e : Exn) : M A := fun db => (Throw e, db).
Definition lift {A : Type} (r : Result A) : M A := fun db => (r, db).
Definition bind {A B : Type} (m : M A) (k : A -> M B) : M B :=
  fun db =>
    match m db with
    | (Ok a, db') => k a db'
    | (Throw e, db') => (Throw e, db')
    end.

Declare Scope store_scope.
Delimit Scope store_scope with store.
Notation "'do' x <- m ; k" := (bind m (fun x => k))
  (at level 10, x name, m at level 100, k at level 200) : store_scope.
Local Open Scope store_scope.

Definition SqliteError (msg : string) : Exn := {| e_message := msg; e_status := None |}.

Definition bind_refused : Exn :=
  TypeError "SQLite3 can only bind numbers, strings, bigints, buffers, and null".

(** The 20 rows of [data] in [seedIfEmpty]. *)
Definition data : list (string * string * Z * Z) :=
  [ ("New York City Mayoral Election", "Politics", 62, 38);
    ("New Jersey Governor Election 2025", "Politics", 74, 26);
    ("Democratic sweep in Congress?", "Politics", 41, 59);
    ("Zohra Mamdani margin > 10%", "Politics", 28, 72);
    ("Heat vs Clippers — Heat win", "Sports", 46, 54);
    ("Kraken beat Blackhawks", "Sports", 64, 36);
    ("Canucks beat Predators", "Sports", 58, 42);
    ("Seattle vs Minnesota — Seattle win", "Sports", 62, 38);
    ("US Gov shutdown ends by next week", "Macro", 14, 86);
    ("Fed rate cut in December", "Macro", 35, 65);
    ("BTC > $100k by EOY", "Crypto", 22, 78);
    ("SOL > $400 by Q4", "Crypto", 31, 69);
    ("ETH ETF approved this quarter", "Crypto", 27, 73);
    ("Israel–Hamas ceasefire this month", "Politics", 18, 82);
    ("Maduro out by year end", "Politics", 21, 79);
    ("US CPI MoM < 0.1% next print", "Macro", 44, 56);
    ("OpenAI releases new flagship model", "Tech", 52, 48);
    ("Apple headset > 5M shipments in 2026", "Tech", 19, 81);
    ("Bitcoin dominance > 60% this year", "Crypto", 33, 67);
    ("S&P 500 makes new ATH this quarter", "Macro", 48, 52) ]%Z.

(** [stmt.run({ id, name, category, yes, no, created_at })]: one [INSERT]
    into [markets]; a second row with the same primary key is refused. *)
Definition insertMarket (id : string) (row : string * string * Z * Z) (now : Z)
    (ms : gmap string Market) : Result (gmap string Market) :=
  let '(name, category, yes, no) := row in
  match ms !! id with
  | Some _ => Throw (SqliteError "UNIQUE constraint failed: markets.id")
  | None =>
      Ok (<[id := {| name := name; category := category; yes := yes; no := no;
                     market_status := "LIVE"; market_created_at := now |}]> ms)
  end.

(** The loop of [insertMany]; [nanoid k] is the id drawn for the row of
    index [k]. *)
Fixpoint insertMany (nanoid : nat -> string) (k : nat) (now : Z)
    (rows : list (string * string * Z * Z)) (ms : gmap string Market)
    : Result (gmap string Market) :=
  match rows with
  | [] => Ok ms
  | row :: rest =>
      match insertMarket (nanoid k) row now ms with
      | Ok ms' => insertMany nanoid (S k) now rest ms'
      | Throw e => Throw e
      end
  end.

(** [seedIfEmpty()]: [db.transaction] commits the rows when the loop
    returns and rolls all of them back when it throws. *)
Definition seedIfEmpty (nanoid : nat -> string) (now : Z) : M unit :=
  fun db =>
    let count := size (markets db) in
    if Nat.ltb 0 count then (Ok tt, db)
    else
      match insertMany nanoid 0 now data (markets db) with
      | Ok ms => (Ok tt, set_markets ms db)
      | Throw e => (Throw e, db)
      end.

Definition bound_text (b : Bound) : option string :=
  match b with BindText s => Some s | _ => None end.

(** What a [REAL] column gives back for the number written to it.  The
    engine keeps a value without fractional part as an integer and turns it
    into a float again when the row is read: the sign of a negative zero is
    lost, and every other number comes back as it was written. *)
Definition real_column (x : float) : float :=
  if PrimFloat.eqb x 0 then 0%float else x.

Section Store.
Context (host : Host).

(** [createBet({ market_id, side, amount_sol, wallet, chain, status })];
    [nanoid] and [now] are what [nanoid()] and [Date.now()] return.  A
    parameter that cannot be bound is refused before the statement runs.
    The constraints of the schema are then checked by the engine: [NOT NULL]
    column by column, in the order of the table (a NaN is written as [NULL]),
    [CHECK (side IN ('YES','NO'))], [PRIMARY KEY], and
    [FOREIGN KEY (market_id)] when the engine enforces foreign keys.  The
    row holds the amount as the [REAL] column gives it back. *)
Definition createBet (nanoid : string) (now : Z) (market_id side : JsValue)
    (amount_sol : float) (wallet : JsValue) (chain : Chain) (status : BetStatus)
    : M string :=
  fun db =>
    match bindText host market_id, bindText host side, bindText host wallet with
    | BindError, _, _ | _, BindError, _ | _, _, BindError => (Throw bind_refused, db)
    | BindNull, _, _ =>
        (Throw (SqliteError "NOT NULL constraint failed: bets.market_id"), db)
    | _, BindNull, _ =>
        (Throw (SqliteError "NOT NULL constraint failed: bets.side"), db)
    | BindText m, BindText s, bound_wallet =>
        if is_nan amount_sol then
          (Throw (SqliteError "NOT NULL constraint failed: bets.amount_sol"), db)
        else
          match bound_wallet with
          | BindText w =>
              if negb (String.eqb s "YES" || String.eqb s "NO") then
                (Throw (SqliteError "CHECK constraint failed: side IN ('YES','NO')"), db)
              else if bool_decide (is_Some (bets db !! nanoid)) then
                (Throw (SqliteError "UNIQUE constraint failed: bets.id"), db)
              else if foreign_keys host
                      && negb (bool_decide (is_Some (markets db !! m))) then
                (Throw (SqliteError "FOREIGN KEY constraint failed"), db)
              else
                (Ok nanoid,
                 set_bets (<[nanoid := {| market_id := m; side := s;
                                          amount_sol := real_column amount_sol;
                                          wallet := w; chain := chain; created_at := now;
                                          status := status; tx := None; proof := None |}]>
                             (bets db)) db)
          | _ => (Throw (SqliteError "NOT NULL constraint failed: bets.wallet"), db)
          end
    end.

(** [markBetConfirmed({ id, tx, proof })]:
    [UPDATE bets SET status='CONFIRMED', tx=?, proof=? WHERE id=?] run
    with [(tx, proof ?? null, id)]. *)
Definition markBetConfirmed (id tx proof : JsValue) : M unit :=
  fun db =>
    match bindText host tx, bindText host (nullish proof JsNull), bindText host id with
    | BindError, _, _ | _, BindError, _ | _, _, BindError => (Throw bind_refused, db)
    | _, _, BindNull => (Ok tt, db)
    | t, p, BindText k =>
        (Ok tt,
         set_bets (alter (fun b =>
                     {| market_id := market_id b; side := side b;
                        amount_sol := amount_sol b; wallet := wallet b;
                        chain := chain b; created_at := created_at b;
                        status := CONFIRMED; tx := bound_text t;
                        proof := bound_text p |}) k (bets db)) db)
    end.

(** [markBetFailed({ id, tx, reason })]:
    [UPDATE bets SET status='FAILED', tx=? WHERE id=?] run with
    [(tx ?? null, id)]; [reason] is received and not used. *)
Definition markBetFailed (id tx reason : JsValue) : M unit :=
  fun db =>
    match bindText host (nullish tx JsNull), bindText host id with
    | BindError, _ | _, BindError => (Throw bind_refused, db)
    | _, BindNull => (Ok tt, db)
    | t, BindText k =>
        (Ok tt,
         set_bets (alter (fun b =>
                     {| market_id := market_id b; side := side b;
                        amount_sol := amount_sol b; wallet := wallet b;
                        chain := chain b; created_at := created_at b;
                        status := FAILED; tx := bound_text t;
                        proof := proof b |}) k (bets db)) db)
    end.

(** [getBet(id)] and the inline query of the confirm route:
    [SELECT * FROM bets WHERE id=?]. *)
Definition getBet (id : JsValue) : M (option Bet) :=
  fun db =>
    match bindText host id with
    | BindError => (Throw bind_refused, db)
    | BindNull => (Ok None, db)
    | BindText k => (Ok (bets db !! k), db)
    end.

(** [getMarket(id)]: [SELECT * FROM markets WHERE id=?]. *)
Definition getMarket (id : JsValue) : M (option Market) :=
  fun db =>
    match bindText host id with
    | BindError => (Throw bind_refused, db)
    | BindNull => (Ok None, db)
    | BindText k => (Ok (markets db !! k), db)
    end.
End Store.

Definition rbind {A B : Type} (r : Result A) (k : A -> Result B) : Result B :=
  match r with Ok a => k a | Throw e => Throw e end.

(** [assert(x, msg)] on a value that is a row or [undefined]: past it the
    row is in hand. *)
Definition assert_some {A : Type} (x : option A) (msg : string) (status : Z) : Result A :=
  match x with
  | Some a => rbind (assert true msg status) (fun _ => Ok a)
  | None => Throw {| e_message := msg; e_status := Some status |}
  end.

(** ** [solana.js]: the chain adapter *)

(** What [getParsedTransaction] returns, as far as [verifySolTransfer] reads
    it: [parsed.transaction.message.instructions], and of an instruction
    [program], [parsed.type] and [parsed.info].  A field that the object
    does not have ([undefined]) is [None]. *)
Record TransferInfo : Type := {
  source : JsValue;
  destination : JsValue;
  lamports : JsValue
}.

Record ParsedInstruction : Type := {
  type : JsValue;
  info : option TransferInfo
}.

Record Instruction : Type := {
  program : JsValue;
  parsed : option ParsedInstruction
}.

Record ParsedTransaction : Type := {
  instructions : option (list Instruction)
}.

(** A [Connection] of [@solana/web3.js] at the time of the request. *)
Record Connection : Type := {
  getLatestBlockhash : Result (string * Z);
  getParsedTransaction : JsValue -> Result (option ParsedTransaction)
}.

(** What a request finds around it: [connection(rpc)], the entries of
    [process.env] (absent ones are [None]), the ids [nanoid()] returns (the
    k-th call of the request gets [nanoid k]) and [Date.now()]. *)
Record World : Type := {
  connection : JsValue -> Result Connection;
  TREASURY_PUBKEY : option string;
  SOLANA_RPC : option string;
  ADMIN_TOKEN : option string;
  nanoid : nat -> string;
  now : Z
}.

Definition env (entry : option string) : JsValue :=
  match entry with Some s => JsString s | None => JsUndefined end.

(** The result object of [verifySolTransfer]: [{ ok: true }] or
    [{ ok: false, reason }]. *)
Inductive Verification : Type :=
| Verified
| NotVerified (reason : string).

Section Solana.
Context (host : Host) (w : World).

(** [buildSolTransferTx({ rpc, fromPubkey, treasuryPubkey, amountSol })] *)
Definition buildSolTransferTx (rpc fromPubkey treasuryPubkey : JsValue)
    (amountSol : float) : Result (string * Z) :=
  rbind (connection w rpc) (fun conn =>
  rbind (getLatestBlockhash conn) (fun '(blockhash, lastValidBlockHeight) =>
  rbind (transferTxBase64 host blockhash fromPubkey treasuryPubkey
           (Math_round (PrimFloat.mul amountSol LAMPORTS_PER_SOL))) (fun txBase64 =>
  Ok (txBase64, lastValidBlockHeight)))).

(** [i => i.program === 'system' && i.parsed?.type === 'transfer'] *)
Definition is_system_transfer (i : Instruction) : bool :=
  strict_equals (program i) (JsString "system")
  && match parsed i with
     | Some p => strict_equals (type p) (JsString "transfer")
     | None => false
     end.

(** [verifySolTransfer({ rpc, signature, fromPubkey, toPubkey, expectedLamports })] *)
Definition verifySolTransfer (rpc signature fromPubkey toPubkey : JsValue)
    (expectedLamports : float) : Result Verification :=
  rbind (connection w rpc) (fun conn =>
  rbind (getParsedTransaction conn signature) (fun parsedTx =>
  match parsedTx with
  | None => Ok (NotVerified "TX_NOT_FOUND")
  | Some tr =>
      match List.find is_system_transfer (default [] (instructions tr)) with
      | None => Ok (NotVerified "NO_TRANSFER_IN_TX")
      | Some ix =>
          match mbind info (parsed ix) with
          | None =>
              Throw (TypeError "Cannot read properties of undefined (reading 'source')")
          | Some inf =>
              let actualFrom := source inf in
              let actualTo := destination inf in
              let actualLamports := ToNumber host (lamports inf) in
              let ok :=
                strict_equals actualFrom fromPubkey
                && strict_equals actualTo toPubkey
                && PrimFloat.eqb actualLamports expectedLamports in
              if ok then Ok Verified
              else Ok (NotVerified
                         ("MISMATCH from=" ++ ToString host actualFrom
                          ++ " to=" ++ ToString host actualTo
                          ++ " lamports=" ++ NumberToString host actualLamports))
          end
      end
  end)).
End Solana.

(** ** [server.js] and [routes/bets.js]: the HTTP edge *)

Inductive Body : Type :=
| ErrorBody (error : string)
| UnauthorizedBody
| SeededBody
| InitiateBody (betId txBase64 : string)
| ConfirmFailedBody (reason : string)
| ConfirmedBody (betId txSignature : JsValue) (proof : string)
| EvmReceiptBody (betId recovered : string).

Record Response : Type := { code : Z; body : Body }.

(** The error handler of [server.js]:
    [res.status(err.status || 500).json({ ok: false, error: err.message || 'Internal error' })] *)
Definition errorHandler (err : Exn) : Response :=
  {| code := match e_status err with
             | Some s => if (s =? 0)%Z then 500%Z else s
             | None => 500%Z
             end;
     body := ErrorBody (if String.eqb (e_message err) "" then "Internal error"
                        else e_message err) |}.

(** A route: [try { ... } catch (e) { next(e) }], followed by the error
    handler. *)
Definition route (handler : M Response) (db : Db) : Response * Db :=
  match handler db with
  | (Ok res, db') => (res, db')
  | (Throw e, db') => (errorHandler e, db')
  end.

Section Routes.
Context (host : Host) (w : World).

(** [assert(amt && amt >= 0.01, 'Minimum amount is 0.01 SOL')], [amt]
    being a number or [null]. *)
Definition assert_amount (amt : option float) : Result float :=
  match amt with
  | Some a =>
      rbind (assert (truthy (JsNumber a) && PrimFloat.leb 0.01 a)
               "Minimum amount is 0.01 SOL" 400)
            (fun _ => Ok a)
  | None => Throw {| e_message := "Minimum amount is 0.01 SOL"; e_status := Some 400%Z |}
  end.

(** [POST /api/bets/initiate] with body [{ marketId, side, amountSol, wallet }] *)
Definition initiate (marketId side amountSol wallet : JsValue) : M Response :=
  do _ <- lift (assert (truthy marketId && is_string marketId) "marketId is required" 400);
  do _ <- lift (assert (strict_equals side (JsString "YES")
                        || strict_equals side (JsString "NO"))
                  "side must be YES or NO" 400);
  do amt <- lift (assert_amount (parseAmountSol host amountSol));
  do market <- getMarket host marketId;
  do _ <- lift (assert_some market "Unknown market" 400);
  do _ <- lift (assert (wallet_pattern_test (ToString host wallet))
                  "Invalid Solana wallet" 400);
  do betId <- createBet host (nanoid w 0) (now w) marketId side amt wallet solana PENDING;
  do _ <- lift (assert (truthy (env (TREASURY_PUBKEY w))) "TREASURY_PUBKEY not set" 500);
  do _ <- lift (PublicKey host (env (TREASURY_PUBKEY w)));
  do built <- lift (buildSolTransferTx host w (env (SOLANA_RPC w)) wallet
                      (env (TREASURY_PUBKEY w)) amt);
  ret {| code := 200; body := InitiateBody betId (fst built) |}.

(** [POST /api/bets/confirm] with body [{ betId, txSignature, wallet }] *)
Definition confirm (betId txSignature wallet_ : JsValue) : M Response :=
  do _ <- lift (assert (truthy betId && truthy txSignature && truthy wallet_)
                  "betId, txSignature, wallet are required" 400);
  do row <- getBet host betId;
  do bet <- lift (assert_some row "Bet not found" 400);
  do _ <- lift (assert (strict_equals (JsString (wallet bet)) wallet_)
                  "Wallet mismatch" 400);
  let lamports := Math_round (PrimFloat.mul (amount_sol bet) LAMPORTS_PER_SOL) in
  do v <- lift (verifySolTransfer host w (env (SOLANA_RPC w)) txSignature wallet_
                  (env (TREASURY_PUBKEY w)) lamports);
  match v with
  | NotVerified reason =>
      do _ <- markBetFailed host betId txSignature (JsString reason);
      ret {| code := 400; body := ConfirmFailedBody reason |}
  | Verified =>
      let proof := "bet:" ++ ToString host betId ++ ":sig:" ++ ToString host txSignature in
      do _ <- markBetConfirmed host betId txSignature (JsString proof);
      ret {| code := 200; body := ConfirmedBody betId txSignature proof |}
  end.

(** [POST /api/bets/evm-receipt] with body
    [{ marketId, side, amount, address, message, signature }];
    [address.toLowerCase()] throws unless [address] is a string. *)
Definition evm_receipt (marketId side amount address message signature : JsValue)
    : M Response :=
  do _ <- lift (assert (truthy marketId && truthy side && truthy amount
                        && truthy address && truthy message && truthy signature)
                  "Missing fields" 400);
  do _ <- lift (assert (strict_equals side (JsString "YES")
                        || strict_equals side (JsString "NO"))
                  "Invalid side" 400);
  do recovered <- lift (verifyMessage host message signature);
  do _ <- lift (match address with
                | JsString a =>
                    assert (String.eqb (toLowerCase host recovered) (toLowerCase host a))
                      "Invalid signature" 400
                | _ => Throw (TypeError "address.toLowerCase is not a function")
                end);
  do betId <- createBet host (nanoid w 0) (now w) marketId side
                (ToNumber host amount) address evm RECEIPT_ONLY;
  ret {| code := 200; body := EvmReceiptBody betId recovered |}.

(** [POST /admin/seed]; [authorization] is the request header. *)
Definition admin_seed (authorization : JsValue) : M Response :=
  if negb (strict_equals authorization
             (JsString ("Bearer " ++ ToString host (env (ADMIN_TOKEN w)))))
  then ret {| code := 401; body := UnauthorizedBody |}
  else
    do _ <- seedIfEmpty (nanoid w) (now w);
    ret {| code := 200; body := SeededBody |}.
End Routes.

(** The requests that write to the store (the [GET] routes only read). *)
Inductive Request : Type :=
| PostInitiate (marketId side amountSol wallet : JsValue)
| PostConfirm (betId txSignature wallet : JsValue)
| PostEvmReceipt (marketId side amount address message signature : JsValue)
| PostAdminSeed (authorization : JsValue).

Definition handle (host : Host) (w : World) (req : Request) : Db -> Response * Db :=
  match req with
  | PostInitiate marketId side amountSol wallet =>
      route (initiate host w marketId side amountSol wallet)
  | PostConfirm betId txSignature wallet =>
      route (confirm host w betId txSignature wallet)
  | PostEvmReceipt marketId side amount address message signature =>
      route (evm_receipt host w marketId side amount address message signature)
  | PostAdminSeed authorization =>
      route (admin_seed host w authorization)
  end.

(** The store after a sequence of requests, each in its own world. *)
Fixpoint run (host : Host) (trace : list (World * Request)) (db : Db) : Db :=
  match trace with
  | [] => db
  | (w, req) :: rest => run host rest (snd (handle host w req db))
  end.

(** ** [db.js]: the listings *)

(** [status='LIVE'] on a row of [markets], [wallet=?] on a row of [bets]. *)
Definition is_live (r : string * Market) : Prop := market_status (snd r) = "LIVE".

Definition has_wallet (s : string) (r : string * Bet) : Prop := wallet (snd r) = s.

(** [ORDER BY created_at ASC] on rows of [markets] and [ORDER BY created_at
    DESC] on rows of [bets]. *)
Definition not_after (a b : string * Market) : Prop :=
  (market_created_at (snd a) <= market_created_at (snd b))%Z.

Definition not_before (a b : string * Bet) : Prop :=
  (created_at (snd b) <= created_at (snd a))%Z.

Instance is_live_dec (r : string * Market) : Decision (is_live r).
Proof. unfold is_live. apply _. Defined.

Instance has_wallet_dec (s : string) (r : string * Bet) : Decision (has_wallet s r).
Proof. unfold has_wallet. apply _. Defined.

Instance not_after_dec : RelDecision not_after.
Proof. intros a b. unfold not_after. apply _. Defined.

Instance not_before_dec : RelDecision not_before.
Proof. intros a b. unfold not_before. apply _. Defined.

(** [listMarkets()]:
    [SELECT * FROM markets WHERE status='LIVE' ORDER BY created_at ASC].
    The statement does not say in which order rows of equal [created_at]
    come; here they come as the sort of the table scan leaves them. *)
Definition listMarkets (db : Db) : list (string * Market) :=
  merge_sort not_after (filter is_live (map_to_list (markets db))).

(** What the statement of [listMarkets] allows the engine to return: the
    live rows, each once, in an order along which [created_at] does not
    decrease. *)
Definition lists_markets (db : Db) (rows : list (string * Market)) : Prop :=
  rows ≡ₚ filter is_live (map_to_list (markets db)) /\ Sorted not_after rows.

(** What [SELECT * FROM bets WHERE wallet=? ORDER BY created_at DESC] allows
    the engine to return for the text [s]. *)
Definition lists_bets (s : string) (db : Db) (rows : list (string * Bet)) : Prop :=
  rows ≡ₚ filter (has_wallet s) (map_to_list (bets db)) /\ Sorted not_before rows.

Section Listings.
Context (host : Host).

(** [listBetsForWallet(wallet)]; a [NULL] parameter equals no row. *)
Definition listBetsForWallet (wallet : JsValue) : M (list (string * Bet)) :=
  fun db =>
    match bindText host wallet with
    | BindError => (Throw bind_refused, db)
    | BindNull => (Ok [], db)
    | BindText s =>
        (Ok (merge_sort not_before (filter (has_wallet s) (map_to_list (bets db)))), db)
    end.
End Listings.

(** * The vocabulary of the claims *)

Section Vocabulary.
Context (host : Host).

(** ** Bet initiation *)

(** The preconditions of an initiate request, as the specification words
    them. *)

(** The market id is present and is a non-empty string. *)
Definition marketId_given (marketId : JsValue) : bool :=
  match marketId with
  | JsString s => negb (String.eqb s "")
  | _ => false
  end.

(** The side is exactly YES or NO. *)
Definition side_given (side : JsValue) : bool :=
  match side with
  | JsString s => String.eqb s "YES" || String.eqb s "NO"
  | _ => false
  end.

(** The amount does not parse to a finite positive number, or the parsed
    amount is below the minimum of 0.01. *)
Definition amount_refused (amountSol : JsValue) : bool :=
  match parseAmountSol host amountSol with
  | None => true
  | Some amt => PrimFloat.ltb amt 0.01
  end.

(** The market id resolves to a row of [markets]. *)
Definition market_known (db : Db) (marketId : JsValue) : bool :=
  match marketId with
  | JsString s => bool_decide (is_Some (markets db !! s))
  | _ => false
  end.

(** The wallet matches the base-58 pattern of 32 to 44 characters. *)
Definition wallet_given (wallet : JsValue) : bool :=
  wallet_pattern_test (ToString host wallet).

Definition initiate_precondition_violated (db : Db)
    (marketId side amountSol wallet : JsValue) : bool :=
  negb (marketId_given marketId)
  || negb (side_given side)
  || amount_refused amountSol
  || negb (market_known db marketId)
  || negb (wallet_given wallet).

(** The amount parses and the parsed amount is at least the minimum. *)
Definition amount_accepted (amountSol : JsValue) : bool :=
  match parseAmountSol host amountSol with
  | Some amt => PrimFloat.leb 0.01 amt
  | None => false
  end.

(** All the client preconditions of an initiate request hold. *)
Definition initiate_preconditions_hold (db : Db)
    (marketId side amountSol wallet : JsValue) : bool :=
  marketId_given marketId && side_given side && amount_accepted amountSol
  && market_known db marketId && wallet_given wallet.

(** The [PENDING] row that [createBet] writes for an initiate request. *)
Definition pending_row (w : World) (marketId side : string) (amt : float)
    (wallet : string) : Bet :=
  {| market_id := marketId; side := side; amount_sol := amt; wallet := wallet;
     chain := solana; created_at := now w; status := PENDING;
     tx := None; proof := None |}.

(** What is left of [initiate] once the row is written. *)
Definition after_insert (w : World) (betId : string) (amt : float) (wallet : JsValue)
    : M Response :=
  do _ <- lift (assert (truthy (env (TREASURY_PUBKEY w))) "TREASURY_PUBKEY not set" 500);
  do _ <- lift (PublicKey host (env (TREASURY_PUBKEY w)));
  do built <- lift (buildSolTransferTx host w (env (SOLANA_RPC w)) wallet
                      (env (TREASURY_PUBKEY w)) amt);
  ret {| code := 200; body := InitiateBody betId (fst built) |}.

(** ** The lifecycle of a bet row *)

(** The columns that no [UPDATE] of [db.js] names. *)
Definition same_wager (b b' : Bet) : Prop :=
  market_id b' = market_id b /\ side b' = side b /\ amount_sol b' = amount_sol b
  /\ wallet b' = wallet b /\ chain b' = chain b /\ created_at b' = created_at b.

(** An [UPDATE] of [db.js]: it sets the status to [CONFIRMED] or [FAILED]
    and keeps the wager. *)
Definition settles (f : Bet -> Bet) : Prop :=
  forall b : Bet,
    same_wager b (f b) /\ (status (f b) = CONFIRMED \/ status (f b) = FAILED).

(** How the status of a row can have moved: not at all, or to [CONFIRMED]
    or [FAILED]. *)
Definition status_moves (s s' : BetStatus) : Prop :=
  s' = s \/ s' = CONFIRMED \/ s' = FAILED.

(** The row [b] is created under the key [k] by the request. *)
Definition creates (w : World) (req : Request) (db : Db) (k : string) (b : Bet) : Prop :=
  bets db !! k = None /\ bets (snd (handle host w req db)) !! k = Some b.

Definition is_initiate (req : Request) : bool :=
  match req with PostInitiate _ _ _ _ => true | _ => false end.

(** Every bet of the store names a market of the store. *)
Definition markets_referenced (db : Db) : Prop :=
  forall (k : string) (b : Bet), bets db !! k = Some b -> is_Some (markets db !! market_id b).

(** Every bet of the Solana flow has an amount of at least the minimum. *)
Definition minimum_respected (db : Db) : Prop :=
  forall (k : string) (b : Bet),
    bets db !! k = Some b -> chain b = solana -> PrimFloat.leb 0.01 (amount_sol b) = true.

(** The row after [markBetFailed]: [status] and [tx] are set, every other
    column is the one of [b]. *)
Definition failed_row (b : Bet) (tx : option string) : Bet :=
  {| market_id := market_id b; side := side b; amount_sol := amount_sol b;
     wallet := wallet b; chain := chain b; created_at := created_at b;
     status := FAILED; tx := tx; proof := proof b |}.

(** The row after [markBetConfirmed]. *)
Definition confirmed_row (b : Bet) (tx proof : string) : Bet :=
  {| market_id := market_id b; side := side b; amount_sol := amount_sol b;
     wallet := wallet b; chain := chain b; created_at := created_at b;
     status := CONFIRMED; tx := Some tx; proof := Some proof |}.

(** Exact equality of the three fields of the transfer with the caller's
    wallet, the treasury and the expected lamports. *)
Definition transfer_matches (inf : TransferInfo) (wallet_ treasury : JsValue)
    (expectedLamports : float) : bool :=
  strict_equals (source inf) wallet_
  && strict_equals (destination inf) treasury
  && PrimFloat.eqb (ToNumber host (lamports inf)) expectedLamports.

Definition mismatch_description (inf : TransferInfo) : string :=
  "MISMATCH from=" ++ ToString host (source inf)
  ++ " to=" ++ ToString host (destination inf)
  ++ " lamports=" ++ NumberToString host (ToNumber host (lamports inf)).

End Vocabulary.

(** ** Seeding *)

(** The market row that [insertMany] writes for a row of [data]. *)
Definition seeded_market (now : Z) (row : string * string * Z * Z) : Market :=
  let '(name, category, yes, no) := row in
  {| name := name; category := category; yes := yes; no := no;
     market_status := "LIVE"; market_created_at := now |}.

(** The whole catalogue is in [ms], the row of index [i] under the id
    drawn for it. *)
Definition catalogue_in (nanoid : nat -> string) (now : Z) (ms : gmap string Market)
    : Prop :=
  forall (i : nat) (row : string * string * Z * Z),
    data !! i = Some row -> ms !! nanoid i = Some (seeded_market now row).

(** ** A host and a world to run the handlers on *)

Definition example_host : Host :=
  {| StringToNumber := fun _ => PrimFloat.nan;
     NumberToString := fun _ => "0";
     toLowerCase := fun s => s;
     bindOther := fun _ => BindError;
     foreign_keys := true;
     verifyMessage := fun _ _ => Ok "0xAb5801a7D398351b8bE11C439e05C5B3259aeC9B";
     PublicKey := fun _ => Ok tt;
     transferTxBase64 := fun _ _ _ _ => Ok "AQAAAA==" |}.

Definition example_connection : Connection :=
  {| getLatestBlockhash := Ok ("EkSnNWid2cvwEVnVx9aBqawnmiCNiDgp3gUdkDPTKN1N", 1000%Z);
     getParsedTransaction := fun _ => Ok None |}.

Definition example_world : World :=
  {| connection := fun _ => Ok example_connection;
     TREASURY_PUBKEY := Some "9xQeWvG816bUx9EPjHmaT23yvVM2ZWbrrpZb9PusVFin";
     SOLANA_RPC := Some "https://api.devnet.solana.com";
     ADMIN_TOKEN := Some "secret";
     nanoid := fun k => "bet" ++ String (ascii_of_nat (65 + k)) "";
     now := 1700000000000%Z |}.

Definition example_wallet : string := "7xKXtg2CW87d97TXJSDpbD5jBkheTqA83TZRuJosgAsU".

Definition example_market : Market :=
  {| name := "Fed rate cut in December"; category := "Macro"; yes := 35; no := 65;
     market_status := "LIVE"; market_created_at := 1690000000000%Z |}.

Definition example_db : Db :=
  {| markets := {[ "mkt1234567" := example_market ]}; bets := ∅ |}.

Definition example_treasury : string := "9xQeWvG816bUx9EPjHmaT23yvVM2ZWbrrpZb9PusVFin".
Definition example_address : string := "0xAb5801a7D398351b8bE11C439e05C5B3259aeC9B".

(** A bet of 0.5 SOL on [mkt1234567], in a given status. *)
Definition example_bet (st : BetStatus) (tx proof : option string) : Bet :=
  {| market_id := "mkt1234567"; side := "YES"; amount_sol := 0.5;
     wallet := example_wallet; chain := solana; created_at := 1700000000000%Z;
     status := st; tx := tx; proof := proof |}.

Definition db_with (b : Bet) : Db :=
  {| markets := {[ "mkt1234567" := example_market ]}; bets := {[ "betA" := b ]} |}.

(** A chain on which the reference names a transfer of 500000000 lamports
    from the example wallet to the treasury. *)
Definition paid_transfer : TransferInfo :=
  {| source := JsString example_wallet;
     destination := JsString example_treasury;
     lamports := JsNumber 500000000 |}.

Definition paid_instruction : Instruction :=
  {| program := JsString "system";
     parsed := Some {| type := JsString "transfer"; info := Some paid_transfer |} |}.

Definition paid_transaction : ParsedTransaction :=
  {| instructions := Some [paid_instruction] |}.

Definition paid_connection : Connection :=
  {| getLatestBlockhash := Ok ("EkSnNWid2cvwEVnVx9aBqawnmiCNiDgp3gUdkDPTKN1N", 1000%Z);
     getParsedTransaction := fun _ => Ok (Some paid_transaction) |}.

Definition paid_world : World :=
  {| connection := fun _ => Ok paid_connection;
     TREASURY_PUBKEY := Some example_treasury;
     SOLANA_RPC := Some "https://api.devnet.solana.com";
     ADMIN_TOKEN := Some "secret";
     nanoid := nanoid example_world;
     now := 1700000000000%Z |}.

(** A world with no treasury configured. *)
Definition bare_world : World :=
  {| connection := connection example_world;
     TREASURY_PUBKEY := None;
     SOLANA_RPC := SOLANA_RPC example_world;
     ADMIN_TOKEN := ADMIN_TOKEN example_world;
     nanoid := nanoid example_world;
     now := now example_world |}.

(** The engine of [example_host] with foreign keys not enforced. *)
Definition lenient_host : Host :=
  {| StringToNumber := StringToNumber example_host;
     NumberToString := NumberToString example_host;
     toLowerCase := toLowerCase example_host;
     bindOther := bindOther example_host;
     foreign_keys := false;
     verifyMessage := verifyMessage example_host;
     PublicKey := PublicKey example_host;
     transferTxBase64 := transferTxBase64 example_host |}.

(** The host of the example, reading the text [-0] as the number [-0]. *)
Definition parsing_host : Host :=
  {| StringToNumber := fun s => if String.eqb s "-0" then neg_zero else PrimFloat.nan;
     NumberToString := NumberToString example_host;
     toLowerCase := toLowerCase example_host;
     bindOther := bindOther example_host;
     foreign_keys := foreign_keys example_host;
     verifyMessage := verifyMessage example_host;
     PublicKey := PublicKey example_host;
     transferTxBase64 := transferTxBase64 example_host |}.

(** A chain on which the reference names a system transfer that has no
    [info]. *)
Definition bare_instruction : Instruction :=
  {| program := JsString "system";
     parsed := Some {| type := JsString "transfer"; info := None |} |}.

Definition bare_chain_world : World :=
  {| connection := fun _ =>
       Ok {| getLatestBlockhash := getLatestBlockhash example_connection;
             getParsedTransaction := fun _ =>
               Ok (Some {| instructions := Some [bare_instruction; paid_instruction] |}) |};
     TREASURY_PUBKEY := Some example_treasury;
     SOLANA_RPC := SOLANA_RPC example_world;
     ADMIN_TOKEN := ADMIN_TOKEN example_world;
     nanoid := nanoid example_world;
     now := now example_world |}.

Definition confirm_betA (sig : string) : Request :=
  PostConfirm (JsString "betA") (JsString sig) (JsString example_wallet).

Definition receipt (marketId : string) (amount : float) : Request :=
  PostEvmReceipt (JsString marketId) (JsString "YES") (JsNumber amount)
    (JsString example_address) (JsString "I bet YES") (JsString "0x1b2c").

Definition initiate_half_sol : Request :=
  PostInitiate (JsString "mkt1234567") (JsString "YES") (JsNumber 0.5)
    (JsString example_wallet).

Definition other_wallet : string := "4Nd1mBQtrMJVYVfKf2PJy9NZUZdTAsp7D4xWLs4gDB4T".

Definition empty_db : Db := {| markets := ∅; bets := ∅ |}.

(** Two pending bets of 0.5 SOL of the example wallet. *)
Definition two_bets_db : Db :=
  {| markets := {[ "mkt1234567" := example_market ]};
     bets := {[ "betA" := example_bet PENDING None None;
                "betB" := example_bet PENDING None None ]} |}.

(** * The vocabulary of the further properties *)

(** ASCII letters and digits, and the four characters that base 58 leaves
    out because they are easily mistaken for one another. *)
Definition alphanumeric (c : ascii) : bool :=
  let n := nat_of_ascii c in
  (Nat.leb 48 n && Nat.leb n 57) || (Nat.leb 65 n && Nat.leb n 90)
  || (Nat.leb 97 n && Nat.leb n 122).

Definition easily_mistaken (c : ascii) : bool :=
  Ascii.eqb c "0" || Ascii.eqb c "O" || Ascii.eqb c "I" || Ascii.eqb c "l".

(** The row that [createBet] writes. *)
Definition created_row (m s : string) (a : float) (w : string) (ch : Chain) (t : Z)
    (st : BetStatus) : Bet :=
  {| market_id := m; side := s; amount_sol := a; wallet := w; chain := ch;
     created_at := t; status := st; tx := None; proof := None |}.

(** The row after a [markBetConfirmed] whose [tx] and [proof] are bound as
    [t] and [p]. *)
Definition confirmed_as (b : Bet) (t p : option string) : Bet :=
  {| market_id := market_id b; side := side b; amount_sol := amount_sol b;
     wallet := wallet b; chain := chain b; created_at := created_at b;
     status := CONFIRMED; tx := t; proof := p |}.

(** What the columns of a row say about one another. *)
Definition lifecycle_consistent (b : Bet) : Prop :=
  (side b = "YES" \/ side b = "NO")
  /\ (status b = PENDING -> chain b = solana /\ tx b = None /\ proof b = None)
  /\ (status b = RECEIPT_ONLY -> chain b = evm /\ tx b = None /\ proof b = None)
  /\ (status b = CONFIRMED -> is_Some (proof b)).

Definition store_consistent (db : Db) : Prop :=
  forall (k : string) (b : Bet), bets db !! k = Some b -> lifecycle_consistent b.

(** The response is the error envelope [{ ok: false, error }]. *)
Definition is_error (res : Response) : Prop :=
  exists msg : string, body res = ErrorBody msg.

(** * Properties *)

(** ** Comparisons of floats, through their specification *)

Lemma SFcompare_refl (x : spec_float) :
  x <> S754_nan -> SFcompare x x = Some Eq.
Proof.
  destruct x as [s|s| |s m e]; intros Hx; try congruence.
  - reflexivity.
  - destruct s; reflexivity.
  - simpl. rewrite Z.compare_refl, Pos.compare_cont_refl.
    destruct s; reflexivity.
Qed.

Lemma SFcompare_Lt_Gt (x y : spec_float) :
  SFcompare x y = Some Lt -> SFcompare y x = Some Gt.
Proof.
  destruct x as [sx|sx| |sx mx ex], y as [sy|sy| |sy my ey]; simpl;
    try discriminate; try (destruct sx; try destruct sy; (discriminate || reflexivity)).
  assert (Hm : Pos.compare_cont Eq my mx = CompOpp (Pos.compare_cont Eq mx my))
    by (symmetry; apply (Pos.compare_cont_antisym mx my Eq)).
  destruct sx, sy; try (discriminate || reflexivity);
    rewrite (Z.compare_antisym ex ey), Hm;
    destruct (ex ?= ey)%Z; simpl; try (discriminate || reflexivity);
    destruct (Pos.compare_cont Eq mx my); simpl; discriminate || reflexivity.
Qed.

Lemma ltb_not_leb (a b : float) :
  PrimFloat.ltb a b = true -> PrimFloat.leb b a = false.
Proof.
  rewrite FloatAxioms.ltb_spec, FloatAxioms.leb_spec. unfold SFltb, SFleb.
  destruct (SFcompare (Prim2SF a) (Prim2SF b)) as [[ | | ]|] eqn:E; try discriminate.
  intros _. rewrite (SFcompare_Lt_Gt _ _ E). reflexivity.
Qed.

Lemma leb_not_nan_r (a b : float) :
  PrimFloat.leb a b = true -> is_nan b = false.
Proof.
  rewrite FloatAxioms.leb_spec. unfold is_nan. rewrite FloatAxioms.eqb_spec.
  unfold SFleb, SFeqb. intros H.
  rewrite SFcompare_refl; [reflexivity |].
  intros E. rewrite E in H. destruct (Prim2SF a); discriminate.
Qed.

Lemma minimum_positive (a : float) :
  PrimFloat.leb 0.01 a = true -> PrimFloat.ltb 0 a = true.
Proof.
  rewrite FloatAxioms.leb_spec, FloatAxioms.ltb_spec.
  replace (Prim2SF 0) with (S754_zero false) by reflexivity.
  remember (Prim2SF 0.01) as c eqn:Ec. vm_compute in Ec. subst c.
  destruct (Prim2SF a) as [[]|[]| |[] m e]; simpl; (discriminate || reflexivity).
Qed.

(** A positive number is not a zero, so the [REAL] column gives an amount
    that passed the minimum back as it was written. *)
Lemma positive_nonzero (a : float) :
  PrimFloat.ltb 0 a = true -> PrimFloat.eqb a 0 = false.
Proof.
  rewrite FloatAxioms.ltb_spec, FloatAxioms.eqb_spec. unfold SFltb, SFeqb.
  destruct (SFcompare (Prim2SF 0) (Prim2SF a)) as [[ | | ]|] eqn:E; try discriminate.
  intros _. rewrite (SFcompare_Lt_Gt _ _ E). reflexivity.
Qed.

Lemma real_column_minimum (a : float) :
  PrimFloat.leb 0.01 a = true -> real_column a = a.
Proof.
  intros Hmin. unfold real_column.
  rewrite (positive_nonzero a (minimum_positive a Hmin)). reflexivity.
Qed.

(** Away from zero the column gives back what was written, and what it
    gives back for a zero is the positive zero. *)
Lemma real_column_nonzero (a : float) :
  PrimFloat.eqb a 0 = false -> real_column a = a.
Proof. intros H. unfold real_column. rewrite H. reflexivity. Qed.

Lemma real_column_zero (a : float) :
  PrimFloat.eqb a 0 = true -> real_column a = 0%float.
Proof. intros H. unfold real_column. rewrite H. reflexivity. Qed.

(** ** The monad of store code *)

Lemma bind_lift_Ok {A B : Type} (a : A) (k : A -> M B) (db : Db) :
  bind (lift (Ok a)) k db = k a db.
Proof. reflexivity. Qed.

Lemma bind_run {A B : Type} (m : M A) (k : A -> M B) (db : Db) :
  bind m k db
  = match m db with
    | (Ok a, db') => k a db'
    | (Throw e, db') => (Throw e, db')
    end.
Proof. reflexivity. Qed.

Lemma bind_assert {B : Type} (c : bool) (msg : string) (st : Z)
    (k : unit -> M B) (db : Db) :
  bind (lift (assert c msg st)) k db
  = if c then k tt db
    else (Throw {| e_message := msg; e_status := Some st |}, db).
Proof. destruct c; reflexivity. Qed.

(** ** [parseAmountSol] *)

Lemma eqb_leb (a b : float) : PrimFloat.eqb a b = true -> PrimFloat.leb a b = true.
Proof.
  rewrite FloatAxioms.eqb_spec, FloatAxioms.leb_spec. unfold SFeqb, SFleb.
  destruct (SFcompare (Prim2SF a) (Prim2SF b)) as [[ | | ]|]; (discriminate || reflexivity).
Qed.

Lemma ltb_leb (a b : float) : PrimFloat.ltb a b = true -> PrimFloat.leb a b = true.
Proof.
  rewrite FloatAxioms.ltb_spec, FloatAxioms.leb_spec. unfold SFltb, SFleb.
  destruct (SFcompare (Prim2SF a) (Prim2SF b)) as [[ | | ]|]; (discriminate || reflexivity).
Qed.

(** The [null] half of [parseAmountSol]: zero, negative, NaN and non-finite
    numbers are all refused. *)
Lemma parseAmountSol_null (host : Host) (x : JsValue) :
  PrimFloat.eqb (ToNumber host x) 0 = true
  \/ PrimFloat.ltb (ToNumber host x) 0 = true
  \/ is_nan (ToNumber host x) = true
  \/ is_finite (ToNumber host x) = false ->
  parseAmountSol host x = None.
Proof.
  unfold parseAmountSol, Number_isFinite, is_finite.
  intros [H | [H | [H | H]]].
  - rewrite (eqb_leb _ _ H), orb_true_r. reflexivity.
  - rewrite (ltb_leb _ _ H), orb_true_r. reflexivity.
  - rewrite H. reflexivity.
  - unfold is_finite in H. rewrite H. reflexivity.
Qed.

(** The other half: a finite positive number is never refused, and the
    result is [Math.round(n * 1e9) / 1e9] in double arithmetic. *)
Lemma parseAmountSol_number (host : Host) (x : JsValue) :
  is_finite (ToNumber host x) = true ->
  PrimFloat.ltb 0 (ToNumber host x) = true ->
  parseAmountSol host x
  = Some (PrimFloat.div (Math_round (PrimFloat.mul (ToNumber host x) 1e9)) 1e9).
Proof.
  intros Hfin Hpos. unfold parseAmountSol, Number_isFinite.
  rewrite Hfin, (ltb_not_leb _ _ Hpos). reflexivity.
Qed.

Example parseAmountSol_rounds (host : Host) :
  parseAmountSol host (JsNumber 0.1234567891234) = Some 0.123456789%float.
Proof. reflexivity. Qed.

Example parseAmountSol_tiny (host : Host) :
  parseAmountSol host (JsNumber 1e-10) = Some 0%float.
Proof. reflexivity. Qed.

(** C5 (the code departs from it).  [parseAmountSol] is meant to return a
    finite positive input rounded to nine decimals.  The input [1e300] is
    finite and positive, [1e300 * 1e9] overflows to [Infinity], and the
    function returns [Infinity]: a value that is not finite, and not the
    input rounded to nine decimals. *)
Theorem C5_parseAmountSol_overflow (host : Host) :
  is_finite 1e300 = true
  /\ PrimFloat.ltb 0 1e300 = true
  /\ parseAmountSol host (JsNumber 1e300) = Some infinity
  /\ is_finite infinity = false.
Proof. repeat split; reflexivity. Qed.

(** ** Bet initiation: the client preconditions *)

Section InitiatePreconditions.
Context (host : Host).

Lemma marketId_given_check (marketId : JsValue) :
  truthy marketId && is_string marketId = marketId_given marketId.
Proof. destruct marketId; simpl; rewrite ?andb_false_r, ?andb_true_r; reflexivity. Qed.

Lemma side_given_check (side : JsValue) :
  strict_equals side (JsString "YES") || strict_equals side (JsString "NO")
  = side_given side.
Proof. destruct side; reflexivity. Qed.


Lemma bind_getMarket_string {B : Type} (s : string) (k : option Market -> M B)
    (db : Db) :
  bind (getMarket host (JsString s)) k db = k (markets db !! s) db.
Proof. reflexivity. Qed.

End InitiatePreconditions.

Lemma minimum_truthy (a : float) :
  PrimFloat.leb 0.01 a = true -> truthy (JsNumber a) = true.
Proof.
  intros H. simpl. rewrite (leb_not_nan_r _ _ H), orb_false_r.
  apply minimum_positive in H. revert H.
  rewrite FloatAxioms.ltb_spec, FloatAxioms.eqb_spec. unfold SFltb, SFeqb.
  destruct (SFcompare (Prim2SF 0) (Prim2SF a)) as [[ | | ]|] eqn:E; try discriminate.
  intros _. rewrite (SFcompare_Lt_Gt _ _ E). reflexivity.
Qed.

(** ** Bet initiation: the row is written before the chain adapter runs *)

Section InitiateInsert.
Context (host : Host).

Lemma assert_amount_accepted (amountSol : JsValue) (amt : float) :
  parseAmountSol host amountSol = Some amt ->
  PrimFloat.leb 0.01 amt = true ->
  assert_amount (parseAmountSol host amountSol) = Ok amt.
Proof.
  intros Hp Hmin. rewrite Hp. unfold assert_amount.
  rewrite (minimum_truthy _ Hmin), Hmin. reflexivity.
Qed.

Lemma createBet_strings (id : string) (t : Z) (m s w : string) (amt : float)
    (ch : Chain) (st : BetStatus) (db : Db) :
  is_nan amt = false ->
  String.eqb s "YES" || String.eqb s "NO" = true ->
  bets db !! id = None ->
  is_Some (markets db !! m) ->
  createBet host id t (JsString m) (JsString s) amt (JsString w) ch st db
  = (Ok id,
     set_bets (<[id := {| market_id := m; side := s; amount_sol := real_column amt;
                          wallet := w; chain := ch; created_at := t; status := st;
                          tx := None; proof := None |}]> (bets db)) db).
Proof.
  intros Hnan Hside Hfresh Hmarket. unfold createBet. simpl bindText. cbv iota.
  rewrite Hnan, Hside. simpl negb. cbv iota.
  rewrite bool_decide_eq_false_2 by (rewrite Hfresh; intros [? ?]; discriminate).
  rewrite (bool_decide_eq_true_2 _ Hmarket), andb_false_r. reflexivity.
Qed.

Lemma after_insert_store (w : World) (betId : string) (amt : float)
    (wallet : JsValue) (db : Db) :
  snd (route (after_insert host w betId amt wallet) db) = db.
Proof.
  unfold route, after_insert. rewrite bind_assert.
  destruct (truthy (env (TREASURY_PUBKEY w))); [| reflexivity].
  destruct (PublicKey host (env (TREASURY_PUBKEY w))) as [[]|e]; [| reflexivity].
  rewrite bind_lift_Ok.
  destruct (buildSolTransferTx host w (env (SOLANA_RPC w)) wallet
              (env (TREASURY_PUBKEY w)) amt) as [built|e]; reflexivity.
Qed.

Lemma after_insert_no_treasury (w : World) (betId : string) (amt : float)
    (wallet : JsValue) (db : Db) :
  truthy (env (TREASURY_PUBKEY w)) = false ->
  fst (route (after_insert host w betId amt wallet) db)
  = {| code := 500; body := ErrorBody "TREASURY_PUBKEY not set" |}.
Proof.
  intros H. unfold route, after_insert. rewrite bind_assert, H. reflexivity.
Qed.

Lemma after_insert_adapter_throws (w : World) (betId : string) (amt : float)
    (wallet : JsValue) (db : Db) (e : Exn) :
  truthy (env (TREASURY_PUBKEY w)) = true ->
  PublicKey host (env (TREASURY_PUBKEY w)) = Ok tt ->
  buildSolTransferTx host w (env (SOLANA_RPC w)) wallet
    (env (TREASURY_PUBKEY w)) amt = Throw e ->
  fst (route (after_insert host w betId amt wallet) db) = errorHandler e.
Proof.
  intros Ht Hk Hb. unfold route, after_insert.
  rewrite bind_assert, Ht, Hk, bind_lift_Ok, Hb. reflexivity.
Qed.

(** An initiate request that passes the preconditions, from a wallet given
    as a string and with a fresh id, runs [createBet] and then the rest. *)
Lemma initiate_inserts (w : World) (db : Db) (marketId side wallet : string)
    (amountSol : JsValue) :
  initiate_preconditions_hold host db (JsString marketId) (JsString side) amountSol
    (JsString wallet) = true ->
  bets db !! nanoid w 0 = None ->
  exists amt : float,
    parseAmountSol host amountSol = Some amt
    /\ PrimFloat.leb 0.01 amt = true
    /\ route (initiate host w (JsString marketId) (JsString side) amountSol
                (JsString wallet)) db
       = route (after_insert host w (nanoid w 0) amt (JsString wallet))
           (set_bets (<[nanoid w 0 := pending_row w marketId side amt wallet]> (bets db))
              db).
Proof.
  unfold initiate_preconditions_hold, amount_accepted.
  intros Hpre Hfresh.
  apply andb_prop in Hpre as [Hpre Hwallet].
  apply andb_prop in Hpre as [Hpre Hmarket].
  apply andb_prop in Hpre as [Hpre Hamount].
  apply andb_prop in Hpre as [Hid Hside].
  destruct (parseAmountSol host amountSol) as [amt|] eqn:Hp; [| discriminate].
  exists amt. split; [reflexivity |]. split; [exact Hamount |].
  unfold route, initiate.
  rewrite marketId_given_check, side_given_check, Hid, Hside, !bind_assert.
  rewrite (assert_amount_accepted _ _ Hp Hamount), bind_lift_Ok.
  rewrite bind_getMarket_string.
  simpl in Hmarket. apply bool_decide_eq_true_1 in Hmarket.
  destruct (markets db !! marketId) as [mk|] eqn:Hk;
    [| destruct Hmarket; discriminate].
  cbn [assert_some assert rbind]. rewrite bind_lift_Ok, bind_assert.
  unfold wallet_given in Hwallet. rewrite Hwallet.
  unfold bind at 1.
  rewrite (createBet_strings _ _ marketId side wallet amt solana PENDING db);
    [rewrite (real_column_minimum _ Hamount); reflexivity | | | | ].
  - exact (leb_not_nan_r _ _ Hamount).
  - exact Hside.
  - exact Hfresh.
  - rewrite Hk. eauto.
Qed.

(** C10.  In [initiate] the [PENDING] row is inserted before the treasury
    configuration is checked and before the transaction is built.  For a
    request that passes the client preconditions (wallet given as a string,
    fresh bet id), the store after the request is the store before it plus
    the [PENDING] row, whatever the response; in particular when
    [TREASURY_PUBKEY] is not set (HTTP 500) and when the chain adapter
    throws. *)
Theorem C10_pending_row_persists_on_failure (w : World) (db : Db)
    (marketId side wallet : string) (amountSol : JsValue) :
  initiate_preconditions_hold host db (JsString marketId) (JsString side) amountSol
    (JsString wallet) = true ->
  bets db !! nanoid w 0 = None ->
  exists amt : float,
    let req := initiate host w (JsString marketId) (JsString side) amountSol
                 (JsString wallet) in
    let row := pending_row w marketId side amt wallet in
    parseAmountSol host amountSol = Some amt
    /\ snd (route req db) = set_bets (<[nanoid w 0 := row]> (bets db)) db
    /\ bets (snd (route req db)) !! nanoid w 0 = Some row
    /\ (truthy (env (TREASURY_PUBKEY w)) = false ->
        fst (route req db)
        = {| code := 500; body := ErrorBody "TREASURY_PUBKEY not set" |})
    /\ (forall e : Exn,
          truthy (env (TREASURY_PUBKEY w)) = true ->
          PublicKey host (env (TREASURY_PUBKEY w)) = Ok tt ->
          buildSolTransferTx host w (env (SOLANA_RPC w)) (JsString wallet)
            (env (TREASURY_PUBKEY w)) amt = Throw e ->
          fst (route req db) = errorHandler e).
Proof.
  intros Hpre Hfresh.
  destruct (initiate_inserts w db marketId side wallet amountSol Hpre Hfresh)
    as (amt & Hp & _ & Hrun).
  exists amt. cbv zeta. rewrite Hrun, after_insert_store.
  split; [exact Hp |]. split; [reflexivity |].
  split; [apply lookup_insert_eq |].
  split.
  - apply after_insert_no_treasury.
  - intros e. apply after_insert_adapter_throws.
Qed.
End InitiateInsert.

(** ** Bet initiation: either the preconditions hold or the request is refused *)

Section InitiateDichotomy.
Context (host : Host).

(** A request that violates a precondition is a request whose preconditions
    do not all hold. *)
Lemma violated_not_hold (db : Db) (marketId side amountSol wallet : JsValue) :
  initiate_precondition_violated host db marketId side amountSol wallet = true ->
  initiate_preconditions_hold host db marketId side amountSol wallet = false.
Proof.
  unfold initiate_precondition_violated, initiate_preconditions_hold,
    amount_refused, amount_accepted.
  destruct (marketId_given marketId); [| reflexivity].
  destruct (side_given side); [| reflexivity].
  destruct (parseAmountSol host amountSol) as [amt|]; [| reflexivity].
  destruct (PrimFloat.ltb amt 0.01) eqn:Hlt.
  - rewrite (ltb_not_leb _ _ Hlt). reflexivity.
  - destruct (market_known db marketId); [| rewrite andb_false_r; reflexivity].
    destruct (wallet_given host wallet); [discriminate | rewrite andb_false_r; reflexivity].
Qed.

(** Unless all the preconditions hold, the request is answered with HTTP 400
    and the store is left as it was. *)
Lemma initiate_refused (w : World) (db : Db) (marketId side amountSol wallet : JsValue) :
  initiate_preconditions_hold host db marketId side amountSol wallet = false ->
  code (fst (route (initiate host w marketId side amountSol wallet) db)) = 400%Z
  /\ snd (route (initiate host w marketId side amountSol wallet) db) = db.
Proof.
  unfold initiate_preconditions_hold, amount_accepted, initiate.
  rewrite marketId_given_check, side_given_check. intros Hno.
  unfold route. rewrite !bind_assert.
  destruct (marketId_given marketId) eqn:Hm; [| split; reflexivity].
  destruct (side_given side); [| split; reflexivity].
  unfold assert_amount.
  destruct (parseAmountSol host amountSol) as [amt|]; [| split; reflexivity].
  destruct (truthy (JsNumber amt) && PrimFloat.leb 0.01 amt) eqn:Hamt;
    [| split; reflexivity].
  apply andb_prop in Hamt as [_ Hmin]. rewrite Hmin in Hno.
  cbn [assert rbind]. rewrite bind_lift_Ok.
  destruct marketId as [ | | | |s| | ]; try discriminate.
  rewrite bind_getMarket_string. simpl in Hno.
  destruct (markets db !! s) as [mk|] eqn:Hk; [| split; reflexivity].
  rewrite bool_decide_eq_true_2 in Hno by eauto. simpl in Hno.
  cbn [assert_some assert rbind]. rewrite bind_lift_Ok, bind_assert.
  unfold wallet_given in Hno. rewrite Hno. split; reflexivity.
Qed.
End InitiateDichotomy.

(** ** What each request can do to the table of bets *)

Section Effects.
Context (host : Host).

(** [createBet] either throws and leaves the store as it was, or inserts
    one row under a key that was free. *)
Lemma createBet_store (id : string) (t : Z) (m s : JsValue) (a : float)
    (wl : JsValue) (ch : Chain) (st : BetStatus) (db : Db) :
  snd (createBet host id t m s a wl ch st db) = db
  \/ exists row : Bet,
       createBet host id t m s a wl ch st db
       = (Ok id, set_bets (<[id := row]> (bets db)) db)
       /\ bets db !! id = None
       /\ bindText host m = BindText (market_id row)
       /\ (foreign_keys host = true -> is_Some (markets db !! market_id row))
       /\ amount_sol row = real_column a /\ is_nan a = false
       /\ chain row = ch /\ status row = st.
Proof.
  unfold createBet.
  destruct (bindText host m) as [ | |m'] eqn:Hm;
    destruct (bindText host s) as [ | |s'];
    destruct (bindText host wl) as [ | |w'];
    try (left; destruct (is_nan a); reflexivity).
  destruct (is_nan a) eqn:Hnan; [left; reflexivity |].
  destruct (negb (String.eqb s' "YES" || String.eqb s' "NO")); [left; reflexivity |].
  destruct (bool_decide (is_Some (bets db !! id))) eqn:Hid; [left; reflexivity |].
  destruct (foreign_keys host && negb (bool_decide (is_Some (markets db !! m'))))
    eqn:Hfk; [left; reflexivity |].
  right. eexists. split; [reflexivity |]. simpl.
  apply bool_decide_eq_false_1 in Hid.
  split; [destruct (bets db !! id); [exfalso; eauto | reflexivity] |].
  split; [reflexivity |].
  split; [| auto].
  intros Hon. rewrite Hon in Hfk. simpl in Hfk.
  apply negb_false_iff, bool_decide_eq_true_1 in Hfk. exact Hfk.
Qed.

Lemma initiate_unfold (w : World) (marketId side amountSol wallet : JsValue) :
  initiate host w marketId side amountSol wallet
  = (do _ <- lift (assert (truthy marketId && is_string marketId)
                     "marketId is required" 400);
     do _ <- lift (assert (strict_equals side (JsString "YES")
                           || strict_equals side (JsString "NO"))
                     "side must be YES or NO" 400);
     do amt <- lift (assert_amount (parseAmountSol host amountSol));
     do market <- getMarket host marketId;
     do _ <- lift (assert_some market "Unknown market" 400);
     do _ <- lift (assert (wallet_pattern_test (ToString host wallet))
                     "Invalid Solana wallet" 400);
     do betId <- createBet host (nanoid w 0) (now w) marketId side amt wallet
                   solana PENDING;
     after_insert host w betId amt wallet).
Proof. reflexivity. Qed.

(** [initiate] leaves the store as it was or inserts one [PENDING] row,
    under a free key, for a market it has just looked up and with the
    amount that [parseAmountSol] returned and the minimum check accepted. *)
Lemma initiate_store (w : World) (marketId side amountSol wallet : JsValue) (db : Db) :
  snd (route (initiate host w marketId side amountSol wallet) db) = db
  \/ exists row : Bet,
       snd (route (initiate host w marketId side amountSol wallet) db)
       = set_bets (<[nanoid w 0 := row]> (bets db)) db
       /\ bets db !! nanoid w 0 = None
       /\ is_Some (markets db !! market_id row)
       /\ parseAmountSol host amountSol = Some (amount_sol row)
       /\ PrimFloat.leb 0.01 (amount_sol row) = true
       /\ chain row = solana /\ status row = PENDING.
Proof.
  rewrite initiate_unfold. unfold route. rewrite !bind_assert.
  destruct (truthy marketId && is_string marketId) eqn:Hid; [| left; reflexivity].
  destruct (strict_equals side (JsString "YES") || strict_equals side (JsString "NO"));
    [| left; reflexivity].
  unfold assert_amount.
  destruct (parseAmountSol host amountSol) as [amt|] eqn:Hp; [| left; reflexivity].
  destruct (truthy (JsNumber amt) && PrimFloat.leb 0.01 amt) eqn:Hamt;
    [| left; reflexivity].
  apply andb_prop in Hamt as [_ Hmin].
  cbn [assert rbind]. rewrite bind_lift_Ok.
  rewrite marketId_given_check in Hid.
  destruct marketId as [ | | | |m| | ]; try discriminate.
  rewrite bind_getMarket_string.
  destruct (markets db !! m) as [mk|] eqn:Hk; [| left; reflexivity].
  cbn [assert_some assert rbind]. rewrite bind_lift_Ok, bind_assert.
  destruct (wallet_pattern_test (ToString host wallet)); [| left; reflexivity].
  rewrite bind_run.
  destruct (createBet_store (nanoid w 0) (now w) (JsString m) side amt wallet
              solana PENDING db) as [Hsame | (row & Hrun & Hfree & Hm & _ & Ha & _ & Hc & Hs)].
  - left.
    destruct (createBet host (nanoid w 0) (now w) (JsString m) side amt wallet
                solana PENDING db) as [[betId|e] db1]; simpl in Hsame; subst db1.
    + apply (after_insert_store host w betId amt wallet db).
    + reflexivity.
  - right. exists row. rewrite Hrun.
    split; [apply (after_insert_store host w) |].
    simpl in Hm. injection Hm as Hm.
    rewrite <- Hm, Hk, Ha, (real_column_minimum _ Hmin).
    repeat split; eauto.
Qed.

(** [evm_receipt] leaves the store as it was or inserts one [RECEIPT_ONLY]
    row, under a free key; the amount of the row is [Number(amount)] of a
    truthy [amount] as the [REAL] column gives it back, and its market
    exists when the engine enforces the foreign key. *)
Lemma evm_receipt_store (w : World)
    (marketId side amount address message signature : JsValue) (db : Db) :
  snd (route (evm_receipt host w marketId side amount address message signature) db)
  = db
  \/ exists row : Bet,
       snd (route (evm_receipt host w marketId side amount address message signature) db)
       = set_bets (<[nanoid w 0 := row]> (bets db)) db
       /\ bets db !! nanoid w 0 = None
       /\ (foreign_keys host = true -> is_Some (markets db !! market_id row))
       /\ truthy amount = true
       /\ amount_sol row = real_column (ToNumber host amount)
       /\ chain row = evm /\ status row = RECEIPT_ONLY.
Proof.
  unfold route, evm_receipt. rewrite !bind_assert.
  destruct (truthy marketId && truthy side && truthy amount && truthy address
            && truthy message && truthy signature) eqn:Hfields; [| left; reflexivity].
  assert (Hamount : truthy amount = true).
  { destruct (truthy amount); [reflexivity |].
    rewrite ?andb_false_r in Hfields. discriminate. }
  destruct (strict_equals side (JsString "YES") || strict_equals side (JsString "NO"));
    [| left; reflexivity].
  destruct (verifyMessage host message signature) as [recovered|e]; [| left; reflexivity].
  rewrite bind_lift_Ok.
  destruct address as [ | | | |a| | ]; try (left; reflexivity).
  rewrite bind_assert.
  destruct (String.eqb (toLowerCase host recovered) (toLowerCase host a));
    [| left; reflexivity].
  rewrite bind_run.
  destruct (createBet_store (nanoid w 0) (now w) marketId side (ToNumber host amount)
              (JsString a) evm RECEIPT_ONLY db)
    as [Hsame | (row & Hrun & Hfree & _ & Hfk & Ha & _ & Hc & Hs)].
  - left.
    destruct (createBet host (nanoid w 0) (now w) marketId side (ToNumber host amount)
                (JsString a) evm RECEIPT_ONLY db) as [[betId|e] db1];
      simpl in Hsame; subst db1; reflexivity.
  - right. exists row. rewrite Hrun. repeat split; eauto.
Qed.
End Effects.

(** ** The lifecycle of a bet row *)

Lemma same_wager_refl (b : Bet) : same_wager b b.
Proof. repeat split. Qed.

Lemma same_wager_trans (a b c : Bet) : same_wager a b -> same_wager b c -> same_wager a c.
Proof.
  unfold same_wager.
  intros (H1 & H2 & H3 & H4 & H5 & H6) (G1 & G2 & G3 & G4 & G5 & G6).
  repeat split; congruence.
Qed.

Lemma status_moves_trans (a b c : BetStatus) :
  status_moves a b -> status_moves b c -> status_moves a c.
Proof. unfold status_moves. intros [-> | H] [-> | G]; auto. Qed.

Section Lifecycle.
Context (host : Host).

Lemma markBetFailed_store (id tx reason : JsValue) (db : Db) :
  snd (markBetFailed host id tx reason db) = db
  \/ exists (k : string) (f : Bet -> Bet),
       settles f
       /\ snd (markBetFailed host id tx reason db) = set_bets (alter f k (bets db)) db.
Proof.
  unfold markBetFailed.
  destruct (bindText host (nullish tx JsNull)) as [ | |t];
    destruct (bindText host id) as [ | |k]; try (left; reflexivity);
    right; eexists k, _; (split; [| reflexivity]);
    intros b; (split; [repeat split | simpl; auto]).
Qed.

Lemma markBetConfirmed_store (id tx proof : JsValue) (db : Db) :
  snd (markBetConfirmed host id tx proof db) = db
  \/ exists (k : string) (f : Bet -> Bet),
       settles f
       /\ snd (markBetConfirmed host id tx proof db) = set_bets (alter f k (bets db)) db.
Proof.
  unfold markBetConfirmed.
  destruct (bindText host tx) as [ | |t];
    destruct (bindText host (nullish proof JsNull)) as [ | |p];
    destruct (bindText host id) as [ | |k]; try (left; reflexivity);
    right; eexists k, _; (split; [| reflexivity]);
    intros b; (split; [repeat split | simpl; auto]).
Qed.

(** [confirm] leaves the store as it was or runs one of the two updates. *)
Lemma confirm_store (w : World) (betId txSignature wallet_ : JsValue) (db : Db) :
  snd (route (confirm host w betId txSignature wallet_) db) = db
  \/ exists (k : string) (f : Bet -> Bet),
       settles f
       /\ snd (route (confirm host w betId txSignature wallet_) db)
          = set_bets (alter f k (bets db)) db.
Proof.
  unfold route, confirm. rewrite bind_assert.
  destruct (truthy betId && truthy txSignature && truthy wallet_); [| left; reflexivity].
  rewrite bind_run. unfold getBet.
  destruct (bindText host betId) as [ | |k]; try (left; reflexivity).
  destruct (bets db !! k) as [bet|]; [| left; reflexivity].
  cbn [assert_some assert rbind]. rewrite bind_lift_Ok, bind_assert.
  destruct (strict_equals (JsString (wallet bet)) wallet_); [| left; reflexivity].
  destruct (verifySolTransfer host w (env (SOLANA_RPC w)) txSignature wallet_
              (env (TREASURY_PUBKEY w))
              (Math_round (PrimFloat.mul (amount_sol bet) LAMPORTS_PER_SOL)))
    as [[|reason]|e]; [| | left; reflexivity].
  - rewrite bind_lift_Ok, bind_run.
    destruct (markBetConfirmed_store betId txSignature
                (JsString ("bet:" ++ ToString host betId ++ ":sig:"
                           ++ ToString host txSignature)) db)
      as [Hsame | (k' & f & Hf & Hrun)];
      destruct (markBetConfirmed host betId txSignature _ db) as [[[]|e] db1];
      simpl in *; subst db1; eauto.
  - rewrite bind_lift_Ok, bind_run.
    destruct (markBetFailed_store betId txSignature (JsString reason) db)
      as [Hsame | (k' & f & Hf & Hrun)];
      destruct (markBetFailed host betId txSignature _ db) as [[[]|e] db1];
      simpl in *; subst db1; eauto.
Qed.

Lemma admin_seed_bets (w : World) (authorization : JsValue) (db : Db) :
  bets (snd (route (admin_seed host w authorization) db)) = bets db.
Proof.
  unfold route, admin_seed.
  destruct (negb (strict_equals authorization _)); [reflexivity |].
  rewrite bind_run. unfold seedIfEmpty.
  destruct (Nat.ltb 0 (size (markets db))); [reflexivity |].
  destruct (insertMany (nanoid w) 0 (now w) data (markets db)); reflexivity.
Qed.

(** One request, seen from a row that is already in the table: the row
    stays, and only its lifecycle columns can change. *)
Lemma handle_existing_bet (w : World) (req : Request) (db : Db) (k : string) (b : Bet) :
  bets db !! k = Some b ->
  exists b' : Bet,
    bets (snd (handle host w req db)) !! k = Some b'
    /\ same_wager b b' /\ status_moves (status b) (status b').
Proof.
  intros Hb. destruct req as [marketId side amountSol wl | betId tx wl
                             | marketId side amount address msg sig | auth]; simpl.
  - destruct (initiate_store host w marketId side amountSol wl db)
      as [-> | (row & -> & Hfree & _)].
    + exists b. split; [exact Hb |]. split; [apply same_wager_refl | left; reflexivity].
    + exists b. simpl. rewrite lookup_insert_ne by congruence.
      split; [exact Hb |]. split; [apply same_wager_refl | left; reflexivity].
  - destruct (confirm_store w betId tx wl db) as [-> | (k' & f & Hf & ->)].
    + exists b. split; [exact Hb |]. split; [apply same_wager_refl | left; reflexivity].
    + simpl. destruct (decide (k' = k)) as [-> | Hne].
      * exists (f b). rewrite lookup_alter_eq, Hb.
        split; [reflexivity |]. destruct (Hf b) as [Hw Hs].
        split; [exact Hw | right; exact Hs].
      * exists b. rewrite lookup_alter_ne by exact Hne.
        split; [exact Hb |]. split; [apply same_wager_refl | left; reflexivity].
  - destruct (evm_receipt_store host w marketId side amount address msg sig db)
      as [-> | (row & -> & Hfree & _)].
    + exists b. split; [exact Hb |]. split; [apply same_wager_refl | left; reflexivity].
    + exists b. simpl. rewrite lookup_insert_ne by congruence.
      split; [exact Hb |]. split; [apply same_wager_refl | left; reflexivity].
  - exists b. rewrite admin_seed_bets.
    split; [exact Hb |]. split; [apply same_wager_refl | left; reflexivity].
Qed.

(** C1, as amended.  Over any sequence of requests a bet row stays in the
    table with its wager, and its status either is what it was or has
    become [CONFIRMED] or [FAILED]: no request sets the status of a row
    back to [PENDING], and none sets it to [RECEIPT_ONLY]. *)
Theorem C1_status_never_returns_to_PENDING (trace : list (World * Request))
    (db : Db) (k : string) (b : Bet) :
  bets db !! k = Some b ->
  exists b' : Bet,
    bets (run host trace db) !! k = Some b'
    /\ same_wager b b'
    /\ status_moves (status b) (status b')
    /\ (status b' = PENDING -> status b = PENDING)
    /\ (status b' = RECEIPT_ONLY -> status b = RECEIPT_ONLY).
Proof.
  revert db b. induction trace as [| [w req] rest IH]; intros db b Hb.
  - exists b. simpl. split; [exact Hb |]. split; [apply same_wager_refl |].
    split; [left; reflexivity | auto].
  - destruct (handle_existing_bet w req db k b Hb) as (b1 & Hb1 & Hw1 & Hs1).
    destruct (IH _ _ Hb1) as (b' & Hb' & Hw' & Hs' & _).
    exists b'. simpl. split; [exact Hb' |].
    split; [exact (same_wager_trans _ _ _ Hw1 Hw') |].
    pose proof (status_moves_trans _ _ _ Hs1 Hs') as Hs.
    split; [exact Hs |].
    split; intros E; rewrite E in Hs; destruct Hs as [Hs | [Hs | Hs]];
      congruence.
Qed.
End Lifecycle.

(** ** The rows a request creates *)

Section Creation.
Context (host : Host).

Lemma insert_created (bs : gmap string Bet) (id k : string) (row b : Bet) :
  bs !! k = None -> <[id := row]> bs !! k = Some b -> k = id /\ b = row.
Proof.
  intros Hnone Hsome. destruct (decide (id = k)) as [-> | Hne].
  - rewrite lookup_insert_eq in Hsome. split; congruence.
  - rewrite lookup_insert_ne in Hsome by exact Hne. congruence.
Qed.

(** Rows are created by the initiate route and by the evm-receipt route,
    and by nothing else. *)
Lemma handle_created (w : World) (req : Request) (db : Db) (k : string) (b : Bet) :
  creates host w req db k b ->
  match req with
  | PostInitiate _ _ amountSol _ =>
      is_Some (markets db !! market_id b)
      /\ parseAmountSol host amountSol = Some (amount_sol b)
      /\ PrimFloat.leb 0.01 (amount_sol b) = true
      /\ chain b = solana /\ status b = PENDING
  | PostEvmReceipt _ _ amount _ _ _ =>
      (foreign_keys host = true -> is_Some (markets db !! market_id b))
      /\ truthy amount = true
      /\ amount_sol b = real_column (ToNumber host amount)
      /\ chain b = evm /\ status b = RECEIPT_ONLY
  | PostConfirm _ _ _ | PostAdminSeed _ => False
  end.
Proof.
  intros [Hnone Hsome].
  destruct req as [marketId side amountSol wl | betId tx wl
                  | marketId side amount address msg sig | auth]; simpl in Hsome.
  - destruct (initiate_store host w marketId side amountSol wl db)
      as [E | (row & E & Hfree & Hrow)]; rewrite E in Hsome; [congruence |].
    simpl in Hsome. destruct (insert_created _ _ _ _ _ Hnone Hsome) as [_ ->].
    exact Hrow.
  - destruct (confirm_store host w betId tx wl db) as [E | (k' & f & Hf & E)];
      rewrite E in Hsome; [congruence |].
    simpl in Hsome. rewrite lookup_alter in Hsome.
    destruct (decide (k' = k)) as [-> |]; [rewrite Hnone in Hsome |];
      simpl in Hsome; congruence.
  - destruct (evm_receipt_store host w marketId side amount address msg sig db)
      as [E | (row & E & Hfree & Hrow)]; rewrite E in Hsome; [congruence |].
    simpl in Hsome. destruct (insert_created _ _ _ _ _ Hnone Hsome) as [_ ->].
    exact Hrow.
  - rewrite admin_seed_bets in Hsome. congruence.
Qed.

(** C3, as amended.  A row created by the initiate route stores the amount
    that [parseAmountSol] returned, and that amount is at least 0.01, hence
    positive.  A row created by the evm-receipt route stores [Number(amount)]
    of a truthy [amount] as the [REAL] column holds it, with no check of its
    sign and no rounding: every number other than a zero is stored as it is,
    and a zero (the amount [-0] of the text ["-0"]) is stored as 0.  No other
    route creates a row. *)
Theorem C3_created_amount (w : World) (req : Request) (db : Db) (k : string) (b : Bet) :
  creates host w req db k b ->
  match req with
  | PostInitiate _ _ amountSol _ =>
      parseAmountSol host amountSol = Some (amount_sol b)
      /\ PrimFloat.leb 0.01 (amount_sol b) = true
      /\ PrimFloat.ltb 0 (amount_sol b) = true
  | PostEvmReceipt _ _ amount _ _ _ =>
      truthy amount = true
      /\ amount_sol b = real_column (ToNumber host amount)
      /\ (PrimFloat.eqb (ToNumber host amount) 0 = false ->
          amount_sol b = ToNumber host amount)
  | PostConfirm _ _ _ | PostAdminSeed _ => False
  end.
Proof.
  intros Hc. pose proof (handle_created w req db k b Hc) as H.
  destruct req; [| exact H | | exact H].
  - destruct H as (_ & Hp & Hmin & _).
    split; [exact Hp |]. split; [exact Hmin | exact (minimum_positive _ Hmin)].
  - destruct H as (_ & Ht & Ha & _). split; [exact Ht |]. split; [exact Ha |].
    intros Hnz. rewrite Ha. apply real_column_nonzero, Hnz.
Qed.

(** C4.  A row created by the initiate route names a market that the
    route has just found in [markets].  A row created by the evm-receipt
    route names a market of [markets] because the engine enforces the
    [FOREIGN KEY] of the schema: the route itself does not look the market
    up. *)
Theorem C4_created_market_exists (w : World) (req : Request) (db : Db)
    (k : string) (b : Bet) :
  creates host w req db k b ->
  is_initiate req = true \/ foreign_keys host = true ->
  is_Some (markets db !! market_id b).
Proof.
  intros Hc Hwhy. pose proof (handle_created w req db k b Hc) as H.
  destruct req; try contradiction.
  - destruct H as (Hm & _). exact Hm.
  - destruct H as (Hm & _). destruct Hwhy as [Hi | Hfk]; [discriminate | auto].
Qed.
End Creation.

(** ** [markBetFailed] *)

Section MarkFailed.
Context (host : Host).

(** C9.  [markBetFailed({ id, tx, reason })] on the id of a row sets the
    status to [FAILED] and the [tx] column to the bound reference ([tx]
    itself when it is a string), leaves every other column of the row,
    every other row and the markets as they were, and does not depend on
    [reason]. *)
Theorem C9_markBetFailed_frame (id : string) (tx reason : JsValue) (db : Db) (b : Bet) :
  bets db !! id = Some b ->
  bindText host (nullish tx JsNull) <> BindError ->
  let db' := snd (markBetFailed host (JsString id) tx reason db) in
  fst (markBetFailed host (JsString id) tx reason db) = Ok tt
  /\ bets db' !! id
     = Some (failed_row b (bound_text (bindText host (nullish tx JsNull))))
  /\ (forall t : string, tx = JsString t -> bets db' !! id = Some (failed_row b (Some t)))
  /\ (forall k : string, k <> id -> bets db' !! k = bets db !! k)
  /\ markets db' = markets db
  /\ (forall reason' : JsValue,
        markBetFailed host (JsString id) tx reason' db
        = markBetFailed host (JsString id) tx reason db).
Proof.
  intros Hb Hbind. cbv zeta. unfold markBetFailed. simpl (bindText host (JsString id)).
  destruct (bindText host (nullish tx JsNull)) as [ | |t] eqn:Ht; [contradiction | |];
    simpl; rewrite lookup_alter_eq, Hb; simpl;
    (split; [reflexivity |]); (split; [reflexivity |]);
    (split; [intros t' Htx; rewrite Htx in Ht; simpl in Ht; unfold failed_row;
             congruence |]);
    (split; [intros k Hk; rewrite lookup_alter_ne by (intros E; apply Hk; symmetry; exact E);
             reflexivity |]);
    split; reflexivity.
Qed.
End MarkFailed.

(** ** Confirmation: the ownership check *)

Section ConfirmWallet.
Context (host : Host).

(** C7.  A confirm request for a bet that exists, from a wallet that is
    not the stored one, is answered with HTTP 400 and leaves the store as
    it was; when the request carries its three fields the message is
    [Wallet mismatch]. *)
Theorem C7_wallet_mismatch (w : World) (db : Db) (betId txSignature wallet_ : JsValue)
    (k : string) (bet : Bet) :
  bindText host betId = BindText k ->
  bets db !! k = Some bet ->
  strict_equals (JsString (wallet bet)) wallet_ = false ->
  snd (route (confirm host w betId txSignature wallet_) db) = db
  /\ code (fst (route (confirm host w betId txSignature wallet_) db)) = 400%Z
  /\ (truthy betId && truthy txSignature && truthy wallet_ = true ->
      fst (route (confirm host w betId txSignature wallet_) db)
      = {| code := 400; body := ErrorBody "Wallet mismatch" |}).
Proof.
  intros Hid Hbet Hne. unfold route, confirm. rewrite bind_assert.
  destruct (truthy betId && truthy txSignature && truthy wallet_).
  - rewrite bind_run. unfold getBet. rewrite Hid, Hbet.
    cbn [assert_some assert rbind]. rewrite bind_lift_Ok, bind_assert, Hne.
    repeat split.
  - repeat split. discriminate.
Qed.
End ConfirmWallet.

(** ** Confirmation: the verification of the transfer *)

Lemma alter_present {A : Type} (f : A -> A) (m : gmap string A) (k : string) (x : A) :
  m !! k = Some x -> alter f k m = <[k := f x]> m.
Proof.
  intros Hx. apply map_eq. intros j. destruct (decide (k = j)) as [-> | Hne].
  - rewrite lookup_alter_eq, lookup_insert_eq, Hx. reflexivity.
  - rewrite lookup_alter_ne, lookup_insert_ne by exact Hne. reflexivity.
Qed.

Lemma truthy_string (s : string) : s <> "" -> truthy (JsString s) = true.
Proof. intros Hs. simpl. destruct (String.eqb_spec s ""); [contradiction | reflexivity]. Qed.

Section ConfirmVerify.
Context (host : Host).

(** The confirm route once the three fields, the bet and the wallet have
    been checked: what is left is the verdict of [verifySolTransfer]. *)
Lemma confirm_checked (w : World) (db : Db) (betId sig : string) (bet : Bet) :
  betId <> "" -> sig <> "" -> wallet bet <> "" ->
  bets db !! betId = Some bet ->
  route (confirm host w (JsString betId) (JsString sig) (JsString (wallet bet))) db
  = match verifySolTransfer host w (env (SOLANA_RPC w)) (JsString sig)
            (JsString (wallet bet)) (env (TREASURY_PUBKEY w))
            (Math_round (PrimFloat.mul (amount_sol bet) LAMPORTS_PER_SOL)) with
    | Ok Verified =>
        ({| code := 200;
            body := ConfirmedBody (JsString betId) (JsString sig)
                      ("bet:" ++ betId ++ ":sig:" ++ sig) |},
         set_bets (<[betId := confirmed_row bet sig ("bet:" ++ betId ++ ":sig:" ++ sig)]>
                     (bets db)) db)
    | Ok (NotVerified reason) =>
        ({| code := 400; body := ConfirmFailedBody reason |},
         set_bets (<[betId := failed_row bet (Some sig)]> (bets db)) db)
    | Throw e => (errorHandler e, db)
    end.
Proof.
  intros Hid Hsig Hw Hbet. unfold route, confirm.
  rewrite bind_assert, !truthy_string by assumption. cbn [andb].
  rewrite bind_run. unfold getBet. cbn [bindText]. rewrite Hbet.
  cbn [assert_some assert rbind]. rewrite bind_lift_Ok, bind_assert.
  cbn [strict_equals]. rewrite String.eqb_refl.
  destruct (verifySolTransfer host w (env (SOLANA_RPC w)) (JsString sig)
              (JsString (wallet bet)) (env (TREASURY_PUBKEY w))
              (Math_round (PrimFloat.mul (amount_sol bet) LAMPORTS_PER_SOL)))
    as [[|reason]|e]; [| | reflexivity].
  - rewrite bind_lift_Ok. unfold bind, markBetConfirmed, ret. cbn [bindText nullish ToString].
    rewrite (alter_present _ _ _ _ Hbet). reflexivity.
  - rewrite bind_lift_Ok. unfold bind, markBetFailed, ret. cbn [bindText nullish].
    rewrite (alter_present _ _ _ _ Hbet). reflexivity.
Qed.

(** When the chain adapter throws (the connection or the RPC call fails) the
    error is answered and the bet is left as it was: it is not marked
    [FAILED]. *)
Lemma confirm_adapter_throws (w : World) (db : Db) (betId sig : string) (bet : Bet)
    (e : Exn) :
  betId <> "" -> sig <> "" -> wallet bet <> "" ->
  bets db !! betId = Some bet ->
  verifySolTransfer host w (env (SOLANA_RPC w)) (JsString sig) (JsString (wallet bet))
    (env (TREASURY_PUBKEY w))
    (Math_round (PrimFloat.mul (amount_sol bet) LAMPORTS_PER_SOL)) = Throw e ->
  route (confirm host w (JsString betId) (JsString sig) (JsString (wallet bet))) db
  = (errorHandler e, db).
Proof.
  intros Hid Hsig Hw Hbet Hthrow.
  rewrite (confirm_checked w db betId sig bet Hid Hsig Hw Hbet), Hthrow. reflexivity.
Qed.

(** C2.  For a confirm request that carries its three fields, on a bet
    that exists and whose stored wallet is the caller's, with
    [expectedLamports = Math.round(amount_sol * LAMPORTS_PER_SOL)]:
    - no transaction under the reference: the bet becomes [FAILED], reason
      [TX_NOT_FOUND];
    - no system transfer among its instructions: [FAILED], reason
      [NO_TRANSFER_IN_TX];
    - a transfer whose source, destination and lamports are exactly the
      caller's wallet, the treasury and [expectedLamports]: the bet becomes
      [CONFIRMED], with the reference and the proof [bet:<id>:sig:<ref>]
      stored;
    - a transfer that differs in any of the three: [FAILED], with a reason
      that names the source, destination and lamports observed. *)
Theorem C2_confirm_exact_match (w : World) (db : Db) (betId sig : string) (bet : Bet)
    (conn : Connection) :
  betId <> "" -> sig <> "" -> wallet bet <> "" ->
  bets db !! betId = Some bet ->
  connection w (env (SOLANA_RPC w)) = Ok conn ->
  let wallet_ := JsString (wallet bet) in
  let treasury := env (TREASURY_PUBKEY w) in
  let expectedLamports := Math_round (PrimFloat.mul (amount_sol bet) LAMPORTS_PER_SOL) in
  let answer := route (confirm host w (JsString betId) (JsString sig) wallet_) db in
  let failed (reason : string) :=
    answer = ({| code := 400; body := ConfirmFailedBody reason |},
              set_bets (<[betId := failed_row bet (Some sig)]> (bets db)) db) in
  let proof := "bet:" ++ betId ++ ":sig:" ++ sig in
  (getParsedTransaction conn (JsString sig) = Ok None -> failed "TX_NOT_FOUND")
  /\ (forall tr : ParsedTransaction,
        getParsedTransaction conn (JsString sig) = Ok (Some tr) ->
        List.find is_system_transfer (default [] (instructions tr)) = None ->
        failed "NO_TRANSFER_IN_TX")
  /\ (forall (tr : ParsedTransaction) (ix : Instruction) (inf : TransferInfo),
        getParsedTransaction conn (JsString sig) = Ok (Some tr) ->
        List.find is_system_transfer (default [] (instructions tr)) = Some ix ->
        mbind info (parsed ix) = Some inf ->
        if transfer_matches host inf wallet_ treasury expectedLamports
        then answer
             = ({| code := 200;
                   body := ConfirmedBody (JsString betId) (JsString sig) proof |},
                set_bets (<[betId := confirmed_row bet sig proof]> (bets db)) db)
        else failed (mismatch_description host inf)).
Proof.
  intros Hid Hsig Hw Hbet Hconn. cbv zeta.
  rewrite (confirm_checked w db betId sig bet Hid Hsig Hw Hbet).
  unfold verifySolTransfer. rewrite Hconn. cbn [rbind].
  split; [| split].
  - intros Hp. rewrite Hp. reflexivity.
  - intros tr Hp Hf. rewrite Hp. cbn [rbind]. rewrite Hf. reflexivity.
  - intros tr ix inf Hp Hf Hi. rewrite Hp. cbn [rbind]. rewrite Hf, Hi.
    unfold transfer_matches.
    destruct (strict_equals (source inf) (JsString (wallet bet))
              && strict_equals (destination inf) (env (TREASURY_PUBKEY w))
              && PrimFloat.eqb (ToNumber host (lamports inf))
                   (Math_round (PrimFloat.mul (amount_sol bet) LAMPORTS_PER_SOL)));
      reflexivity.
Qed.
End ConfirmVerify.

(** ** [seedIfEmpty] *)

Section Seed.
Context (nanoid : nat -> string) (now : Z).

Lemma insertMarket_Ok (id : string) (row : string * string * Z * Z)
    (ms ms' : gmap string Market) :
  insertMarket id row now ms = Ok ms' ->
  ms !! id = None /\ ms' = <[id := seeded_market now row]> ms.
Proof.
  unfold insertMarket, seeded_market. destruct row as [[[n c] y] o].
  destruct (ms !! id); [discriminate |]. intros [= <-]. split; reflexivity.
Qed.

Lemma insertMarket_fresh (id : string) (row : string * string * Z * Z)
    (ms : gmap string Market) :
  ms !! id = None ->
  insertMarket id row now ms = Ok (<[id := seeded_market now row]> ms).
Proof.
  unfold insertMarket, seeded_market. destruct row as [[[n c] y] o].
  intros ->. reflexivity.
Qed.

(** A loop that returns has added one market per row, and has kept what
    was there. *)
Lemma insertMany_Ok (rows : list (string * string * Z * Z)) :
  forall (k : nat) (ms ms' : gmap string Market),
    insertMany nanoid k now rows ms = Ok ms' ->
    size ms' = size ms + length rows
    /\ (forall (j : string) (x : Market), ms !! j = Some x -> ms' !! j = Some x)
    /\ (forall (i : nat) (row : string * string * Z * Z),
          rows !! i = Some row -> ms' !! nanoid (k + i) = Some (seeded_market now row)).
Proof.
  induction rows as [| row rest IH]; intros k ms ms' Hrun; simpl in Hrun.
  - injection Hrun as <-. simpl. split; [lia |]. split; [auto |].
    intros i r Hi. rewrite lookup_nil in Hi. discriminate.
  - destruct (insertMarket (nanoid k) row now ms) as [ms1|e] eqn:Hins; [| discriminate].
    apply insertMarket_Ok in Hins as [Hfree ->].
    destruct (IH _ _ _ Hrun) as (Hsize & Hkeep & Hrows).
    split; [| split].
    + rewrite Hsize, map_size_insert_None by exact Hfree. simpl. lia.
    + intros j x Hj. apply Hkeep. rewrite lookup_insert_ne; [exact Hj |].
      intros <-. congruence.
    + intros [| i] r Hi; simpl in Hi.
      * injection Hi as <-. rewrite Nat.add_0_r. apply Hkeep, lookup_insert_eq.
      * rewrite <- Nat.add_succ_comm. apply Hrows, Hi.
Qed.

(** The loop returns when the ids drawn are pairwise distinct and free. *)
Lemma insertMany_fresh (rows : list (string * string * Z * Z)) :
  forall (k : nat) (ms : gmap string Market),
    NoDup (map nanoid (seq k (length rows))) ->
    (forall i : nat, i < length rows -> ms !! nanoid (k + i) = None) ->
    exists ms' : gmap string Market, insertMany nanoid k now rows ms = Ok ms'.
Proof.
  induction rows as [| row rest IH]; intros k ms Hdup Hfree; simpl.
  - eauto.
  - simpl in Hdup. apply NoDup_cons in Hdup as [Hk Hdup].
    rewrite insertMarket_fresh
      by (rewrite <- (Nat.add_0_r k); apply Hfree; simpl; lia).
    apply IH; [exact Hdup |].
    intros i Hi. rewrite lookup_insert_ne.
    + rewrite Nat.add_succ_comm. apply Hfree. simpl. lia.
    + intros E. apply Hk. rewrite E. apply list_elem_of_In, in_map, in_seq. lia.
Qed.

(** C8.  [seedIfEmpty] is idempotent.
    - When a market row exists it inserts nothing: the store is unchanged.
    - When [markets] is empty it inserts the catalogue as one transaction:
      either all 20 rows are there afterwards, or the call throws and the
      store is unchanged; it does insert them when the ids drawn are
      pairwise distinct.
    - A call that follows a call that returned leaves the store, hence the
      number of markets, as the first call left it. *)
Theorem C8_seedIfEmpty_idempotent (db : Db) :
  (0 < size (markets db) -> seedIfEmpty nanoid now db = (Ok tt, db))
  /\ (size (markets db) = 0 ->
      (exists ms : gmap string Market,
         seedIfEmpty nanoid now db = (Ok tt, set_markets ms db)
         /\ size ms = 20 /\ catalogue_in nanoid now ms)
      \/ (exists e : Exn, seedIfEmpty nanoid now db = (Throw e, db)))
  /\ (size (markets db) = 0 ->
      NoDup (map nanoid (seq 0 20)) ->
      exists ms : gmap string Market,
        seedIfEmpty nanoid now db = (Ok tt, set_markets ms db) /\ size ms = 20)
  /\ (forall (nanoid' : nat -> string) (now' : Z) (db1 : Db),
        seedIfEmpty nanoid now db = (Ok tt, db1) ->
        seedIfEmpty nanoid' now' db1 = (Ok tt, db1)
        /\ size (markets (snd (seedIfEmpty nanoid' now' db1))) = size (markets db1)).
Proof.
  assert (Hempty : size (markets db) = 0 ->
            forall ms, insertMany nanoid 0 now data (markets db) = Ok ms ->
                       size ms = 20 /\ catalogue_in nanoid now ms).
  { intros H0 ms Hrun. destruct (insertMany_Ok _ _ _ _ Hrun) as (Hsize & _ & Hrows).
    split; [rewrite Hsize, H0; reflexivity | exact Hrows]. }
  split; [| split; [| split]].
  - intros Hpos. unfold seedIfEmpty.
    destruct (Nat.ltb_spec 0 (size (markets db))); [reflexivity | lia].
  - intros H0. unfold seedIfEmpty. rewrite H0. simpl Nat.ltb. cbv iota.
    destruct (insertMany nanoid 0 now data (markets db)) as [ms|e] eqn:Hrun.
    + left. exists ms. split; [reflexivity |]. apply Hempty; [exact H0 | reflexivity].
    + right. exists e. reflexivity.
  - intros H0 Hdup. unfold seedIfEmpty. rewrite H0. simpl Nat.ltb. cbv iota.
    destruct (insertMany_fresh data 0 (markets db) Hdup) as [ms Hrun].
    { intros i _. apply map_size_empty_inv in H0. rewrite H0. apply lookup_empty. }
    rewrite Hrun. exists ms. split; [reflexivity |].
    apply (Hempty H0 ms Hrun).
  - intros nanoid' now' db1 Hfirst.
    assert (Hpos : 0 < size (markets db1)).
    { unfold seedIfEmpty in Hfirst.
      destruct (Nat.ltb_spec 0 (size (markets db))) as [Hlt | Hge].
      - injection Hfirst as <-. exact Hlt.
      - destruct (insertMany nanoid 0 now data (markets db)) as [ms|e] eqn:Hrun;
          [| discriminate].
        injection Hfirst as <-. simpl.
        destruct (insertMany_Ok _ _ _ _ Hrun) as (Hsize & _). rewrite Hsize. simpl. lia. }
    assert (Hsecond : seedIfEmpty nanoid' now' db1 = (Ok tt, db1)).
    { unfold seedIfEmpty. destruct (Nat.ltb_spec 0 (size (markets db1)));
        [reflexivity | lia]. }
    rewrite Hsecond. split; reflexivity.
Qed.
End Seed.

(** ** Invariants of the store over sequences of requests *)

Section Invariants.
Context (host : Host).

(** A row of the store after a request was there before, with the same
    wager, or has just been created. *)
Lemma handle_row_origin (w : World) (req : Request) (db : Db) (k : string) (b' : Bet) :
  bets (snd (handle host w req db)) !! k = Some b' ->
  (exists b : Bet, bets db !! k = Some b /\ same_wager b b')
  \/ creates host w req db k b'.
Proof.
  intros Hafter. destruct (bets db !! k) as [b|] eqn:Hbefore.
  - left. exists b. split; [reflexivity |].
    destruct (handle_existing_bet host w req db k b Hbefore) as (b1 & Hb1 & Hw & _).
    rewrite Hafter in Hb1. injection Hb1 as <-. exact Hw.
  - right. split; assumption.
Qed.

(** No request removes a market. *)
Lemma handle_keeps_markets (w : World) (req : Request) (db : Db) (k : string) (m : Market) :
  markets db !! k = Some m -> markets (snd (handle host w req db)) !! k = Some m.
Proof.
  intros Hm.
  destruct req as [marketId side amountSol wl | betId tx wl
                  | marketId side amount address msg sig | auth]; simpl.
  - destruct (initiate_store host w marketId side amountSol wl db)
      as [-> | (row & -> & _)]; exact Hm.
  - destruct (confirm_store host w betId tx wl db) as [-> | (k' & f & _ & ->)]; exact Hm.
  - destruct (evm_receipt_store host w marketId side amount address msg sig db)
      as [-> | (row & -> & _)]; exact Hm.
  - unfold route, admin_seed.
    destruct (negb (strict_equals auth _)); [exact Hm |].
    rewrite bind_run. unfold seedIfEmpty.
    destruct (Nat.ltb 0 (size (markets db))); [exact Hm |].
    destruct (insertMany (nanoid w) 0 (now w) data (markets db)) as [ms|e] eqn:Hrun;
      [| exact Hm].
    simpl. destruct (insertMany_Ok _ _ _ _ _ _ Hrun) as (_ & Hkeep & _). auto.
Qed.

(** Over any sequence of requests the bets of the Solana flow keep an amount
    of at least the minimum. *)
Lemma run_minimum_respected (trace : list (World * Request)) (db : Db) :
  minimum_respected db -> minimum_respected (run host trace db).
Proof.
  revert db. induction trace as [| [w req] rest IH]; intros db Hinv; [exact Hinv |].
  simpl. apply IH. intros k b' Hb' Hchain.
  destruct (handle_row_origin w req db k b' Hb') as [(b & Hb & Hw) | Hc].
  - destruct Hw as (_ & _ & Ha & _ & Hch & _). rewrite Ha. apply (Hinv k b Hb). congruence.
  - pose proof (handle_created host w req db k b' Hc) as H.
    destruct req; try contradiction.
    + destruct H as (_ & _ & Hmin & _). exact Hmin.
    + destruct H as (_ & _ & _ & Hevm & _). congruence.
Qed.

(** With the foreign key enforced, over any sequence of requests every bet
    names a market of the store. *)
Lemma run_markets_referenced (trace : list (World * Request)) (db : Db) :
  foreign_keys host = true ->
  markets_referenced db -> markets_referenced (run host trace db).
Proof.
  intros Hfk. revert db. induction trace as [| [w req] rest IH]; intros db Hinv;
    [exact Hinv |].
  simpl. apply IH. intros k b' Hb'.
  assert (Hbefore : is_Some (markets db !! market_id b')).
  { destruct (handle_row_origin w req db k b' Hb') as [(b & Hb & Hw) | Hc].
    - destruct Hw as (Hm & _). rewrite Hm. apply (Hinv k b Hb).
    - pose proof (handle_created host w req db k b' Hc) as H.
      destruct req; try contradiction.
      + destruct H as (Hm & _). exact Hm.
      + destruct H as (Hm & _). auto. }
  destruct Hbefore as [m Hm]. exists m. apply handle_keeps_markets, Hm.
Qed.
End Invariants.

(** * Further properties *)

(** ** The wallet pattern *)

Lemma base58_char_alphabet (c : ascii) :
  base58_char c = alphanumeric c && negb (easily_mistaken c).
Proof. destruct c as [[] [] [] [] [] [] [] []]; reflexivity. Qed.

(** X1.  The wallet pattern accepts exactly the strings of 32 to 44
    characters, each an ASCII letter or digit other than 0, O, I and l. *)
Theorem X1_wallet_pattern_alphabet (s : string) :
  wallet_pattern_test s = true
  <-> (32 <= String.length s /\ String.length s <= 44
       /\ forall c : ascii, In c (list_ascii_of_string s) ->
            alphanumeric c = true /\ easily_mistaken c = false).
Proof.
  unfold wallet_pattern_test. rewrite !andb_true_iff, forallb_forall.
  rewrite !Nat.leb_le. split.
  - intros [[Hall Hlo] Hhi]. split; [exact Hlo |]. split; [exact Hhi |].
    intros c Hc. specialize (Hall c Hc). rewrite base58_char_alphabet in Hall.
    apply andb_prop in Hall as [Ha Hm]. split; [exact Ha |].
    apply negb_true_iff, Hm.
  - intros (Hlo & Hhi & Hall). split; [split |]; [| exact Hlo | exact Hhi].
    intros c Hc. destruct (Hall c Hc) as [Ha Hm].
    rewrite base58_char_alphabet, Ha, Hm. reflexivity.
Qed.

(** ** [createBet], [markBetConfirmed], [markBetFailed] as operations of the store *)

Lemma set_bets_same (db : Db) : set_bets (bets db) db = db.
Proof. destruct db. reflexivity. Qed.

Lemma alter_absent {A : Type} (f : A -> A) (m : gmap string A) (k : string) :
  m !! k = None -> alter f k m = m.
Proof.
  intros Hk. apply map_eq. intros j. destruct (decide (k = j)) as [-> | Hne].
  - rewrite lookup_alter_eq, Hk. reflexivity.
  - apply lookup_alter_ne. exact Hne.
Qed.

Section StoreOperations.
Context (host : Host).

(** [createBet] returns only after it has written the whole row. *)
Lemma createBet_Ok (id : string) (t : Z) (m s : JsValue) (a : float) (wl : JsValue)
    (ch : Chain) (st : BetStatus) (db db' : Db) (id' : string) :
  createBet host id t m s a wl ch st db = (Ok id', db') ->
  exists m' s' w' : string,
    bindText host m = BindText m' /\ bindText host s = BindText s'
    /\ bindText host wl = BindText w'
    /\ (s' = "YES" \/ s' = "NO")
    /\ is_nan a = false
    /\ bets db !! id = None
    /\ (foreign_keys host = true -> is_Some (markets db !! m'))
    /\ id' = id
    /\ db' = set_bets (<[id := created_row m' s' (real_column a) w' ch t st]> (bets db))
              db.
Proof.
  unfold createBet.
  destruct (bindText host m) as [ | |m']; destruct (bindText host s) as [ | |s'];
    destruct (bindText host wl) as [ | |w'];
    try discriminate; try (destruct (is_nan a); discriminate).
  destruct (is_nan a) eqn:Hnan; [discriminate |].
  destruct (String.eqb s' "YES" || String.eqb s' "NO") eqn:Hside; [| discriminate].
  destruct (bool_decide (is_Some (bets db !! id))) eqn:Hid; [discriminate |].
  destruct (foreign_keys host && negb (bool_decide (is_Some (markets db !! m'))))
    eqn:Hfk; [discriminate |].
  simpl. intros [= <- <-]. exists m', s', w'.
  apply bool_decide_eq_false_1 in Hid.
  repeat split; try reflexivity.
  - apply orb_prop in Hside as [H | H]; apply String.eqb_eq in H; auto.
  - destruct (bets db !! id); [exfalso; eauto | reflexivity].
  - intros Hon. rewrite Hon in Hfk. simpl in Hfk.
    apply negb_false_iff, bool_decide_eq_true_1 in Hfk. exact Hfk.
Qed.

(** X2.  A [createBet] that returns has inserted one row under the id it
    returns: [getBet] of that id finds the row, with the status, chain and
    time given, the market, side and wallet as they were bound, the amount
    as the [REAL] column holds it (the amount given unless it is a zero,
    which is held as 0: the sign of [-0] is not kept), and no [tx] and no
    [proof]; the id was free, and every other row and the markets are as
    before. *)
Theorem X2_createBet_then_getBet (id : string) (t : Z) (m s : JsValue) (a : float)
    (wl : JsValue) (ch : Chain) (st : BetStatus) (db db' : Db) (id' : string) :
  createBet host id t m s a wl ch st db = (Ok id', db') ->
  exists row : Bet,
    getBet host (JsString id') db' = (Ok (Some row), db')
    /\ bindText host m = BindText (market_id row)
    /\ bindText host s = BindText (side row)
    /\ bindText host wl = BindText (wallet row)
    /\ amount_sol row = real_column a
    /\ (PrimFloat.eqb a 0 = false -> amount_sol row = a)
    /\ (PrimFloat.eqb a 0 = true -> amount_sol row = 0%float)
    /\ chain row = ch /\ created_at row = t /\ status row = st
    /\ tx row = None /\ proof row = None
    /\ bets db !! id' = None
    /\ (forall k : string, k <> id' -> bets db' !! k = bets db !! k)
    /\ markets db' = markets db.
Proof.
  intros Hrun.
  destruct (createBet_Ok _ _ _ _ _ _ _ _ _ _ _ Hrun)
    as (m' & s' & w' & Hm & Hs & Hw & _ & _ & Hfree & _ & -> & ->).
  exists (created_row m' s' (real_column a) w' ch t st). unfold getBet. simpl.
  rewrite lookup_insert_eq.
  split; [reflexivity |]. split; [exact Hm |]. split; [exact Hs |].
  split; [exact Hw |]. split; [reflexivity |].
  split; [apply real_column_nonzero |]. split; [apply real_column_zero |].
  repeat split; try assumption.
  intros k Hk. apply lookup_insert_ne. congruence.
Qed.

(** X3.  [createBet] refuses, and leaves the store as it was, whenever it
    throws; it throws rather than overwrite a row that has the id drawn, and
    it throws on a NaN amount, on a side that is not YES or NO, and on a
    market that does not exist when the engine enforces the foreign key. *)
Theorem X3_createBet_refusals (id : string) (t : Z) (m s : JsValue) (a : float)
    (wl : JsValue) (ch : Chain) (st : BetStatus) (db : Db) :
  let run := createBet host id t m s a wl ch st db in
  let throws := exists e : Exn, run = (Throw e, db) in
  (forall e : Exn, fst run = Throw e -> snd run = db)
  /\ (is_Some (bets db !! id) -> throws)
  /\ (is_nan a = true -> throws)
  /\ (forall s' : string,
        bindText host s = BindText s' -> s' <> "YES" -> s' <> "NO" -> throws)
  /\ (forall m' : string,
        bindText host m = BindText m' -> foreign_keys host = true ->
        markets db !! m' = None -> throws).
Proof.
  cbv zeta. unfold createBet.
  destruct (bindText host m) as [ | |m']; destruct (bindText host s) as [ | |s'];
    destruct (bindText host wl) as [ | |w'];
    try (repeat split; intros; simpl; eauto; fail);
    try (destruct (is_nan a); repeat split; intros; simpl; eauto; fail).
  destruct (is_nan a) eqn:Hnan; [repeat split; intros; simpl; eauto |].
  destruct (String.eqb s' "YES" || String.eqb s' "NO") eqn:Hside; simpl;
    [| repeat split; intros; simpl; eauto].
  destruct (bool_decide (is_Some (bets db !! id))) eqn:Hid;
    [repeat split; intros; simpl; eauto |].
  apply bool_decide_eq_false_1 in Hid.
  destruct (foreign_keys host) eqn:Hfk; simpl.
  - destruct (bool_decide (is_Some (markets db !! m'))) eqn:Hmk; simpl.
    + apply bool_decide_eq_true_1 in Hmk.
      split; [discriminate |]. split; [contradiction |]. split; [discriminate |].
      split.
      * intros s0 [= <-] Hy Hn.
        apply orb_prop in Hside as [H | H]; apply String.eqb_eq in H; contradiction.
      * intros m0 [= <-] _ Hnone. rewrite Hnone in Hmk. destruct Hmk; discriminate.
    + repeat split; intros; simpl; eauto.
  - split; [discriminate |]. split; [contradiction |]. split; [discriminate |].
    split.
    + intros s0 [= <-] Hy Hn.
      apply orb_prop in Hside as [H | H]; apply String.eqb_eq in H; contradiction.
    + intros m0 _ Hoff. discriminate.
Qed.
(** X4.  [markBetConfirmed({ id, tx, proof })] on the id of a row sets the
    status to [CONFIRMED] and the [tx] and [proof] columns to what is bound
    (the strings themselves when they are strings), and leaves every other
    column of the row, every other row and the markets as they were. *)
Theorem X4_markBetConfirmed_frame (id : string) (tx proof : JsValue) (db : Db) (b : Bet) :
  bets db !! id = Some b ->
  bindText host tx <> BindError ->
  bindText host (nullish proof JsNull) <> BindError ->
  let db' := snd (markBetConfirmed host (JsString id) tx proof db) in
  fst (markBetConfirmed host (JsString id) tx proof db) = Ok tt
  /\ bets db' !! id
     = Some (confirmed_as b (bound_text (bindText host tx))
               (bound_text (bindText host (nullish proof JsNull))))
  /\ (forall t p : string, tx = JsString t -> proof = JsString p ->
        bets db' !! id = Some (confirmed_row b t p))
  /\ (forall k : string, k <> id -> bets db' !! k = bets db !! k)
  /\ markets db' = markets db.
Proof.
  intros Hb Htx Hproof. cbv zeta. unfold markBetConfirmed.
  simpl (bindText host (JsString id)).
  destruct (bindText host tx) as [ | |t] eqn:Ht; [contradiction | |];
    destruct (bindText host (nullish proof JsNull)) as [ | |p] eqn:Hp;
    try contradiction;
    simpl; rewrite lookup_alter_eq, Hb; simpl;
    (split; [reflexivity |]); (split; [reflexivity |]);
    (split; [intros t' p' Et Ep; rewrite Et in Ht; rewrite Ep in Hp; simpl in Ht, Hp;
             unfold confirmed_row; congruence |]);
    (split; [intros k Hk; rewrite lookup_alter_ne by (intros E; apply Hk; symmetry; exact E);
             reflexivity |]);
    reflexivity.
Qed.

(** X5.  On an id that no row has, [markBetConfirmed] and [markBetFailed]
    return without an error and change nothing: the [UPDATE] matches no
    row. *)
Theorem X5_mark_absent_id (id : string) (tx proof reason : JsValue) (db : Db) :
  bets db !! id = None ->
  (bindText host tx <> BindError ->
   bindText host (nullish proof JsNull) <> BindError ->
   markBetConfirmed host (JsString id) tx proof db = (Ok tt, db))
  /\ (bindText host (nullish tx JsNull) <> BindError ->
      markBetFailed host (JsString id) tx reason db = (Ok tt, db)).
Proof.
  intros Hnone. split.
  - intros Htx Hproof. unfold markBetConfirmed. simpl (bindText host (JsString id)).
    destruct (bindText host tx); [contradiction | |];
      destruct (bindText host (nullish proof JsNull)); try contradiction;
      rewrite (alter_absent _ _ _ Hnone), set_bets_same; reflexivity.
  - intros Htx. unfold markBetFailed. simpl (bindText host (JsString id)).
    destruct (bindText host (nullish tx JsNull)); [contradiction | |];
      rewrite (alter_absent _ _ _ Hnone), set_bets_same; reflexivity.
Qed.

(** X6.  The two updates compose as last write wins on [status] and [tx],
    but not on [proof]: [markBetFailed] after [markBetConfirmed] leaves the
    proof of the confirmation on the failed row, while [markBetConfirmed]
    after [markBetFailed] overwrites all three columns. *)
Theorem X6_updates_compose (id t1 t2 p : string) (reason : JsValue) (db : Db) (b : Bet) :
  bets db !! id = Some b ->
  bets (snd (markBetFailed host (JsString id) (JsString t2) reason
               (snd (markBetConfirmed host (JsString id) (JsString t1) (JsString p) db))))
    !! id
  = Some {| market_id := market_id b; side := side b; amount_sol := amount_sol b;
            wallet := wallet b; chain := chain b; created_at := created_at b;
            status := FAILED; tx := Some t2; proof := Some p |}
  /\ bets (snd (markBetConfirmed host (JsString id) (JsString t1) (JsString p)
                  (snd (markBetFailed host (JsString id) (JsString t2) reason db))))
       !! id
     = Some (confirmed_row b t1 p).
Proof.
  intros Hb. unfold markBetFailed, markBetConfirmed. simpl.
  rewrite !lookup_alter_eq, Hb. split; reflexivity.
Qed.
End StoreOperations.

(** ** [verifySolTransfer] *)

Lemma strict_equals_string (v : JsValue) (s : string) :
  strict_equals v (JsString s) = true -> v = JsString s.
Proof.
  destruct v; simpl; try discriminate. intros H. apply String.eqb_eq in H. congruence.
Qed.

Lemma find_first {A : Type} (f : A -> bool) (pre post : list A) (x : A) :
  forallb (fun y => negb (f y)) pre = true -> f x = true ->
  List.find f (pre ++ x :: post) = Some x.
Proof.
  induction pre as [| y pre IH]; simpl; intros Hpre Hx.
  - rewrite Hx. reflexivity.
  - apply andb_prop in Hpre as [Hy Hpre]. apply negb_true_iff in Hy.
    rewrite Hy. apply IH; assumption.
Qed.

Section Verification.
Context (host : Host) (w : World).

(** X7.  [verifySolTransfer] answers [{ ok: true }] only when the
    transaction fetched under the reference holds a top-level instruction of
    the system program, of type transfer, whose source is the payer, whose
    destination is the recipient and whose lamports are the expected number.
    When it answers [{ ok: false }] the reason is [TX_NOT_FOUND],
    [NO_TRANSFER_IN_TX] or the description of the transfer that was found. *)
Theorem X7_verified_only_on_exact_transfer (rpc signature fromPubkey toPubkey : JsValue)
    (expectedLamports : float) :
  (verifySolTransfer host w rpc signature fromPubkey toPubkey expectedLamports
   = Ok Verified ->
   exists (conn : Connection) (tr : ParsedTransaction) (ix : Instruction)
          (p : ParsedInstruction) (inf : TransferInfo),
     connection w rpc = Ok conn
     /\ getParsedTransaction conn signature = Ok (Some tr)
     /\ In ix (default [] (instructions tr))
     /\ program ix = JsString "system"
     /\ parsed ix = Some p /\ type p = JsString "transfer" /\ info p = Some inf
     /\ strict_equals (source inf) fromPubkey = true
     /\ strict_equals (destination inf) toPubkey = true
     /\ PrimFloat.eqb (ToNumber host (lamports inf)) expectedLamports = true)
  /\ (forall reason : string,
        verifySolTransfer host w rpc signature fromPubkey toPubkey expectedLamports
        = Ok (NotVerified reason) ->
        reason = "TX_NOT_FOUND" \/ reason = "NO_TRANSFER_IN_TX"
        \/ exists inf : TransferInfo,
             reason = mismatch_description host inf
             /\ transfer_matches host inf fromPubkey toPubkey expectedLamports = false).
Proof.
  unfold verifySolTransfer.
  destruct (connection w rpc) as [conn|e] eqn:Hconn; cbn [rbind]; [| split; intros; discriminate].
  destruct (getParsedTransaction conn signature) as [[tr|]|e] eqn:Htx; cbn [rbind];
    [| split; [discriminate | intros r [= <-]; auto] | split; intros; discriminate].
  destruct (List.find is_system_transfer (default [] (instructions tr))) as [ix|] eqn:Hfind;
    [| split; [discriminate | intros r [= <-]; auto]].
  apply find_some in Hfind as [Hin Hsys].
  unfold is_system_transfer in Hsys. apply andb_prop in Hsys as [Hprog Htype].
  destruct (parsed ix) as [p|] eqn:Hp; [| discriminate].
  simpl. destruct (info p) as [inf|] eqn:Hinf; [| split; intros; discriminate].
  destruct (strict_equals (source inf) fromPubkey
            && strict_equals (destination inf) toPubkey
            && PrimFloat.eqb (ToNumber host (lamports inf)) expectedLamports) eqn:Hok.
  - split; [| intros r; discriminate]. intros _.
    apply andb_prop in Hok as [Hok Hl]. apply andb_prop in Hok as [Hs Hd].
    exists conn, tr, ix, p, inf.
    repeat split; try assumption; try reflexivity.
    + apply strict_equals_string, Hprog.
    + apply strict_equals_string, Htype.
  - split; [discriminate |]. intros r [= <-]. right. right. exists inf.
    split; [reflexivity | exact Hok].
Qed.

(** X8.  Only the first transfer of the system program counts: the
    instructions before it that are not such a transfer are skipped, and
    the instructions after it are never read, so the verdict is the verdict
    on that one instruction.  When that instruction has no [info], reading
    [info.source] throws the [TypeError]
    [Cannot read properties of undefined (reading 'source')]. *)
Theorem X8_first_transfer_decides (rpc signature fromPubkey toPubkey : JsValue)
    (expectedLamports : float) (conn : Connection) (tr : ParsedTransaction)
    (pre post : list Instruction) (ix : Instruction) :
  connection w rpc = Ok conn ->
  getParsedTransaction conn signature = Ok (Some tr) ->
  instructions tr = Some (pre ++ ix :: post)%list ->
  forallb (fun i => negb (is_system_transfer i)) pre = true ->
  is_system_transfer ix = true ->
  verifySolTransfer host w rpc signature fromPubkey toPubkey expectedLamports
  = match mbind info (parsed ix) with
    | None => Throw (TypeError "Cannot read properties of undefined (reading 'source')")
    | Some inf =>
        if transfer_matches host inf fromPubkey toPubkey expectedLamports
        then Ok Verified
        else Ok (NotVerified (mismatch_description host inf))
    end.
Proof.
  intros Hconn Htx Hins Hpre Hix. unfold verifySolTransfer.
  rewrite Hconn. cbn [rbind]. rewrite Htx. cbn [rbind]. rewrite Hins. simpl default.
  rewrite (find_first _ _ _ _ Hpre Hix).
  destruct (mbind info (parsed ix)) as [inf|]; [| reflexivity].
  unfold transfer_matches, mismatch_description.
  destruct (strict_equals (source inf) fromPubkey
            && strict_equals (destination inf) toPubkey
            && PrimFloat.eqb (ToNumber host (lamports inf)) expectedLamports);
    reflexivity.
Qed.
End Verification.

(** ** What the answer of a route says about the store *)

Lemma errorHandler_is_error (e : Exn) : is_error (errorHandler e).
Proof. unfold is_error, errorHandler. simpl. eauto. Qed.

Lemma wallet_pattern_nonempty (s : string) : wallet_pattern_test s = true -> s <> "".
Proof. intros H ->. discriminate. Qed.

Section InitiateAnswer.
Context (host : Host).

(** The verdict once the transfer instruction is in hand. *)
Lemma verifySolTransfer_found (w : World) (rpc signature fromPubkey toPubkey : JsValue)
    (expectedLamports : float) (conn : Connection) (tr : ParsedTransaction)
    (ix : Instruction) (inf : TransferInfo) :
  connection w rpc = Ok conn ->
  getParsedTransaction conn signature = Ok (Some tr) ->
  List.find is_system_transfer (default [] (instructions tr)) = Some ix ->
  mbind info (parsed ix) = Some inf ->
  verifySolTransfer host w rpc signature fromPubkey toPubkey expectedLamports
  = Ok (if transfer_matches host inf fromPubkey toPubkey expectedLamports
        then Verified else NotVerified (mismatch_description host inf)).
Proof.
  intros Hconn Htx Hfind Hinf. unfold verifySolTransfer.
  rewrite Hconn. cbn [rbind]. rewrite Htx. cbn [rbind]. rewrite Hfind, Hinf.
  unfold transfer_matches, mismatch_description.
  destruct (strict_equals (source inf) fromPubkey
            && strict_equals (destination inf) toPubkey
            && PrimFloat.eqb (ToNumber host (lamports inf)) expectedLamports);
    reflexivity.
Qed.

(** The end of [initiate] answers with the error envelope, or with the
    transaction that the chain adapter built for the treasury. *)
Lemma after_insert_answer (w : World) (betId : string) (amt : float) (wallet : JsValue)
    (db : Db) :
  is_error (fst (route (after_insert host w betId amt wallet) db))
  \/ exists (conn : Connection) (blockhash : string) (height : Z) (txBase64 : string),
       truthy (env (TREASURY_PUBKEY w)) = true
       /\ PublicKey host (env (TREASURY_PUBKEY w)) = Ok tt
       /\ connection w (env (SOLANA_RPC w)) = Ok conn
       /\ getLatestBlockhash conn = Ok (blockhash, height)
       /\ transferTxBase64 host blockhash wallet (env (TREASURY_PUBKEY w))
            (Math_round (PrimFloat.mul amt LAMPORTS_PER_SOL)) = Ok txBase64
       /\ fst (route (after_insert host w betId amt wallet) db)
          = {| code := 200; body := InitiateBody betId txBase64 |}.
Proof.
  unfold route, after_insert. rewrite bind_assert.
  destruct (truthy (env (TREASURY_PUBKEY w))) eqn:Ht;
    [| left; apply errorHandler_is_error].
  destruct (PublicKey host (env (TREASURY_PUBKEY w))) as [[]|e] eqn:Hk;
    [| left; apply errorHandler_is_error].
  rewrite bind_lift_Ok. unfold buildSolTransferTx.
  destruct (connection w (env (SOLANA_RPC w))) as [conn|e] eqn:Hconn;
    [| left; apply errorHandler_is_error].
  cbn [rbind].
  destruct (getLatestBlockhash conn) as [[blockhash height]|e] eqn:Hb;
    [| left; apply errorHandler_is_error].
  cbn [rbind].
  destruct (transferTxBase64 host blockhash wallet (env (TREASURY_PUBKEY w))
              (Math_round (PrimFloat.mul amt LAMPORTS_PER_SOL))) as [txBase64|e] eqn:Htx;
    [| left; apply errorHandler_is_error].
  right. exists conn, blockhash, height, txBase64. repeat split; try assumption.
Qed.

(** [initiate] answers with the error envelope before it has written
    anything, or writes the [PENDING] row and goes on with the rest. *)
Lemma initiate_effect (w : World) (marketId side amountSol wallet : JsValue) (db : Db) :
  (is_error (fst (route (initiate host w marketId side amountSol wallet) db))
   /\ snd (route (initiate host w marketId side amountSol wallet) db) = db)
  \/ exists (m s ws : string) (amt : float),
       marketId = JsString m /\ side = JsString s /\ (s = "YES" \/ s = "NO")
       /\ bindText host wallet = BindText ws
       /\ wallet_given host wallet = true
       /\ parseAmountSol host amountSol = Some amt
       /\ PrimFloat.leb 0.01 amt = true
       /\ is_Some (markets db !! m)
       /\ bets db !! nanoid w 0 = None
       /\ route (initiate host w marketId side amountSol wallet) db
          = route (after_insert host w (nanoid w 0) amt wallet)
              (set_bets (<[nanoid w 0 := pending_row w m s amt ws]> (bets db)) db).
Proof.
  rewrite initiate_unfold. unfold route. rewrite !bind_assert.
  rewrite marketId_given_check, side_given_check.
  destruct (marketId_given marketId) eqn:Hid;
    [| left; split; [apply errorHandler_is_error | reflexivity]].
  destruct (side_given side) eqn:Hside;
    [| left; split; [apply errorHandler_is_error | reflexivity]].
  unfold assert_amount.
  destruct (parseAmountSol host amountSol) as [amt|] eqn:Hp;
    [| left; split; [apply errorHandler_is_error | reflexivity]].
  destruct (truthy (JsNumber amt) && PrimFloat.leb 0.01 amt) eqn:Hamt;
    [| left; split; [apply errorHandler_is_error | reflexivity]].
  apply andb_prop in Hamt as [_ Hmin].
  cbn [assert rbind]. rewrite bind_lift_Ok.
  destruct marketId as [ | | | |m| | ]; try discriminate.
  destruct side as [ | | | |s| | ]; try discriminate.
  rewrite bind_getMarket_string.
  destruct (markets db !! m) as [mk|] eqn:Hk;
    [| left; split; [apply errorHandler_is_error | reflexivity]].
  cbn [assert_some assert rbind]. rewrite bind_lift_Ok, bind_assert.
  destruct (wallet_pattern_test (ToString host wallet)) eqn:Hwallet;
    [| left; split; [apply errorHandler_is_error | reflexivity]].
  rewrite bind_run.
  destruct (createBet host (nanoid w 0) (now w) (JsString m) (JsString s) amt wallet
              solana PENDING db) as [[betId|e] db1] eqn:Hrun.
  - right.
    destruct (createBet_Ok host _ _ _ _ _ _ _ _ _ _ _ Hrun)
      as (m' & s' & ws & Hm & Hs & Hw & Hyn & _ & Hfree & _ & -> & ->).
    simpl in Hm, Hs. injection Hm as <-. injection Hs as <-.
    rewrite (real_column_minimum _ Hmin).
    exists m, s, ws, amt. rewrite Hk.
    repeat split; eauto.
  - left. split; [apply errorHandler_is_error |].
    destruct (createBet_store host (nanoid w 0) (now w) (JsString m) (JsString s) amt
                wallet solana PENDING db) as [Hsame | (row & Hok & _)].
    + rewrite Hrun in Hsame. exact Hsame.
    + rewrite Hrun in Hok. discriminate.
Qed.

(** X9.  When [initiate] answers with a bet id and a transaction, the id is
    that of a [PENDING] row it has just inserted under a free key, for the
    market, side and wallet of the request and the parsed amount, and the
    transaction is the one the chain adapter built on the latest blockhash
    to move [Math.round(amount * LAMPORTS_PER_SOL)] lamports from the wallet
    to [TREASURY_PUBKEY]. *)
Theorem X9_initiate_answer (w : World) (marketId side amountSol wallet : JsValue)
    (db : Db) (c : Z) (betId txBase64 : string) :
  fst (route (initiate host w marketId side amountSol wallet) db)
  = {| code := c; body := InitiateBody betId txBase64 |} ->
  exists (m s ws : string) (amt : float) (conn : Connection) (blockhash : string)
         (height : Z),
    marketId = JsString m /\ side = JsString s
    /\ bindText host wallet = BindText ws
    /\ parseAmountSol host amountSol = Some amt
    /\ c = 200%Z /\ betId = nanoid w 0
    /\ bets db !! betId = None
    /\ snd (route (initiate host w marketId side amountSol wallet) db)
       = set_bets (<[betId := pending_row w m s amt ws]> (bets db)) db
    /\ connection w (env (SOLANA_RPC w)) = Ok conn
    /\ getLatestBlockhash conn = Ok (blockhash, height)
    /\ transferTxBase64 host blockhash wallet (env (TREASURY_PUBKEY w))
         (Math_round (PrimFloat.mul amt LAMPORTS_PER_SOL)) = Ok txBase64.
Proof.
  intros Hans.
  destruct (initiate_effect w marketId side amountSol wallet db)
    as [[[msg Herr] _] | (m & s & ws & amt & -> & -> & _ & Hw & _ & Hp & _ & _ & Hfree & Hrun)].
  { rewrite Hans in Herr. discriminate. }
  rewrite Hrun in Hans. rewrite Hrun, after_insert_store.
  destruct (after_insert_answer w (nanoid w 0) amt wallet
              (set_bets (<[nanoid w 0 := pending_row w m s amt ws]> (bets db)) db))
    as [[msg Herr] | (conn & blockhash & height & txb & _ & _ & Hconn & Hb & Htx & Hok)].
  { rewrite Hans in Herr. discriminate. }
  rewrite Hans in Hok. injection Hok as -> -> ->.
  exists m, s, ws, amt, conn, blockhash, height.
  repeat split; assumption || reflexivity.
Qed.

(** X10.  A bet that [initiate] has just created is confirmed by a confirm
    request from the same wallet when the chain holds, under the reference,
    a transfer from that wallet to the treasury of exactly
    [Math.round(amount * LAMPORTS_PER_SOL)] lamports, [amount] being the
    parsed amount of the initiate request (the number of lamports that the
    transaction answered by [initiate] carries); with any other transfer it
    is failed. *)
Theorem X10_initiate_then_confirm (w w2 : World) (db : Db)
    (marketId side ws sig : string) (amountSol : JsValue)
    (conn : Connection) (tr : ParsedTransaction) (ix : Instruction) (inf : TransferInfo) :
  initiate_preconditions_hold host db (JsString marketId) (JsString side) amountSol
    (JsString ws) = true ->
  bets db !! nanoid w 0 = None ->
  nanoid w 0 <> "" -> sig <> "" ->
  connection w2 (env (SOLANA_RPC w2)) = Ok conn ->
  getParsedTransaction conn (JsString sig) = Ok (Some tr) ->
  List.find is_system_transfer (default [] (instructions tr)) = Some ix ->
  mbind info (parsed ix) = Some inf ->
  exists amt : float,
    let betId := nanoid w 0 in
    let row := pending_row w marketId side amt ws in
    let proof := "bet:" ++ betId ++ ":sig:" ++ sig in
    let confirmation :=
      route (confirm host w2 (JsString betId) (JsString sig) (JsString ws))
        (snd (route (initiate host w (JsString marketId) (JsString side) amountSol
                       (JsString ws)) db)) in
    parseAmountSol host amountSol = Some amt
    /\ confirmation
       = if transfer_matches host inf (JsString ws) (env (TREASURY_PUBKEY w2))
              (Math_round (PrimFloat.mul amt LAMPORTS_PER_SOL))
         then ({| code := 200;
                  body := ConfirmedBody (JsString betId) (JsString sig) proof |},
               set_bets (<[betId := confirmed_row row sig proof]> (bets db)) db)
         else ({| code := 400; body := ConfirmFailedBody (mismatch_description host inf) |},
               set_bets (<[betId := failed_row row (Some sig)]> (bets db)) db).
Proof.
  intros Hpre Hfresh Hid Hsig Hconn Htx Hfind Hinf.
  destruct (initiate_inserts host w db marketId side ws amountSol Hpre Hfresh)
    as (amt & Hp & _ & Hrun).
  exists amt. cbv zeta. split; [exact Hp |].
  rewrite Hrun, after_insert_store.
  assert (Hw : ws <> "").
  { unfold initiate_preconditions_hold in Hpre. apply andb_prop in Hpre as [_ Hwg].
    apply wallet_pattern_nonempty. exact Hwg. }
  rewrite (confirm_checked host w2 _ (nanoid w 0) sig
             (pending_row w marketId side amt ws) Hid Hsig Hw)
    by (simpl; apply lookup_insert_eq).
  cbn [amount_sol wallet pending_row].
  rewrite (verifySolTransfer_found w2 _ _ _ _ _ conn tr ix inf Hconn Htx Hfind Hinf).
  unfold set_bets. simpl. rewrite !insert_insert_eq.
  destruct (transfer_matches host inf (JsString ws) (env (TREASURY_PUBKEY w2))
              (Math_round (PrimFloat.mul amt LAMPORTS_PER_SOL))); reflexivity.
Qed.
End InitiateAnswer.

Section ConfirmAnswer.
Context (host : Host).

(** [confirm] answers with the error envelope and writes nothing, or runs
    one of the two updates on the row it has found. *)
Lemma confirm_effect (w : World) (betId txSignature wallet_ : JsValue) (db : Db) :
  let answer := route (confirm host w betId txSignature wallet_) db in
  let proof := "bet:" ++ ToString host betId ++ ":sig:" ++ ToString host txSignature in
  (is_error (fst answer) /\ snd answer = db)
  \/ exists (k : string) (b : Bet),
       bindText host betId = BindText k /\ bets db !! k = Some b
       /\ strict_equals (JsString (wallet b)) wallet_ = true
       /\ ((exists reason : string,
              answer
              = ({| code := 400; body := ConfirmFailedBody reason |},
                 set_bets (<[k := failed_row b
                                    (bound_text (bindText host (nullish txSignature JsNull)))]>
                             (bets db)) db))
           \/ answer
              = ({| code := 200; body := ConfirmedBody betId txSignature proof |},
                 set_bets (<[k := confirmed_as b (bound_text (bindText host txSignature))
                                    (Some proof)]> (bets db)) db)).
Proof.
  cbv zeta. unfold route, confirm. rewrite bind_assert.
  destruct (truthy betId && truthy txSignature && truthy wallet_);
    [| left; split; [apply errorHandler_is_error | reflexivity]].
  rewrite bind_run. unfold getBet.
  destruct (bindText host betId) as [ | |k] eqn:Hid;
    try (left; split; [apply errorHandler_is_error | reflexivity]).
  destruct (bets db !! k) as [b|] eqn:Hb;
    [| left; split; [apply errorHandler_is_error | reflexivity]].
  cbn [assert_some assert rbind]. rewrite bind_lift_Ok, bind_assert.
  destruct (strict_equals (JsString (wallet b)) wallet_) eqn:Hw;
    [| left; split; [apply errorHandler_is_error | reflexivity]].
  destruct (verifySolTransfer host w (env (SOLANA_RPC w)) txSignature wallet_
              (env (TREASURY_PUBKEY w))
              (Math_round (PrimFloat.mul (amount_sol b) LAMPORTS_PER_SOL)))
    as [[|reason]|e]; [| | left; split; [apply errorHandler_is_error | reflexivity]].
  - rewrite bind_lift_Ok, bind_run. unfold markBetConfirmed. cbn [nullish bindText].
    rewrite Hid.
    destruct (bindText host txSignature) as [ | |t];
      try (left; split; [apply errorHandler_is_error | reflexivity]);
      right; exists k, b; (split; [reflexivity |]); (split; [exact Hb |]);
      (split; [exact Hw |]); right;
      rewrite (alter_present _ _ _ _ Hb); reflexivity.
  - rewrite bind_lift_Ok, bind_run. unfold markBetFailed. rewrite Hid.
    destruct (bindText host (nullish txSignature JsNull)) as [ | |t];
      try (left; split; [apply errorHandler_is_error | reflexivity]);
      right; exists k, b; (split; [reflexivity |]); (split; [exact Hb |]);
      (split; [exact Hw |]); left; exists reason;
      rewrite (alter_present _ _ _ _ Hb); reflexivity.
Qed.

(** X11.  What the answer of [confirm] says about the store.  With the
    error envelope nothing has been written.  With [{ ok: false, reason }]
    the code is 400 and the row of the bet is [FAILED] with the reference
    stored.  With [{ ok: true, betId, txSignature, proof }] the code is 200,
    the row is [CONFIRMED], its wallet is the caller's and the proof stored
    is the proof answered. *)
Theorem X11_confirm_answer (w : World) (betId txSignature wallet_ : JsValue) (db : Db) :
  let answer := route (confirm host w betId txSignature wallet_) db in
  (is_error (fst answer) -> snd answer = db)
  /\ (forall (c : Z) (reason : string),
        fst answer = {| code := c; body := ConfirmFailedBody reason |} ->
        c = 400%Z
        /\ exists (k : string) (b : Bet),
             bindText host betId = BindText k /\ bets db !! k = Some b
             /\ snd answer
                = set_bets (<[k := failed_row b
                                     (bound_text (bindText host (nullish txSignature JsNull)))]>
                              (bets db)) db)
  /\ (forall (c : Z) (i t : JsValue) (p : string),
        fst answer = {| code := c; body := ConfirmedBody i t p |} ->
        c = 200%Z /\ i = betId /\ t = txSignature
        /\ exists (k : string) (b : Bet),
             bindText host betId = BindText k /\ bets db !! k = Some b
             /\ strict_equals (JsString (wallet b)) wallet_ = true
             /\ snd answer
                = set_bets (<[k := confirmed_as b (bound_text (bindText host txSignature))
                                     (Some p)]> (bets db)) db).
Proof.
  cbv zeta.
  destruct (confirm_effect w betId txSignature wallet_ db)
    as [[[msg Herr] Hsame] | (k & b & Hk & Hb & Hw & [[reason Hrun] | Hrun])];
    cbv zeta in *.
  - split; [intros _; exact Hsame |].
    split.
    + intros c reason Habs. rewrite Habs in Herr. discriminate.
    + intros c i t p Habs. rewrite Habs in Herr. discriminate.
  - rewrite Hrun. simpl. split; [intros [msg Herr]; discriminate |].
    split.
    + intros c r [= <- <-]. split; [reflexivity |]. exists k, b. auto.
    + intros c i t p' Habs. discriminate.
  - rewrite Hrun. simpl. split; [intros [msg Herr]; discriminate |].
    split.
    + intros c r Habs. discriminate.
    + intros c i t p' [= <- <- <- <-]. repeat split. exists k, b. auto.
Qed.

(** X12.  [confirm] refuses with HTTP 400, and writes nothing, a request
    that lacks one of its three fields (a falsy value counts as lacking) and
    a request for an id that no bet has. *)
Theorem X12_confirm_refusals (w : World) (betId txSignature wallet_ : JsValue) (db : Db) :
  (truthy betId && truthy txSignature && truthy wallet_ = false ->
   route (confirm host w betId txSignature wallet_) db
   = ({| code := 400; body := ErrorBody "betId, txSignature, wallet are required" |}, db))
  /\ (truthy betId && truthy txSignature && truthy wallet_ = true ->
      (bindText host betId = BindNull
       \/ exists k : string, bindText host betId = BindText k /\ bets db !! k = None) ->
      route (confirm host w betId txSignature wallet_) db
      = ({| code := 400; body := ErrorBody "Bet not found" |}, db)).
Proof.
  unfold route, confirm. rewrite bind_assert. split.
  - intros ->. reflexivity.
  - intros -> Hnone. rewrite bind_run. unfold getBet.
    destruct Hnone as [-> | (k & -> & ->)]; reflexivity.
Qed.
End ConfirmAnswer.

Section ReceiptAnswer.
Context (host : Host).

(** [evm_receipt] answers with the error envelope and writes nothing, or
    inserts the [RECEIPT_ONLY] row and answers with its id. *)
Lemma evm_receipt_effect (w : World)
    (marketId side amount address message signature : JsValue) (db : Db) :
  let answer :=
    route (evm_receipt host w marketId side amount address message signature) db in
  (is_error (fst answer) /\ snd answer = db)
  \/ exists (m s a recovered : string),
       bindText host marketId = BindText m /\ side = JsString s
       /\ (s = "YES" \/ s = "NO") /\ address = JsString a
       /\ truthy amount = true
       /\ verifyMessage host message signature = Ok recovered
       /\ toLowerCase host recovered = toLowerCase host a
       /\ bets db !! nanoid w 0 = None
       /\ (foreign_keys host = true -> is_Some (markets db !! m))
       /\ answer
          = ({| code := 200; body := EvmReceiptBody (nanoid w 0) recovered |},
             set_bets (<[nanoid w 0 := created_row m s (real_column (ToNumber host amount))
                                         a evm (now w) RECEIPT_ONLY]> (bets db)) db).
Proof.
  cbv zeta. unfold route, evm_receipt. rewrite !bind_assert.
  destruct (truthy marketId && truthy side && truthy amount && truthy address
            && truthy message && truthy signature) eqn:Hfields;
    [| left; split; [apply errorHandler_is_error | reflexivity]].
  assert (Hamount : truthy amount = true).
  { destruct (truthy amount); [reflexivity |].
    rewrite ?andb_false_r in Hfields. discriminate. }
  rewrite side_given_check.
  destruct (side_given side) eqn:Hside;
    [| left; split; [apply errorHandler_is_error | reflexivity]].
  destruct side as [ | | | |s| | ]; try discriminate.
  destruct (verifyMessage host message signature) as [recovered|e] eqn:Hrec;
    [| left; split; [apply errorHandler_is_error | reflexivity]].
  rewrite bind_lift_Ok.
  destruct address as [ | | | |a| | ];
    try (left; split; [apply errorHandler_is_error | reflexivity]).
  rewrite bind_assert.
  destruct (String.eqb (toLowerCase host recovered) (toLowerCase host a)) eqn:Hcase;
    [| left; split; [apply errorHandler_is_error | reflexivity]].
  apply String.eqb_eq in Hcase.
  rewrite bind_run.
  destruct (createBet host (nanoid w 0) (now w) marketId (JsString s)
              (ToNumber host amount) (JsString a) evm RECEIPT_ONLY db)
    as [[betId|e] db1] eqn:Hrun.
  - right.
    destruct (createBet_Ok host _ _ _ _ _ _ _ _ _ _ _ Hrun)
      as (m' & s' & w' & Hm & Hs & Hw & Hyn & _ & Hfree & Hfk & -> & ->).
    simpl in Hs, Hw. injection Hs as <-. injection Hw as <-.
    exists m', s, a, recovered. repeat split; auto.
  - left. split; [apply errorHandler_is_error |].
    destruct (createBet_store host (nanoid w 0) (now w) marketId (JsString s)
                (ToNumber host amount) (JsString a) evm RECEIPT_ONLY db)
      as [Hsame | (row & Hok & _)].
    + rewrite Hrun in Hsame. exact Hsame.
    + rewrite Hrun in Hok. discriminate.
Qed.

(** X13.  What the answer of the evm-receipt route says about the store.
    With the error envelope nothing has been written.  With
    [{ ok: true, betId, recovered }] the code is 200 and [betId] is the key
    of a row just inserted with status [RECEIPT_ONLY], chain [evm], no [tx]
    and no [proof]; the wallet of the row is the address as the request
    spelled it, which equals the recovered signer once both are put in lower
    case, and its amount is [Number(amount)] as the [REAL] column holds it
    ([Number(amount)] itself unless it is a zero, which is held as 0). *)
Theorem X13_receipt_answer (w : World)
    (marketId side amount address message signature : JsValue) (db : Db) :
  let answer :=
    route (evm_receipt host w marketId side amount address message signature) db in
  (is_error (fst answer) -> snd answer = db)
  /\ (forall (c : Z) (betId recovered : string),
        fst answer = {| code := c; body := EvmReceiptBody betId recovered |} ->
        c = 200%Z /\ betId = nanoid w 0
        /\ bets db !! betId = None
        /\ verifyMessage host message signature = Ok recovered
        /\ exists (m s a : string),
             bindText host marketId = BindText m /\ side = JsString s
             /\ address = JsString a
             /\ toLowerCase host recovered = toLowerCase host a
             /\ snd answer
                = set_bets (<[betId := created_row m s
                                         (real_column (ToNumber host amount)) a evm
                                         (now w) RECEIPT_ONLY]> (bets db)) db).
Proof.
  cbv zeta.
  destruct (evm_receipt_effect w marketId side amount address message signature db)
    as [[[msg Herr] Hsame]
       | (m & s & a & rec & Hm & Hs & _ & Ha & _ & Hrec & Hcase & Hfree & _ & Hrun)];
    cbv zeta in *.
  - split; [intros _; exact Hsame |].
    intros c betId recovered Habs. rewrite Habs in Herr. discriminate.
  - rewrite Hrun. simpl. split; [intros [msg Herr]; discriminate |].
    intros c betId recovered [= <- <- <-].
    repeat split; try assumption. exists m, s, a. auto.
Qed.

(** X14.  The evm-receipt route refuses, and writes nothing: with HTTP 400
    and [Missing fields] a request one of whose six fields is falsy (so an
    amount of 0 counts as missing); with HTTP 400 and [Invalid side] a side
    other than YES and NO; with HTTP 400 and [Invalid signature] a signature
    whose signer is not the address given, case apart; with the error of
    ethers a signature that ethers refuses; and with HTTP 500 an address
    that is not a string. *)
Theorem X14_receipt_refusals (w : World)
    (marketId side amount address message signature : JsValue) (db : Db) :
  let answer :=
    route (evm_receipt host w marketId side amount address message signature) db in
  let present :=
    truthy marketId && truthy side && truthy amount && truthy address
    && truthy message && truthy signature in
  (present = false ->
   answer = ({| code := 400; body := ErrorBody "Missing fields" |}, db))
  /\ (present = true -> side_given side = false ->
      answer = ({| code := 400; body := ErrorBody "Invalid side" |}, db))
  /\ (forall e : Exn,
        present = true -> side_given side = true ->
        verifyMessage host message signature = Throw e ->
        answer = (errorHandler e, db))
  /\ (forall recovered a : string,
        present = true -> side_given side = true ->
        verifyMessage host message signature = Ok recovered ->
        address = JsString a ->
        toLowerCase host recovered <> toLowerCase host a ->
        answer = ({| code := 400; body := ErrorBody "Invalid signature" |}, db))
  /\ (forall recovered : string,
        present = true -> side_given side = true ->
        verifyMessage host message signature = Ok recovered ->
        is_string address = false ->
        answer
        = ({| code := 500; body := ErrorBody "address.toLowerCase is not a function" |},
           db)).
Proof.
  cbv zeta. unfold route, evm_receipt. rewrite !bind_assert, side_given_check.
  split; [intros ->; reflexivity |].
  split; [intros -> ->; reflexivity |].
  split; [intros e -> -> ->; reflexivity |].
  split.
  - intros recovered a -> -> -> -> Hne. rewrite bind_lift_Ok, bind_assert.
    destruct (String.eqb_spec (toLowerCase host recovered) (toLowerCase host a));
      [contradiction | reflexivity].
  - intros recovered -> -> -> Hstr. rewrite bind_lift_Ok.
    destruct address; try discriminate; reflexivity.
Qed.
End ReceiptAnswer.

(** ** The admin seed route *)

Section AdminSeed.
Context (host : Host).

(** X15.  [POST /admin/seed] compares the [Authorization] header, as a
    string, with [Bearer ] followed by [ADMIN_TOKEN].  Any other header,
    and a missing one, is answered with HTTP 401 and seeds nothing.  When
    [ADMIN_TOKEN] is not set the header [Bearer undefined] is the one that
    passes.  A request that passes runs [seedIfEmpty] and answers
    [seeded: true] whenever it returns, also when markets existed and
    nothing was inserted. *)
Theorem X15_admin_seed_authorization (w : World) (authorization : JsValue) (db : Db) :
  let expected := "Bearer " ++ ToString host (env (ADMIN_TOKEN w)) in
  let seeded :=
    match seedIfEmpty (nanoid w) (now w) db with
    | (Ok _, db') => ({| code := 200; body := SeededBody |}, db')
    | (Throw e, db') => (errorHandler e, db')
    end in
  (authorization <> JsString expected ->
   route (admin_seed host w authorization) db
   = ({| code := 401; body := UnauthorizedBody |}, db))
  /\ (authorization = JsString expected ->
      route (admin_seed host w authorization) db = seeded)
  /\ (ADMIN_TOKEN w = None -> expected = "Bearer undefined")
  /\ (authorization = JsString expected -> 0 < size (markets db) ->
      route (admin_seed host w authorization) db
      = ({| code := 200; body := SeededBody |}, db)).
Proof.
  cbv zeta. unfold route, admin_seed.
  assert (Hsame : strict_equals
                    (JsString ("Bearer " ++ ToString host (env (ADMIN_TOKEN w))))
                    (JsString ("Bearer " ++ ToString host (env (ADMIN_TOKEN w)))) = true)
    by (simpl; apply String.eqb_refl).
  split; [| split; [| split]].
  - intros Hne.
    destruct (strict_equals authorization
                (JsString ("Bearer " ++ ToString host (env (ADMIN_TOKEN w))))) eqn:Heq;
      [| reflexivity].
    apply strict_equals_string in Heq. contradiction.
  - intros ->. rewrite Hsame. cbn [negb]. rewrite bind_run.
    destruct (seedIfEmpty (nanoid w) (now w) db) as [[[]|e] db']; reflexivity.
  - intros ->. reflexivity.
  - intros -> Hpos. rewrite Hsame. cbn [negb]. rewrite bind_run.
    unfold seedIfEmpty.
    destruct (Nat.ltb_spec 0 (size (markets db))); [reflexivity | lia].
Qed.
End AdminSeed.

(** ** What a sequence of requests keeps true *)

Lemma insert_consistent (db : Db) (k : string) (b : Bet) :
  store_consistent db -> lifecycle_consistent b ->
  store_consistent (set_bets (<[k := b]> (bets db)) db).
Proof.
  intros Hdb Hb j b' Hj. simpl in Hj. destruct (decide (k = j)) as [-> | Hne].
  - rewrite lookup_insert_eq in Hj. injection Hj as <-. exact Hb.
  - rewrite lookup_insert_ne in Hj by exact Hne. exact (Hdb j b' Hj).
Qed.

Section RunInvariants.
Context (host : Host).

Lemma handle_consistent (w : World) (req : Request) (db : Db) :
  store_consistent db -> store_consistent (snd (handle host w req db)).
Proof.
  intros Hdb.
  destruct req as [marketId sd amountSol wl | betId sig wl
                  | marketId sd amount address msg sig | auth]; simpl.
  - destruct (initiate_effect host w marketId sd amountSol wl db)
      as [[_ ->] | (m & s & ws & amt & _ & _ & Hs & _ & _ & _ & _ & _ & _ & ->)];
      [exact Hdb |].
    rewrite after_insert_store. apply insert_consistent; [exact Hdb |].
    unfold lifecycle_consistent, pending_row. simpl.
    repeat split; try discriminate; auto.
  - destruct (confirm_effect host w betId sig wl db)
      as [[_ Hsame] | (k & b & _ & Hb & _ & [[reason Hrun] | Hrun])]; cbv zeta in *.
    + rewrite Hsame. exact Hdb.
    + rewrite Hrun. apply insert_consistent; [exact Hdb |].
      destruct (Hdb k b Hb) as (Hside & _).
      unfold lifecycle_consistent, failed_row. simpl.
      repeat split; try discriminate; auto.
    + rewrite Hrun. apply insert_consistent; [exact Hdb |].
      destruct (Hdb k b Hb) as (Hside & _).
      unfold lifecycle_consistent, confirmed_as. simpl.
      repeat split; try discriminate; eauto.
  - destruct (evm_receipt_effect host w marketId sd amount address msg sig db)
      as [[_ Hsame]
         | (m & s & a & rec & _ & _ & Hs & _ & _ & _ & _ & _ & _ & Hrun)];
      cbv zeta in *.
    + rewrite Hsame. exact Hdb.
    + rewrite Hrun. apply insert_consistent; [exact Hdb |].
      unfold lifecycle_consistent, created_row. simpl.
      repeat split; try discriminate; auto.
  - intros k b Hb. rewrite admin_seed_bets in Hb. exact (Hdb k b Hb).
Qed.

(** Once a market exists no request writes to [markets]. *)
Lemma handle_markets_frozen (w : World) (req : Request) (db : Db) :
  0 < size (markets db) -> markets (snd (handle host w req db)) = markets db.
Proof.
  intros Hpos.
  destruct req as [marketId sd amountSol wl | betId sig wl
                  | marketId sd amount address msg sig | auth]; simpl.
  - destruct (initiate_store host w marketId sd amountSol wl db)
      as [-> | (row & -> & _)]; reflexivity.
  - destruct (confirm_store host w betId sig wl db) as [-> | (k' & f & _ & ->)];
      reflexivity.
  - destruct (evm_receipt_store host w marketId sd amount address msg sig db)
      as [-> | (row & -> & _)]; reflexivity.
  - unfold route, admin_seed.
    destruct (negb (strict_equals auth _)); [reflexivity |].
    rewrite bind_run. unfold seedIfEmpty.
    destruct (Nat.ltb_spec 0 (size (markets db))); [reflexivity | lia].
Qed.

(** X16.  Over any sequence of requests the columns of every bet row stay
    consistent with one another: the side is YES or NO; a [PENDING] row is a
    row of the Solana flow with no [tx] and no [proof]; a [RECEIPT_ONLY] row
    is a row of the EVM flow with no [tx] and no [proof]; a [CONFIRMED] row
    has a [proof]. *)
Theorem X16_run_store_consistent (trace : list (World * Request)) (db : Db) :
  store_consistent db -> store_consistent (run host trace db).
Proof.
  revert db. induction trace as [| [w req] rest IH]; intros db Hdb; [exact Hdb |].
  simpl. apply IH, handle_consistent, Hdb.
Qed.

(** X17.  No sequence of requests removes or rewrites a market; and once
    the table of markets is not empty no sequence of requests adds one: the
    markets, and so the listing of the live markets, stay what they were. *)
Theorem X17_run_markets_frozen (trace : list (World * Request)) (db : Db) :
  (forall (k : string) (m : Market),
     markets db !! k = Some m -> markets (run host trace db) !! k = Some m)
  /\ (0 < size (markets db) ->
      markets (run host trace db) = markets db
      /\ listMarkets (run host trace db) = listMarkets db).
Proof.
  split.
  - revert db. induction trace as [| [w req] rest IH]; intros db k m Hm; [exact Hm |].
    simpl. apply IH, handle_keeps_markets, Hm.
  - intros Hpos.
    assert (Hsame : markets (run host trace db) = markets db).
    { revert db Hpos. induction trace as [| [w req] rest IH]; intros db Hpos;
        [reflexivity |].
      simpl. pose proof (handle_markets_frozen w req db Hpos) as Hstep.
      rewrite IH by (rewrite Hstep; exact Hpos). exact Hstep. }
    split; [exact Hsame |]. unfold listMarkets. rewrite Hsame. reflexivity.
Qed.

(** X18.  Over any sequence of requests, starting from a store without
    bets, every bet of the Solana flow has an amount of at least 0.01 and,
    when the engine enforces the foreign key, every bet names a market of
    the store. *)
Theorem X18_run_from_no_bets (trace : list (World * Request)) (db : Db) :
  bets db = ∅ ->
  minimum_respected (run host trace db)
  /\ (foreign_keys host = true -> markets_referenced (run host trace db)).
Proof.
  intros Hempty. split.
  - apply run_minimum_respected. intros k b Hb. rewrite Hempty, lookup_empty in Hb.
    discriminate.
  - intros Hfk. apply run_markets_referenced; [exact Hfk |].
    intros k b Hb. rewrite Hempty, lookup_empty in Hb. discriminate.
Qed.

(** X19.  The confirm route does not ask whether a reference has been used
    before: one transfer confirms every bet of its wallet whose amount it
    matches.  Two bets of the same wallet and amount are both [CONFIRMED],
    with the same [tx], by two confirm requests that carry the same
    reference. *)
Theorem X19_reference_confirms_twice (w : World) (db : Db) (k1 k2 sig : string)
    (b1 b2 : Bet) :
  k1 <> "" -> k2 <> "" -> sig <> "" -> wallet b1 <> "" -> k1 <> k2 ->
  bets db !! k1 = Some b1 -> bets db !! k2 = Some b2 ->
  wallet b2 = wallet b1 -> amount_sol b2 = amount_sol b1 ->
  verifySolTransfer host w (env (SOLANA_RPC w)) (JsString sig) (JsString (wallet b1))
    (env (TREASURY_PUBKEY w))
    (Math_round (PrimFloat.mul (amount_sol b1) LAMPORTS_PER_SOL)) = Ok Verified ->
  let first := route (confirm host w (JsString k1) (JsString sig) (JsString (wallet b1))) db in
  let second :=
    route (confirm host w (JsString k2) (JsString sig) (JsString (wallet b1))) (snd first) in
  code (fst first) = 200%Z /\ code (fst second) = 200%Z
  /\ bets (snd second) !! k1
     = Some (confirmed_row b1 sig ("bet:" ++ k1 ++ ":sig:" ++ sig))
  /\ bets (snd second) !! k2
     = Some (confirmed_row b2 sig ("bet:" ++ k2 ++ ":sig:" ++ sig)).
Proof.
  intros Hk1 Hk2 Hsig Hw Hne Hb1 Hb2 Hwallet Hamount Hver. cbv zeta.
  rewrite (confirm_checked host w db k1 sig b1 Hk1 Hsig Hw Hb1), Hver.
  cbn [fst snd code].
  assert (Hb2' : bets (set_bets (<[k1 := confirmed_row b1 sig
                                          ("bet:" ++ k1 ++ ":sig:" ++ sig)]> (bets db)) db)
                 !! k2 = Some b2).
  { simpl. rewrite lookup_insert_ne by exact Hne. exact Hb2. }
  rewrite <- Hwallet in Hw |- *.
  rewrite (confirm_checked host w _ k2 sig b2 Hk2 Hsig Hw Hb2').
  rewrite Hwallet, Hamount, Hver. cbn [fst snd code].
  split; [reflexivity |]. split; [reflexivity |]. simpl.
  rewrite lookup_insert_ne by (intros E; apply Hne; symmetry; exact E).
  rewrite !lookup_insert_eq. split; reflexivity.
Qed.
End RunInvariants.

Section ConfirmRetry.
Context (host : Host).

(** The confirm route, check by check. *)
Lemma confirm_run (w : World) (betId txSignature wallet_ : JsValue) (db : Db) :
  route (confirm host w betId txSignature wallet_) db
  = if negb (truthy betId && truthy txSignature && truthy wallet_)
    then ({| code := 400; body := ErrorBody "betId, txSignature, wallet are required" |}, db)
    else
      match bindText host betId with
      | BindError => (errorHandler bind_refused, db)
      | BindNull => ({| code := 400; body := ErrorBody "Bet not found" |}, db)
      | BindText k =>
          match bets db !! k with
          | None => ({| code := 400; body := ErrorBody "Bet not found" |}, db)
          | Some b =>
              if negb (strict_equals (JsString (wallet b)) wallet_)
              then ({| code := 400; body := ErrorBody "Wallet mismatch" |}, db)
              else
                match verifySolTransfer host w (env (SOLANA_RPC w)) txSignature wallet_
                        (env (TREASURY_PUBKEY w))
                        (Math_round (PrimFloat.mul (amount_sol b) LAMPORTS_PER_SOL)) with
                | Throw e => (errorHandler e, db)
                | Ok Verified =>
                    let proof :=
                      "bet:" ++ ToString host betId ++ ":sig:" ++ ToString host txSignature in
                    match bindText host txSignature with
                    | BindError => (errorHandler bind_refused, db)
                    | t =>
                        ({| code := 200; body := ConfirmedBody betId txSignature proof |},
                         set_bets (<[k := confirmed_as b (bound_text t) (Some proof)]>
                                     (bets db)) db)
                    end
                | Ok (NotVerified reason) =>
                    match bindText host (nullish txSignature JsNull) with
                    | BindError => (errorHandler bind_refused, db)
                    | t =>
                        ({| code := 400; body := ConfirmFailedBody reason |},
                         set_bets (<[k := failed_row b (bound_text t)]> (bets db)) db)
                    end
                end
          end
      end.
Proof.
  unfold route, confirm. rewrite bind_assert.
  destruct (truthy betId && truthy txSignature && truthy wallet_); [| reflexivity].
  cbn [negb]. rewrite bind_run. unfold getBet.
  destruct (bindText host betId) as [ | |k] eqn:Hid; try reflexivity.
  destruct (bets db !! k) as [b|] eqn:Hb; [| reflexivity].
  cbn [assert_some assert rbind]. rewrite bind_lift_Ok, bind_assert.
  destruct (strict_equals (JsString (wallet b)) wallet_); [| reflexivity].
  cbn [negb].
  destruct (verifySolTransfer host w (env (SOLANA_RPC w)) txSignature wallet_
              (env (TREASURY_PUBKEY w))
              (Math_round (PrimFloat.mul (amount_sol b) LAMPORTS_PER_SOL)))
    as [[|reason]|e]; [| | reflexivity].
  - rewrite bind_lift_Ok, bind_run. unfold markBetConfirmed. cbn [nullish bindText].
    rewrite Hid. cbv zeta.
    destruct (bindText host txSignature) as [ | |t]; try reflexivity;
      rewrite (alter_present _ _ _ _ Hb); reflexivity.
  - rewrite bind_lift_Ok, bind_run. unfold markBetFailed. rewrite Hid.
    destruct (bindText host (nullish txSignature JsNull)) as [ | |t]; try reflexivity;
      rewrite (alter_present _ _ _ _ Hb); reflexivity.
Qed.

(** X24.  A confirm request can be sent again: while the chain answers the
    reference as before, the second request gets the answer of the first
    and leaves the store as the first left it. *)
Theorem X24_confirm_again (w : World) (betId txSignature wallet_ : JsValue) (db : Db) :
  route (confirm host w betId txSignature wallet_)
    (snd (route (confirm host w betId txSignature wallet_) db))
  = route (confirm host w betId txSignature wallet_) db.
Proof.
  rewrite (confirm_run w betId txSignature wallet_ db).
  destruct (negb (truthy betId && truthy txSignature && truthy wallet_)) eqn:Hfields.
  { cbn [snd]. rewrite confirm_run, Hfields. reflexivity. }
  destruct (bindText host betId) as [ | |k] eqn:Hid;
    try (cbn [snd]; rewrite confirm_run, Hfields, Hid; reflexivity).
  destruct (bets db !! k) as [b|] eqn:Hb;
    [| cbn [snd]; rewrite confirm_run, Hfields, Hid, Hb; reflexivity].
  destruct (negb (strict_equals (JsString (wallet b)) wallet_)) eqn:Hw;
    [cbn [snd]; rewrite confirm_run, Hfields, Hid, Hb, Hw; reflexivity |].
  destruct (verifySolTransfer host w (env (SOLANA_RPC w)) txSignature wallet_
              (env (TREASURY_PUBKEY w))
              (Math_round (PrimFloat.mul (amount_sol b) LAMPORTS_PER_SOL)))
    as [[|reason]|e] eqn:Hver;
    [| | cbn [snd]; rewrite confirm_run, Hfields, Hid, Hb, Hw, Hver; reflexivity].
  - cbv zeta.
    destruct (bindText host txSignature) as [ | |t] eqn:Ht;
      try (cbn [snd]; rewrite confirm_run, Hfields, Hid, Hb, Hw, Hver; cbv zeta;
           rewrite Ht; reflexivity);
      cbn [snd]; rewrite confirm_run, Hfields, Hid; cbn [bets set_bets];
      rewrite lookup_insert_eq; cbn [wallet amount_sol confirmed_as];
      rewrite Hw, Hver; cbv zeta; rewrite Ht;
      unfold confirmed_as, set_bets; cbn [market_id side amount_sol wallet chain
                                           created_at markets bets];
      rewrite insert_insert_eq; reflexivity.
  - destruct (bindText host (nullish txSignature JsNull)) as [ | |t] eqn:Ht;
      try (cbn [snd]; rewrite confirm_run, Hfields, Hid, Hb, Hw, Hver, Ht; reflexivity);
      cbn [snd]; rewrite confirm_run, Hfields, Hid; cbn [bets set_bets];
      rewrite lookup_insert_eq; cbn [wallet amount_sol failed_row];
      rewrite Hw, Hver, Ht;
      unfold failed_row, set_bets; cbn [market_id side amount_sol wallet chain
                                        created_at proof markets bets];
      rewrite insert_insert_eq; reflexivity.
Qed.
End ConfirmRetry.

(** ** The listings *)

Lemma not_after_total : Total not_after.
Proof. intros a b. unfold not_after. lia. Qed.

Lemma not_before_total : Total not_before.
Proof. intros a b. unfold not_before. lia. Qed.

Lemma not_after_trans : Transitive not_after.
Proof. intros a b c. unfold not_after. lia. Qed.

Lemma not_before_trans : Transitive not_before.
Proof. intros a b c. unfold not_before. lia. Qed.

(** In a list sorted along a transitive relation, an earlier element is
    related to every later one. *)
Lemma Sorted_lookup {A : Type} (R : relation A) (l : list A) :
  Transitive R -> Sorted R l ->
  forall (i j : nat) (a b : A), i < j -> l !! i = Some a -> l !! j = Some b -> R a b.
Proof.
  intros Htrans Hsorted. apply Sorted_StronglySorted in Hsorted; [| exact Htrans].
  induction Hsorted as [| x l Hl IH Hall]; intros i j a b Hij Hi Hj.
  - rewrite lookup_nil in Hi. discriminate.
  - destruct j as [| j]; [lia |]. simpl in Hj. destruct i as [| i].
    + simpl in Hi. injection Hi as <-.
      rewrite List.Forall_forall in Hall. apply Hall.
      apply list_elem_of_In, (list_elem_of_lookup_2 _ j), Hj.
    + simpl in Hi. apply (IH i j); [lia | assumption | assumption].
Qed.

Lemma listMarkets_lists (db : Db) : lists_markets db (listMarkets db).
Proof.
  split.
  - apply merge_sort_Permutation.
  - apply (Sorted_merge_sort not_after (Total0 := not_after_total)).
Qed.

(** X20.  [listMarkets] returns the live markets, each once and the oldest
    first: a row is listed exactly when it is a row of [markets] whose
    status is LIVE, and of two rows listed the later one was not created
    before the earlier one.  This holds of every order that the statement
    allows among markets created at the same time. *)
Theorem X20_listMarkets (db : Db) :
  lists_markets db (listMarkets db)
  /\ forall rows : list (string * Market),
       lists_markets db rows ->
       (forall (k : string) (m : Market),
          (k, m) ∈ rows <-> markets db !! k = Some m /\ market_status m = "LIVE")
       /\ NoDup rows
       /\ length rows <= size (markets db)
       /\ (forall (i j : nat) (a b : string * Market),
             i < j -> rows !! i = Some a -> rows !! j = Some b ->
             (market_created_at (snd a) <= market_created_at (snd b))%Z).
Proof.
  split; [apply listMarkets_lists |].
  intros rows [Hperm Hsorted]. split; [| split; [| split]].
  - intros k m. rewrite Hperm, list_elem_of_filter, elem_of_map_to_list.
    unfold is_live. simpl. tauto.
  - rewrite Hperm. apply NoDup_filter, NoDup_map_to_list.
  - rewrite Hperm. rewrite <- length_map_to_list. apply length_filter.
  - intros i j a b Hij Hi Hj.
    exact (Sorted_lookup not_after rows not_after_trans Hsorted i j a b Hij Hi Hj).
Qed.

Lemma filter_all {A : Type} (P : A -> Prop) `{!forall x, Decision (P x)} (l : list A) :
  (forall x : A, x ∈ l -> P x) -> filter P l = l.
Proof.
  induction l as [| x l IH]; intros Hall; [reflexivity |].
  rewrite filter_cons_True by (apply Hall; left).
  rewrite IH; [reflexivity |]. intros y Hy. apply Hall. right. exact Hy.
Qed.

Section SeededListing.
Context (nanoid : nat -> string) (now : Z).

(** The loop of [insertMany] writes live rows created at [now] only. *)
Lemma insertMany_live (rows : list (string * string * Z * Z)) :
  forall (k : nat) (ms ms' : gmap string Market),
    insertMany nanoid k now rows ms = Ok ms' ->
    forall (j : string) (x : Market),
      ms' !! j = Some x ->
      ms !! j = Some x \/ (market_status x = "LIVE" /\ market_created_at x = now).
Proof.
  induction rows as [| row rest IH]; intros k ms ms' Hrun j x Hj; simpl in Hrun.
  - injection Hrun as <-. left. exact Hj.
  - destruct (insertMarket (nanoid k) row now ms) as [ms1|e] eqn:Hins; [| discriminate].
    destruct (IH _ _ _ Hrun j x Hj) as [Hold | Hnew]; [| right; exact Hnew].
    unfold insertMarket in Hins. destruct row as [[[nm cat] y] n].
    destruct (ms !! nanoid k); [discriminate |]. injection Hins as <-.
    destruct (decide (nanoid k = j)) as [E | Hne].
    + rewrite E, lookup_insert_eq in Hold. injection Hold as <-. right.
      split; reflexivity.
    + rewrite lookup_insert_ne in Hold by exact Hne. left. exact Hold.
Qed.

(** X21.  After [seedIfEmpty] has seeded an empty table, [listMarkets]
    returns 20 rows: the whole catalogue, every row live, created at the
    time of the seeding and with the odds of the catalogue. *)
Theorem X21_seeded_markets_listed (db db' : Db) (rows : list (string * Market)) :
  size (markets db) = 0 ->
  seedIfEmpty nanoid now db = (Ok tt, db') ->
  lists_markets db' rows ->
  length rows = 20
  /\ (forall (i : nat) (row : string * string * Z * Z),
        data !! i = Some row -> (nanoid i, seeded_market now row) ∈ rows)
  /\ (forall (k : string) (m : Market),
        (k, m) ∈ rows -> market_status m = "LIVE" /\ market_created_at m = now).
Proof.
  intros Hempty Hseed [Hperm _]. unfold seedIfEmpty in Hseed.
  rewrite Hempty in Hseed.
  destruct (insertMany nanoid 0 now data (markets db)) as [ms|e] eqn:Hrun;
    cbn [Nat.ltb Nat.leb] in Hseed; [| discriminate].
  injection Hseed as <-. cbn [markets set_markets] in Hperm.
  destruct (insertMany_Ok nanoid now _ _ _ _ Hrun) as (Hsize & _ & Hrows).
  apply map_size_empty_inv in Hempty as Hnone.
  assert (Hlive : forall (k : string) (m : Market),
            ms !! k = Some m -> market_status m = "LIVE" /\ market_created_at m = now).
  { intros k m Hk. destruct (insertMany_live _ _ _ _ Hrun k m Hk) as [Hold | Hnew];
      [| exact Hnew].
    rewrite Hnone, lookup_empty in Hold. discriminate. }
  assert (Hall : filter is_live (map_to_list ms) = map_to_list ms).
  { apply filter_all. intros [k m] Hin.
    apply elem_of_map_to_list in Hin. exact (proj1 (Hlive k m Hin)). }
  rewrite Hall in Hperm. split; [| split].
  - rewrite Hperm, length_map_to_list, Hsize, Hempty. reflexivity.
  - intros i row Hi. rewrite Hperm. apply elem_of_map_to_list.
    exact (Hrows i row Hi).
  - intros k m Hin. rewrite Hperm in Hin. apply elem_of_map_to_list in Hin.
    exact (Hlive k m Hin).
Qed.
End SeededListing.

Section BetListings.
Context (host : Host).

Lemma listBetsForWallet_lists (s : string) (db : Db) :
  exists rows : list (string * Bet),
    listBetsForWallet host (JsString s) db = (Ok rows, db) /\ lists_bets s db rows.
Proof.
  eexists. split; [reflexivity |]. split.
  - apply merge_sort_Permutation.
  - apply (Sorted_merge_sort not_before (Total0 := not_before_total)).
Qed.

(** X22.  [listBetsForWallet(wallet)] reads and does not write; for a
    string it returns the bets whose wallet is that very string (the
    comparison is exact, letter case included), each once and the newest
    first.  This holds of every order that the statement allows among bets
    created at the same time. *)
Theorem X22_listBetsForWallet (s : string) (db : Db) :
  (exists rows : list (string * Bet),
     listBetsForWallet host (JsString s) db = (Ok rows, db) /\ lists_bets s db rows)
  /\ forall rows : list (string * Bet),
       lists_bets s db rows ->
       (forall (k : string) (b : Bet),
          (k, b) ∈ rows <-> bets db !! k = Some b /\ wallet b = s)
       /\ NoDup rows
       /\ (forall (i j : nat) (a b : string * Bet),
             i < j -> rows !! i = Some a -> rows !! j = Some b ->
             (created_at (snd b) <= created_at (snd a))%Z).
Proof.
  split; [apply listBetsForWallet_lists |].
  intros rows [Hperm Hsorted]. split; [| split].
  - intros k b. rewrite Hperm, list_elem_of_filter, elem_of_map_to_list.
    unfold has_wallet. simpl. tauto.
  - rewrite Hperm. apply NoDup_filter, NoDup_map_to_list.
  - intros i j a b Hij Hi Hj.
    exact (Sorted_lookup not_before rows not_before_trans Hsorted i j a b Hij Hi Hj).
Qed.

(** X23.  A bet that [createBet] has written is listed from then on under
    the wallet it was created with, and under no other: the listing of that
    wallet is the listing before with the new row added, and the listing of
    every other wallet has the rows it had. *)
Theorem X23_created_bet_listed (id : string) (t : Z) (m s : JsValue) (a : float)
    (wl : JsValue) (ch : Chain) (st : BetStatus) (db db' : Db) (id' : string) :
  createBet host id t m s a wl ch st db = (Ok id', db') ->
  exists (ws : string) (row : Bet),
    bindText host wl = BindText ws
    /\ bets db' !! id' = Some row /\ wallet row = ws
    /\ (forall before after : list (string * Bet),
          lists_bets ws db before -> lists_bets ws db' after ->
          after ≡ₚ (id', row) :: before)
    /\ (forall (other : string) (before after : list (string * Bet)),
          other <> ws ->
          lists_bets other db before -> lists_bets other db' after ->
          after ≡ₚ before).
Proof.
  intros Hrun.
  destruct (createBet_Ok host _ _ _ _ _ _ _ _ _ _ _ Hrun)
    as (m' & s' & w' & _ & _ & Hw & _ & _ & Hfree & _ & -> & ->).
  exists w', (created_row m' s' (real_column a) w' ch t st).
  split; [exact Hw |]. split; [simpl; apply lookup_insert_eq |].
  split; [reflexivity |].
  pose proof (map_to_list_insert (bets db) id
                (created_row m' s' (real_column a) w' ch t st) Hfree)
    as Hins.
  split.
  - intros before after [Hb _] [Ha _]. simpl in Ha.
    rewrite Ha, Hins, filter_cons_True by reflexivity. rewrite Hb. reflexivity.
  - intros other before after Hne [Hb _] [Ha _]. simpl in Ha.
    rewrite Ha, Hins, filter_cons_False, Hb; [reflexivity |].
    unfold has_wallet. simpl. congruence.
Qed.
End BetListings.

(** * The handlers on concrete requests *)

Example initiate_ok :
  fst (handle example_host example_world
         (PostInitiate (JsString "mkt1234567") (JsString "YES") (JsNumber 0.5)
            (JsString example_wallet)) example_db)
  = {| code := 200; body := InitiateBody "betA" "AQAAAA==" |}.
Proof. vm_compute. reflexivity. Qed.

(** The minimum is checked on the parsed amount: an input just below 0.01
    rounds to 0.01 and is accepted, and the row stores 0.01. *)
Example initiate_rounds_to_minimum :
  amount_sol <$> bets (snd (handle example_host example_world
                              (PostInitiate (JsString "mkt1234567") (JsString "YES")
                                 (JsNumber 0.0099999999999) (JsString example_wallet))
                              example_db)) !! "betA"
  = Some 0.01%float.
Proof. vm_compute. reflexivity. Qed.

(** The overflow of [parseAmountSol] reaches the store: the amount passes
    the minimum check and a [PENDING] row with an infinite amount is
    written. *)
Example initiate_overflow_stores_infinity :
  amount_sol <$> bets (snd (handle example_host example_world
                              (PostInitiate (JsString "mkt1234567") (JsString "YES")
                                 (JsNumber 1e300) (JsString example_wallet))
                              example_db)) !! "betA"
  = Some infinity.
Proof. vm_compute. reflexivity. Qed.

(** C1, as stated, fails: a [CONFIRMED] bet whose owner sends a second
    confirm request, with a reference the chain does not know, becomes
    [FAILED]. *)
Lemma C1_counterexample_confirmed_then_failed :
  status <$> bets (db_with (example_bet CONFIRMED (Some "sigA") (Some "bet:betA:sig:sigA")))
               !! "betA" = Some CONFIRMED
  /\ status <$> bets (snd (handle example_host example_world (confirm_betA "sigB")
                             (db_with (example_bet CONFIRMED (Some "sigA")
                                         (Some "bet:betA:sig:sigA")))))
                  !! "betA" = Some FAILED.
Proof. split; vm_compute; reflexivity. Qed.

(** The same holds of the other two statuses the claim calls terminal. *)
Example failed_then_confirmed :
  status <$> bets (snd (handle example_host paid_world (confirm_betA "sigC")
                          (db_with (example_bet FAILED (Some "sigB") None))))
               !! "betA" = Some CONFIRMED.
Proof. vm_compute. reflexivity. Qed.

Example receipt_only_then_failed :
  status <$> bets (snd (handle example_host example_world (confirm_betA "sigB")
                          (db_with (example_bet RECEIPT_ONLY None None))))
               !! "betA" = Some FAILED.
Proof. vm_compute. reflexivity. Qed.

(** C1, as amended, on a pending bet that one confirm request settles. *)
Lemma C1_witness :
  exists b' : Bet,
    bets (run example_host [(example_world, confirm_betA "sigB")]
            (db_with (example_bet PENDING None None))) !! "betA" = Some b'
    /\ same_wager (example_bet PENDING None None) b'
    /\ status_moves PENDING (status b')
    /\ (status b' = PENDING -> PENDING = PENDING)
    /\ (status b' = RECEIPT_ONLY -> PENDING = RECEIPT_ONLY).
Proof.
  apply (C1_status_never_returns_to_PENDING example_host
           [(example_world, confirm_betA "sigB")]
           (db_with (example_bet PENDING None None)) "betA"
           (example_bet PENDING None None)).
  vm_compute. reflexivity.
Defined.

(** C3, as stated, fails on the evm-receipt route: the amount of the row is
    [Number(amount)] as received, here negative, and below not rounded. *)
Lemma C3_counterexample_receipt_amounts :
  bets example_db !! "betA" = None
  /\ amount_sol <$> bets (snd (handle example_host example_world
                                 (receipt "mkt1234567" (-5)) example_db)) !! "betA"
     = Some (-5)%float
  /\ PrimFloat.ltb 0 (-5) = false
  /\ amount_sol <$> bets (snd (handle example_host example_world
                                 (receipt "mkt1234567" 0.1234567891234) example_db))
                      !! "betA"
     = Some 0.1234567891234%float.
Proof. repeat split; vm_compute; reflexivity. Qed.

(** C3, as amended, on the row that an initiate request of 0.5 SOL creates. *)
Lemma C3_witness :
  parseAmountSol example_host (JsNumber 0.5)
  = Some (amount_sol (example_bet PENDING None None))
  /\ PrimFloat.leb 0.01 (amount_sol (example_bet PENDING None None)) = true
  /\ PrimFloat.ltb 0 (amount_sol (example_bet PENDING None None)) = true.
Proof.
  apply (C3_created_amount example_host example_world initiate_half_sol example_db
           "betA" (example_bet PENDING None None)).
  split; vm_compute; reflexivity.
Defined.

(** C4 on the row that a receipt for a known market creates. *)
Lemma C4_witness :
  is_Some (markets example_db !! market_id (example_bet RECEIPT_ONLY None None)).
Proof.
  apply (C4_created_market_exists example_host example_world
           (receipt "mkt1234567" 0.5) example_db "betA"
           {| market_id := "mkt1234567"; side := "YES"; amount_sol := 0.5;
              wallet := example_address; chain := evm; created_at := 1700000000000%Z;
              status := RECEIPT_ONLY; tx := None; proof := None |}).
  - split; vm_compute; reflexivity.
  - right. reflexivity.
Defined.

(** With foreign keys enforced, a receipt for an unknown market is refused
    by the engine (HTTP 500) and writes nothing; were they not enforced, the
    row would be written. *)
Example receipt_unknown_market_refused :
  handle example_host example_world (receipt "nomarket00" 0.5) example_db
  = ({| code := 500; body := ErrorBody "FOREIGN KEY constraint failed" |}, example_db).
Proof. vm_compute. reflexivity. Qed.

Example receipt_unknown_market_unenforced :
  market_id <$> bets (snd (handle lenient_host example_world (receipt "nomarket00" 0.5)
                             example_db)) !! "betA"
  = Some "nomarket00"
  /\ markets example_db !! "nomarket00" = None.
Proof. split; vm_compute; reflexivity. Qed.

(** The amount [-0], which the text ["-0"] of a receipt gives, is held by
    the row as 0. *)
Example receipt_negative_zero :
  Prim2SF (ToNumber parsing_host (JsString "-0")) = S754_zero true
  /\ Prim2SF <$> (amount_sol <$>
                   bets (snd (handle parsing_host example_world
                                (PostEvmReceipt (JsString "mkt1234567") (JsString "YES")
                                   (JsString "-0") (JsString example_address)
                                   (JsString "I bet YES") (JsString "0x1b2c"))
                                example_db)) !! "betA")
     = Some (S754_zero false).
Proof. split; vm_compute; reflexivity. Qed.

(** A first system transfer without [info] makes the confirm route answer
    HTTP 500 with the message of the [TypeError], and the bet stays as it
    was, whatever transfer follows in the transaction. *)
Example confirm_transfer_without_info :
  handle example_host bare_chain_world (confirm_betA "sigC")
    (db_with (example_bet PENDING None None))
  = ({| code := 500;
        body := ErrorBody "Cannot read properties of undefined (reading 'source')" |},
     db_with (example_bet PENDING None None)).
Proof. vm_compute. reflexivity. Qed.

(** C2 on a pending bet: confirmed on the chain that holds the transfer,
    failed with [TX_NOT_FOUND] on the chain that does not know the reference. *)
Lemma C2_witness :
  route (confirm example_host paid_world (JsString "betA") (JsString "sigC")
           (JsString example_wallet)) (db_with (example_bet PENDING None None))
  = ({| code := 200;
        body := ConfirmedBody (JsString "betA") (JsString "sigC") "bet:betA:sig:sigC" |},
     db_with (example_bet CONFIRMED (Some "sigC") (Some "bet:betA:sig:sigC")))
  /\ route (confirm example_host example_world (JsString "betA") (JsString "sigC")
              (JsString example_wallet)) (db_with (example_bet PENDING None None))
     = ({| code := 400; body := ConfirmFailedBody "TX_NOT_FOUND" |},
        db_with (example_bet FAILED (Some "sigC") None)).
Proof.
  split.
  - pose proof (C2_confirm_exact_match example_host paid_world
                  (db_with (example_bet PENDING None None)) "betA" "sigC"
                  (example_bet PENDING None None) paid_connection
                  ltac:(discriminate) ltac:(discriminate) ltac:(discriminate)
                  ltac:(vm_compute; reflexivity) eq_refl) as (_ & _ & Hpaid).
    specialize (Hpaid paid_transaction paid_instruction paid_transfer
                  eq_refl eq_refl eq_refl).
    vm_compute in Hpaid. vm_compute. exact Hpaid.
  - pose proof (C2_confirm_exact_match example_host example_world
                  (db_with (example_bet PENDING None None)) "betA" "sigC"
                  (example_bet PENDING None None) example_connection
                  ltac:(discriminate) ltac:(discriminate) ltac:(discriminate)
                  ltac:(vm_compute; reflexivity) eq_refl) as (Hnone & _).
    specialize (Hnone eq_refl).
    vm_compute in Hnone. vm_compute. exact Hnone.
Defined.


(** C7 on a confirm request sent from another wallet. *)
Lemma C7_witness :
  snd (route (confirm example_host paid_world (JsString "betA") (JsString "sigC")
                (JsString other_wallet)) (db_with (example_bet PENDING None None)))
  = db_with (example_bet PENDING None None)
  /\ code (fst (route (confirm example_host paid_world (JsString "betA") (JsString "sigC")
                         (JsString other_wallet))
                  (db_with (example_bet PENDING None None)))) = 400%Z
  /\ (truthy (JsString "betA") && truthy (JsString "sigC")
      && truthy (JsString other_wallet) = true ->
      fst (route (confirm example_host paid_world (JsString "betA") (JsString "sigC")
                    (JsString other_wallet)) (db_with (example_bet PENDING None None)))
      = {| code := 400; body := ErrorBody "Wallet mismatch" |}).
Proof.
  apply (C7_wallet_mismatch example_host paid_world
           (db_with (example_bet PENDING None None))
           (JsString "betA") (JsString "sigC") (JsString other_wallet)
           "betA" (example_bet PENDING None None)).
  - reflexivity.
  - vm_compute. reflexivity.
  - vm_compute. reflexivity.
Defined.

(** C8 on an empty store and on a store that holds a market. *)
Lemma C8_witness :
  (exists ms : gmap string Market,
     seedIfEmpty (nanoid example_world) 1700000000000 empty_db
     = (Ok tt, set_markets ms empty_db) /\ size ms = 20)
  /\ seedIfEmpty (nanoid example_world) 1700000000000 example_db = (Ok tt, example_db).
Proof.
  split.
  - apply (proj1 (proj2 (proj2 (C8_seedIfEmpty_idempotent (nanoid example_world)
                                  1700000000000 empty_db)))).
    + vm_compute. reflexivity.
    + apply (bool_decide_unpack _). vm_compute. reflexivity.
  - apply (proj1 (C8_seedIfEmpty_idempotent (nanoid example_world)
                    1700000000000 example_db)).
    vm_compute. lia.
Defined.

(** C9 on a pending bet and the reference [sigB]. *)
Lemma C9_witness :
  bets (snd (markBetFailed example_host (JsString "betA") (JsString "sigB")
               (JsString "TX_NOT_FOUND") (db_with (example_bet PENDING None None))))
    !! "betA"
  = Some (failed_row (example_bet PENDING None None) (Some "sigB")).
Proof.
  destruct (C9_markBetFailed_frame example_host "betA" (JsString "sigB")
              (JsString "TX_NOT_FOUND") (db_with (example_bet PENDING None None))
              (example_bet PENDING None None))
    as (_ & _ & Hstring & _).
  - vm_compute. reflexivity.
  - discriminate.
  - exact (Hstring "sigB" eq_refl).
Defined.

(** C10 in a world where [TREASURY_PUBKEY] is not set. *)
Lemma C10_witness :
  exists amt : float,
    parseAmountSol example_host (JsNumber 0.5) = Some amt
    /\ snd (handle example_host bare_world initiate_half_sol example_db)
       = set_bets (<["betA" := pending_row bare_world "mkt1234567" "YES" amt example_wallet]>
                     (bets example_db)) example_db
    /\ fst (handle example_host bare_world initiate_half_sol example_db)
       = {| code := 500; body := ErrorBody "TREASURY_PUBKEY not set" |}.
Proof.
  destruct (C10_pending_row_persists_on_failure example_host bare_world example_db
              "mkt1234567" "YES" example_wallet (JsNumber 0.5))
    as (amt & Hp & Hstore & _ & Hbare & _).
  - vm_compute. reflexivity.
  - vm_compute. reflexivity.
  - exists amt. split; [exact Hp |]. split; [exact Hstore |].
    apply Hbare. reflexivity.
Defined.

(** * The further properties on concrete inputs *)

(** X1 on the example wallet. *)
Lemma X1_witness :
  32 <= String.length example_wallet /\ String.length example_wallet <= 44
  /\ forall c : ascii, In c (list_ascii_of_string example_wallet) ->
       alphanumeric c = true /\ easily_mistaken c = false.
Proof.
  apply (proj1 (X1_wallet_pattern_alphabet example_wallet)).
  vm_compute. reflexivity.
Defined.

(** X2 on the insert of a pending bet of 0.5 SOL. *)
Lemma X2_witness :
  exists row : Bet,
    getBet example_host (JsString "betA") (db_with (example_bet PENDING None None))
    = (Ok (Some row), db_with (example_bet PENDING None None))
    /\ amount_sol row = 0.5%float
    /\ status row = PENDING /\ tx row = None /\ proof row = None.
Proof.
  destruct (X2_createBet_then_getBet example_host "betA" 1700000000000
              (JsString "mkt1234567") (JsString "YES") 0.5 (JsString example_wallet)
              solana PENDING example_db (db_with (example_bet PENDING None None)) "betA")
    as (row & Hget & _ & _ & _ & _ & Hnonzero & _ & _ & _ & Hst & Htx & Hproof & _).
  - vm_compute. reflexivity.
  - exists row. split; [exact Hget |]. split; [apply Hnonzero; reflexivity |].
    repeat split; assumption.
Defined.

(** X3 on an id that a row already has. *)
Lemma X3_witness :
  exists e : Exn,
    createBet example_host "betA" 1700000000000 (JsString "mkt1234567") (JsString "NO")
      1 (JsString other_wallet) solana PENDING (db_with (example_bet PENDING None None))
    = (Throw e, db_with (example_bet PENDING None None)).
Proof.
  apply (proj1 (proj2 (X3_createBet_refusals example_host "betA" 1700000000000
                         (JsString "mkt1234567") (JsString "NO") 1
                         (JsString other_wallet) solana PENDING
                         (db_with (example_bet PENDING None None))))).
  exists (example_bet PENDING None None). vm_compute. reflexivity.
Defined.

(** X4 on a pending bet. *)
Lemma X4_witness :
  bets (snd (markBetConfirmed example_host (JsString "betA") (JsString "sigC")
               (JsString "bet:betA:sig:sigC") (db_with (example_bet PENDING None None))))
    !! "betA"
  = Some (confirmed_row (example_bet PENDING None None) "sigC" "bet:betA:sig:sigC").
Proof.
  destruct (X4_markBetConfirmed_frame example_host "betA" (JsString "sigC")
              (JsString "bet:betA:sig:sigC") (db_with (example_bet PENDING None None))
              (example_bet PENDING None None))
    as (_ & _ & Hstring & _).
  - vm_compute. reflexivity.
  - simpl. discriminate.
  - simpl. discriminate.
  - exact (Hstring "sigC" "bet:betA:sig:sigC" eq_refl eq_refl).
Defined.

(** X5 on an id that no bet has. *)
Lemma X5_witness :
  markBetFailed example_host (JsString "betZ") (JsString "sigB") (JsString "TX_NOT_FOUND")
    (db_with (example_bet PENDING None None))
  = (Ok tt, db_with (example_bet PENDING None None)).
Proof.
  apply (proj2 (X5_mark_absent_id example_host "betZ" (JsString "sigB") JsNull
                  (JsString "TX_NOT_FOUND") (db_with (example_bet PENDING None None))
                  ltac:(vm_compute; reflexivity))).
  simpl. discriminate.
Defined.

(** X6: failed after confirmed, the proof of the confirmation stays. *)
Lemma X6_witness :
  bets (snd (markBetFailed example_host (JsString "betA") (JsString "sigB") JsNull
               (snd (markBetConfirmed example_host (JsString "betA") (JsString "sigC")
                       (JsString "bet:betA:sig:sigC")
                       (db_with (example_bet PENDING None None))))))
    !! "betA"
  = Some (example_bet FAILED (Some "sigB") (Some "bet:betA:sig:sigC")).
Proof.
  exact (proj1 (X6_updates_compose example_host "betA" "sigC" "sigB" "bet:betA:sig:sigC"
                  JsNull (db_with (example_bet PENDING None None))
                  (example_bet PENDING None None) ltac:(vm_compute; reflexivity))).
Defined.

(** X7 on the chain that holds the transfer of the example. *)
Lemma X7_witness :
  exists (conn : Connection) (tr : ParsedTransaction) (ix : Instruction)
         (p : ParsedInstruction) (inf : TransferInfo),
    connection paid_world (env (SOLANA_RPC paid_world)) = Ok conn
    /\ getParsedTransaction conn (JsString "sigC") = Ok (Some tr)
    /\ In ix (default [] (instructions tr))
    /\ program ix = JsString "system"
    /\ parsed ix = Some p /\ type p = JsString "transfer" /\ info p = Some inf
    /\ strict_equals (source inf) (JsString example_wallet) = true
    /\ strict_equals (destination inf) (JsString example_treasury) = true
    /\ PrimFloat.eqb (ToNumber example_host (lamports inf)) 500000000 = true.
Proof.
  apply (proj1 (X7_verified_only_on_exact_transfer example_host paid_world
                  (env (SOLANA_RPC paid_world)) (JsString "sigC")
                  (JsString example_wallet) (JsString example_treasury) 500000000)).
  vm_compute. reflexivity.
Defined.

(** X8 on the transaction of the example, whose only instruction is the
    transfer. *)
Lemma X8_witness :
  verifySolTransfer example_host paid_world (env (SOLANA_RPC paid_world)) (JsString "sigC")
    (JsString example_wallet) (JsString example_treasury) 500000000
  = Ok Verified.
Proof.
  exact (X8_first_transfer_decides example_host paid_world
           (env (SOLANA_RPC paid_world)) (JsString "sigC")
           (JsString example_wallet) (JsString example_treasury) 500000000
           paid_connection paid_transaction [] [] paid_instruction
           eq_refl eq_refl eq_refl eq_refl eq_refl).
Defined.

(** X9 on the initiate request of 0.5 SOL. *)
Lemma X9_witness :
  exists amt : float,
    parseAmountSol example_host (JsNumber 0.5) = Some amt
    /\ snd (route (initiate example_host example_world (JsString "mkt1234567")
                     (JsString "YES") (JsNumber 0.5) (JsString example_wallet))
              example_db)
       = set_bets (<["betA" := pending_row example_world "mkt1234567" "YES" amt
                                 example_wallet]> (bets example_db)) example_db.
Proof.
  destruct (X9_initiate_answer example_host example_world (JsString "mkt1234567")
              (JsString "YES") (JsNumber 0.5) (JsString example_wallet) example_db
              200 "betA" "AQAAAA==" ltac:(vm_compute; reflexivity))
    as (m & s & ws & amt & conn & blockhash & height
        & [= <-] & [= <-] & Hws & Hp & _ & _ & _ & Hstore & _).
  simpl in Hws. injection Hws as <-.
  exists amt. split; [exact Hp | exact Hstore].
Defined.

(** X10 on the initiate request of 0.5 SOL and the chain that holds the
    transfer of 500000000 lamports. *)
Lemma X10_witness :
  exists amt : float,
    parseAmountSol example_host (JsNumber 0.5) = Some amt
    /\ route (confirm example_host paid_world (JsString "betA") (JsString "sigC")
                (JsString example_wallet))
         (snd (route (initiate example_host example_world (JsString "mkt1234567")
                        (JsString "YES") (JsNumber 0.5) (JsString example_wallet))
                 example_db))
       = if transfer_matches example_host paid_transfer (JsString example_wallet)
              (env (TREASURY_PUBKEY paid_world))
              (Math_round (PrimFloat.mul amt LAMPORTS_PER_SOL))
         then ({| code := 200;
                  body := ConfirmedBody (JsString "betA") (JsString "sigC")
                            "bet:betA:sig:sigC" |},
               set_bets (<["betA" := confirmed_row
                                       (pending_row example_world "mkt1234567" "YES" amt
                                          example_wallet)
                                       "sigC" "bet:betA:sig:sigC"]> (bets example_db))
                 example_db)
         else ({| code := 400;
                  body := ConfirmFailedBody (mismatch_description example_host
                                               paid_transfer) |},
               set_bets (<["betA" := failed_row
                                       (pending_row example_world "mkt1234567" "YES" amt
                                          example_wallet)
                                       (Some "sigC")]> (bets example_db)) example_db).
Proof.
  exact (X10_initiate_then_confirm example_host example_world paid_world example_db
           "mkt1234567" "YES" example_wallet "sigC" (JsNumber 0.5)
           paid_connection paid_transaction paid_instruction paid_transfer
           ltac:(vm_compute; reflexivity) ltac:(vm_compute; reflexivity)
           ltac:(discriminate) ltac:(discriminate)
           eq_refl eq_refl eq_refl eq_refl).
Defined.

(** X11 on a confirm request whose reference the chain does not know. *)
Lemma X11_witness :
  400%Z = 400%Z
  /\ exists (k : string) (b : Bet),
       bindText example_host (JsString "betA") = BindText k
       /\ bets (db_with (example_bet PENDING None None)) !! k = Some b
       /\ snd (route (confirm example_host example_world (JsString "betA")
                        (JsString "sigB") (JsString example_wallet))
                 (db_with (example_bet PENDING None None)))
          = set_bets (<[k := failed_row b
                               (bound_text (bindText example_host
                                              (nullish (JsString "sigB") JsNull)))]>
                        (bets (db_with (example_bet PENDING None None))))
              (db_with (example_bet PENDING None None)).
Proof.
  apply (proj1 (proj2 (X11_confirm_answer example_host example_world (JsString "betA")
                         (JsString "sigB") (JsString example_wallet)
                         (db_with (example_bet PENDING None None))))
           400%Z "TX_NOT_FOUND").
  vm_compute. reflexivity.
Defined.

(** X12 on a confirm request without a reference. *)
Lemma X12_witness :
  route (confirm example_host example_world (JsString "betA") JsUndefined
           (JsString example_wallet)) (db_with (example_bet PENDING None None))
  = ({| code := 400; body := ErrorBody "betId, txSignature, wallet are required" |},
     db_with (example_bet PENDING None None)).
Proof.
  apply (proj1 (X12_confirm_refusals example_host example_world (JsString "betA")
                  JsUndefined (JsString example_wallet)
                  (db_with (example_bet PENDING None None)))).
  reflexivity.
Defined.

(** X13 on a receipt for the market of the example. *)
Lemma X13_witness :
  200%Z = 200%Z /\ "betA" = nanoid example_world 0
  /\ bets example_db !! "betA" = None
  /\ verifyMessage example_host (JsString "I bet YES") (JsString "0x1b2c")
     = Ok example_address
  /\ exists (m s a : string),
       bindText example_host (JsString "mkt1234567") = BindText m
       /\ JsString "YES" = JsString s
       /\ JsString example_address = JsString a
       /\ toLowerCase example_host example_address = toLowerCase example_host a
       /\ snd (route (evm_receipt example_host example_world (JsString "mkt1234567")
                        (JsString "YES") (JsNumber 0.5) (JsString example_address)
                        (JsString "I bet YES") (JsString "0x1b2c")) example_db)
          = set_bets (<["betA" := created_row m s
                                    (real_column (ToNumber example_host (JsNumber 0.5)))
                                    a evm
                                    (now example_world) RECEIPT_ONLY]> (bets example_db))
              example_db.
Proof.
  apply (proj2 (X13_receipt_answer example_host example_world (JsString "mkt1234567")
                  (JsString "YES") (JsNumber 0.5) (JsString example_address)
                  (JsString "I bet YES") (JsString "0x1b2c") example_db)
           200%Z "betA" example_address).
  vm_compute. reflexivity.
Defined.

(** X14 on a receipt whose amount is 0. *)
Lemma X14_witness :
  route (evm_receipt example_host example_world (JsString "mkt1234567") (JsString "YES")
           (JsNumber 0) (JsString example_address) (JsString "I bet YES")
           (JsString "0x1b2c")) example_db
  = ({| code := 400; body := ErrorBody "Missing fields" |}, example_db).
Proof.
  apply (proj1 (X14_receipt_refusals example_host example_world (JsString "mkt1234567")
                  (JsString "YES") (JsNumber 0) (JsString example_address)
                  (JsString "I bet YES") (JsString "0x1b2c") example_db)).
  vm_compute. reflexivity.
Defined.

(** X15 on a request that carries the token itself, without [Bearer]. *)
Lemma X15_witness :
  route (admin_seed example_host example_world (JsString "secret")) empty_db
  = ({| code := 401; body := UnauthorizedBody |}, empty_db).
Proof.
  apply (proj1 (X15_admin_seed_authorization example_host example_world
                  (JsString "secret") empty_db)).
  intros Heq. vm_compute in Heq. discriminate Heq.
Defined.

(** X16 on the row of a bet initiated and then confirmed. *)
Lemma X16_witness :
  lifecycle_consistent
    (confirmed_row (example_bet PENDING None None) "sigC" "bet:betA:sig:sigC").
Proof.
  apply (X16_run_store_consistent example_host
           [(example_world, initiate_half_sol); (paid_world, confirm_betA "sigC")]
           example_db) with (k := "betA").
  - intros k b Hb. unfold example_db, bets in Hb. rewrite lookup_empty in Hb.
    discriminate Hb.
  - vm_compute. reflexivity.
Defined.

(** X17 on a bet initiated and then confirmed. *)
Lemma X17_witness :
  markets (run example_host
             [(example_world, initiate_half_sol); (paid_world, confirm_betA "sigC")]
             example_db) = markets example_db
  /\ listMarkets (run example_host
                    [(example_world, initiate_half_sol); (paid_world, confirm_betA "sigC")]
                    example_db) = listMarkets example_db.
Proof.
  apply (proj2 (X17_run_markets_frozen example_host
                  [(example_world, initiate_half_sol); (paid_world, confirm_betA "sigC")]
                  example_db)).
  vm_compute. lia.
Defined.

(** X18 on a bet initiated and a receipt recorded. *)
Lemma X18_witness :
  minimum_respected (run example_host
                       [(example_world, initiate_half_sol);
                        (paid_world, receipt "mkt1234567" (-5))] example_db)
  /\ (foreign_keys example_host = true ->
      markets_referenced (run example_host
                            [(example_world, initiate_half_sol);
                             (paid_world, receipt "mkt1234567" (-5))] example_db)).
Proof.
  apply (X18_run_from_no_bets example_host
           [(example_world, initiate_half_sol); (paid_world, receipt "mkt1234567" (-5))]
           example_db).
  reflexivity.
Defined.

(** X19 on two bets of 0.5 SOL of the example wallet and one transfer. *)
Lemma X19_witness :
  status <$> bets (snd (route (confirm example_host paid_world (JsString "betB")
                                 (JsString "sigC") (JsString example_wallet))
                          (snd (route (confirm example_host paid_world (JsString "betA")
                                         (JsString "sigC") (JsString example_wallet))
                                  two_bets_db)))) !! "betA" = Some CONFIRMED
  /\ status <$> bets (snd (route (confirm example_host paid_world (JsString "betB")
                                    (JsString "sigC") (JsString example_wallet))
                             (snd (route (confirm example_host paid_world
                                            (JsString "betA") (JsString "sigC")
                                            (JsString example_wallet))
                                     two_bets_db)))) !! "betB" = Some CONFIRMED.
Proof.
  destruct (X19_reference_confirms_twice example_host paid_world two_bets_db
              "betA" "betB" "sigC" (example_bet PENDING None None)
              (example_bet PENDING None None)
              ltac:(discriminate) ltac:(discriminate) ltac:(discriminate)
              ltac:(discriminate) ltac:(discriminate)
              ltac:(vm_compute; reflexivity) ltac:(vm_compute; reflexivity)
              eq_refl eq_refl ltac:(vm_compute; reflexivity))
    as (_ & _ & Ha & Hb).
  split.
  - change (wallet (example_bet PENDING None None)) with example_wallet in Ha.
    rewrite Ha. reflexivity.
  - change (wallet (example_bet PENDING None None)) with example_wallet in Hb.
    rewrite Hb. reflexivity.
Defined.

(** X20 on the store of the example. *)
Lemma X20_witness :
  NoDup (listMarkets example_db) /\ length (listMarkets example_db) <= 1.
Proof.
  destruct (proj2 (X20_listMarkets example_db) (listMarkets example_db)
              (proj1 (X20_listMarkets example_db))) as (_ & Hnodup & Hlen & _).
  split; [exact Hnodup | exact Hlen].
Defined.

(** X21 on the seeding of the empty store. *)
Lemma X21_witness :
  length (listMarkets (snd (seedIfEmpty (nanoid example_world) 1700000000000 empty_db)))
  = 20.
Proof.
  apply (X21_seeded_markets_listed (nanoid example_world) 1700000000000 empty_db
           (snd (seedIfEmpty (nanoid example_world) 1700000000000 empty_db))
           (listMarkets (snd (seedIfEmpty (nanoid example_world) 1700000000000
                                empty_db)))).
  - reflexivity.
  - vm_compute. reflexivity.
  - apply listMarkets_lists.
Defined.

(** X22 on the example wallet and its pending bet. *)
Lemma X22_witness :
  exists rows : list (string * Bet),
    listBetsForWallet example_host (JsString example_wallet)
      (db_with (example_bet PENDING None None))
    = (Ok rows, db_with (example_bet PENDING None None))
    /\ lists_bets example_wallet (db_with (example_bet PENDING None None)) rows.
Proof.
  exact (proj1 (X22_listBetsForWallet example_host example_wallet
                  (db_with (example_bet PENDING None None)))).
Defined.

(** X23 on the insert of a pending bet of 0.5 SOL. *)
Lemma X23_witness :
  exists (ws : string) (row : Bet),
    bindText example_host (JsString example_wallet) = BindText ws
    /\ bets (db_with (example_bet PENDING None None)) !! "betA" = Some row
    /\ wallet row = ws.
Proof.
  destruct (X23_created_bet_listed example_host "betA" 1700000000000
              (JsString "mkt1234567") (JsString "YES") 0.5 (JsString example_wallet)
              solana PENDING example_db (db_with (example_bet PENDING None None)) "betA")
    as (ws & row & Hws & Hrow & Hwallet & _).
  - vm_compute. reflexivity.
  - exists ws, row. repeat split; assumption.
Defined.

(** X24 on the confirm request of the example, sent twice. *)
Lemma X24_witness :
  route (confirm example_host paid_world (JsString "betA") (JsString "sigC")
           (JsString example_wallet))
    (snd (route (confirm example_host paid_world (JsString "betA") (JsString "sigC")
                   (JsString example_wallet)) (db_with (example_bet PENDING None None))))
  = route (confirm example_host paid_world (JsString "betA") (JsString "sigC")
             (JsString example_wallet)) (db_with (example_bet PENDING None None)).
Proof.
  exact (X24_confirm_again example_host paid_world (JsString "betA") (JsString "sigC")
           (JsString example_wallet) (db_with (example_bet PENDING None None))).
Defined.
